(** * Modular megafauna model: herbivore energetics, mortality, merging,
      forage distribution and the establishment cycle

    A shallow embedding of the parts of the C++ sources that the daily
    herbivore simulation is specified on.

    Conventions of the embedding.
    - A C++ [double] is a real number ([R]).  The guards against NaN and
      INFINITY have no counterpart over the reals and are recorded in
      comments only.  Where a property of the real numbers is lost by
      rounding, the arithmetic is given a second time on the kernel's
      binary64 numbers (module [Binary64]).
    - A C++ [int] is an integer ([Z]).
    - A method that may throw returns a [result]; a method that also
      mutates its object returns the object as it is when the call ends
      (normally or by a throw) together with the [result].
    - A failing [assert] is the outcome [assertion_failed].
    - [std::map] is a [gmap].  A [std::set] that is only iterated is the
      duplicate-free list of its elements in iteration order. *)

From Stdlib Require Import Reals Lra ZArith Lia List Bool String.
From stdpp Require Import base decidable countable gmap.
From Stdlib Require Floats.PrimFloat.
Import ListNotations.

#[local] Open Scope Z_scope.
#[local] Open Scope R_scope.

(** ** Exceptions and results *)

Inductive exn : Type :=
| invalid_argument
| logic_error
| assertion_failed.

Inductive result (A : Type) : Type :=
| Ok (a : A)
| Throw (e : exn).

Arguments Ok {A} a.
Arguments Throw {A} e.

Definition rbind {A B : Type} (r : result A) (k : A -> result B) : result B :=
  match r with
  | Ok a => k a
  | Throw e => Throw e
  end.

Notation "'do' x <- r ; k" := (rbind r (fun x => k))
  (at level 10, x name, r at level 100, k at level 200).

(** Comparisons of doubles as booleans. *)
Definition Rltb (x y : R) : bool := if Rlt_dec x y then true else false.
Definition Rleb (x y : R) : bool := if Rle_dec x y then true else false.
Definition Reqb (x y : R) : bool := if Req_dec_T x y then true else false.

(** ** Forage types and per-forage-type values *)

Inductive ForageType : Type := Grass | Inedible.

(** [ForageValues]: one double per forage type.  The class
    (forage_values.h) is not among the sources; the vector here has an
    entry for either enumerator of [ForageType], the inedible type
    included, where the sources that list the forage types of a vector
    ([FORAGE_TYPES]) leave that type out. *)
Definition ForageValues : Type := ForageType -> R.

(** [ForageValues(init)]: every forage type holds [init]. *)
Definition fv_const (init : R) : ForageValues := fun _ => init.

(** [fv == d]: every forage type holds [d]. *)
Definition fv_eq_scalar (fv : ForageValues) (d : R) : bool :=
  Reqb (fv Grass) d && Reqb (fv Inedible) d.

Definition fv_div_scalar (fv : ForageValues) (d : R) : ForageValues :=
  fun ft => fv ft / d.

Definition fv_mul_scalar (fv : ForageValues) (d : R) : ForageValues :=
  fun ft => fv ft * d.

Definition fv_mul (a b : ForageValues) : ForageValues :=
  fun ft => a ft * b ft.

Definition fv_add (a b : ForageValues) : ForageValues :=
  fun ft => a ft + b ft.

Definition fv_sum (fv : ForageValues) : R := fv Grass + fv Inedible.

(** ** Net energy content (src/Fauna/net_energy_models.cpp) *)

Module NetEnergy.

Inductive DigestionType : Type := DT_RUMINANT | DT_HINDGUT.

Definition ME_COEFFICIENT_GRASS : R := 15.
Definition DIGESTION_EFFICIENCY_HINDGUTS : R := 93 / 100.

(** The constructor of [GetNetEnergyContentDefault] fixes the digestion
    efficiency from the digestion type. *)
Definition digestion_efficiency (digestion_type : DigestionType) : R :=
  match digestion_type with
  | DT_RUMINANT => 1
  | DT_HINDGUT => DIGESTION_EFFICIENCY_HINDGUTS
  end.

Definition get_per_forage_type (digestion_type : DigestionType)
    (forage_type : ForageType) (digestibility : R) : result R :=
  if negb (Rleb 0 digestibility && Rleb digestibility 1) then
    Throw invalid_argument
  else
    match forage_type with
    | Inedible => Ok 0
    | Grass =>
        let ME := digestibility * ME_COEFFICIENT_GRASS in
        let e := digestion_efficiency digestion_type in
        let result := ME * (19 / 1000 * ME + 503 / 1000) * e in
        if Rleb 0 result then Ok result else Throw assertion_failed
    end.

(** [GetNetEnergyContentInterface::operator()]: the per-type function on
    every forage type of the digestibility, which here includes the
    entry of the inedible type (see [ForageValues]). *)
Definition get_net_energy_content_default (digestion_type : DigestionType)
    (digestibility : ForageValues) : result ForageValues :=
  do g <- get_per_forage_type digestion_type Grass (digestibility Grass);
  do i <- get_per_forage_type digestion_type Inedible (digestibility Inedible);
  Ok (fun ft => match ft with Grass => g | Inedible => i end).

End NetEnergy.

(** ** Weighted average (src/Fauna/average.cpp) *)

Module Average.

(** The tests [weight != weight] (NaN) and [weight == INFINITY] never hold
    for a real number; [AverageDouble.average] has them, for weights
    that may be NaN or infinite. *)
Definition average (a b weight_a weight_b : R) : result R :=
  if Rltb weight_a 0 || Rltb weight_b 0 then Throw invalid_argument
  else if Reqb (weight_a + weight_b) 0 then Throw invalid_argument
  else Ok ((a * weight_a + b * weight_b) / (weight_a + weight_b)).

End Average.


(** [PeriodAverage] (src/Fauna/average.cpp): a ring buffer of the last
    [count] values. *)
Module PeriodAverage.

Record t : Type := mk {
  count : Z;
  values : list R;
  current_index : Z
}.

(** Writing [values[i] = v] for [i] below the size of the vector. *)
Fixpoint overwrite (l : list R) (i : nat) (v : R) : list R :=
  match l, i with
  | [], _ => []
  | _ :: tl, O => v :: tl
  | x :: tl, S j => x :: overwrite tl j v
  end.

Definition add_value (v : R) (p : t) : t * result unit :=
  if negb (current_index p <? count p)%Z then (p, Throw assertion_failed)
  else
    let values' :=
      if (current_index p <? Z.of_nat (length (values p)))%Z
      then overwrite (values p) (Z.to_nat (current_index p)) v
      else values p ++ [v] in
    (mk (count p) values' (Z.rem (current_index p + 1) (count p)), Ok tt).

Definition get_average (p : t) : result R :=
  if negb (Z.of_nat (length (values p)) <=? count p)%Z then
    Throw assertion_failed
  else
    match values p with
    | [] => Throw logic_error
    | _ =>
        let sum := fold_left Rplus (values p) 0 in
        Ok (sum / INR (length (values p)))
    end.

End PeriodAverage.

(** ** Herbivore functional type *)

Inductive Sex : Type := SEX_FEMALE | SEX_MALE.

Inductive MortalityFactor : Type :=
| MF_BACKGROUND
| MF_LIFESPAN
| MF_STARVATION_ILLIUS_OCONNOR_2000
| MF_STARVATION_THRESHOLD.

Inductive ReproductionModel : Type :=
| RM_NONE
| RM_CONST_MAX
| RM_ILLIUS_OCONNOR_2000
| RM_LINEAR.

Inductive NetEnergyModel : Type := NE_DEFAULT.

#[global] Instance MortalityFactor_eq_dec : EqDecision MortalityFactor.
Proof. solve_decision. Defined.

Definition MortalityFactor_to_nat (f : MortalityFactor) : nat :=
  match f with
  | MF_BACKGROUND => 0
  | MF_LIFESPAN => 1
  | MF_STARVATION_ILLIUS_OCONNOR_2000 => 2
  | MF_STARVATION_THRESHOLD => 3
  end.

Definition MortalityFactor_of_nat (n : nat) : MortalityFactor :=
  match n with
  | 0%nat => MF_BACKGROUND
  | 1%nat => MF_LIFESPAN
  | 2%nat => MF_STARVATION_ILLIUS_OCONNOR_2000
  | _ => MF_STARVATION_THRESHOLD
  end.

#[global] Program Instance MortalityFactor_countable : Countable MortalityFactor :=
  inj_countable' MortalityFactor_to_nat MortalityFactor_of_nat _.
Next Obligation. intros []; reflexivity. Qed.

(** The members of [Hft] that the embedded functions read.  The
    declaration (hft.h) is not among the sources; names and types follow
    their uses.  [mortality_factors] is a [std::set]: the list holds its
    elements in iteration order. *)
Record Hft : Type := mkHft {
  name : string;
  bodyfat_birth : R;
  bodyfat_deviation : R;
  bodyfat_max : R;
  bodymass_birth : R;
  bodymass_female : R;
  bodymass_male : R;
  breeding_season_length : Z;
  breeding_season_start : Z;
  digestion_type : NetEnergy.DigestionType;
  gestation_months : Z;
  lifespan : Z;
  maturity_age_phys_female : R;
  maturity_age_phys_male : R;
  maturity_age_sex : R;
  minimum_density_threshold : R;
  mortality : R;
  mortality_factors : list MortalityFactor;
  mortality_juvenile : R;
  net_energy_model : NetEnergyModel;
  reproduction_max : R;
  reproduction_model : ReproductionModel;
  shift_body_condition_for_starvation : bool
}.

(** [Hft::operator==], [operator!=]: two functional types are the same
    when they carry the same name. *)
Definition hft_eqb (a b : Hft) : bool := String.eqb (name a) (name b).

(** ** Fat-mass energy budget *)

Module FatmassEnergyBudget.

(** Modelled from the spec: the class [FatmassEnergyBudget] (energetics)
    is not among the sources.  Its state is the per-individual state of
    section 4.1: fat mass, maximum fat mass, energy needs and today's
    maximum anabolism. *)
Record t : Type := mk {
  fatmass : R;
  max_fatmass : R;
  energy_needs : R;
  max_anabolism_per_day : R
}.

Definition get_fatmass (b : t) : R := fatmass b.
Definition get_energy_needs (b : t) : R := energy_needs b.
Definition get_max_anabolism_per_day (b : t) : R := max_anabolism_per_day b.

(** Modelled from the spec: the mean of [x] and [y] weighted by [wx] and
    [wy] (section 4.1, "density-weighted mean"). *)
Definition weighted_mean (x y wx wy : R) : R := (x * wx + y * wy) / (wx + wy).

(** Modelled from the spec: [FatmassEnergyBudget::merge] (energetics) is
    not among the sources.  Section 4.1: "merge(other, weight_self,
    weight_other): density-weighted mean of all state variables". *)
Definition merge (other : t) (this_weight other_weight : R) (this : t) : t :=
  mk (weighted_mean (fatmass this) (fatmass other) this_weight other_weight)
     (weighted_mean (max_fatmass this) (max_fatmass other) this_weight other_weight)
     (weighted_mean (energy_needs this) (energy_needs other) this_weight other_weight)
     (weighted_mean (max_anabolism_per_day this) (max_anabolism_per_day other)
        this_weight other_weight).

End FatmassEnergyBudget.

(** ** Daily output of one herbivore *)

Module HerbivoreData.

(** The members of [Output::HerbivoreData] that [HerbivoreBase] writes. *)
Record t : Type := mk {
  mortality : gmap MortalityFactor R;
  energy_content : ForageValues;
  eaten_forage_per_ind : ForageValues;
  eaten_forage_per_mass : ForageValues;
  energy_intake_per_ind : ForageValues;
  energy_intake_per_mass : ForageValues;
  eaten_nitrogen_per_ind : R
}.

Definition set_mortality (f : MortalityFactor) (m : R) (o : t) : t :=
  mk (<[f := m]> (mortality o)) (energy_content o) (eaten_forage_per_ind o)
     (eaten_forage_per_mass o) (energy_intake_per_ind o)
     (energy_intake_per_mass o) (eaten_nitrogen_per_ind o).

Definition set_energy_content (ec : ForageValues) (o : t) : t :=
  mk (mortality o) ec (eaten_forage_per_ind o) (eaten_forage_per_mass o)
     (energy_intake_per_ind o) (energy_intake_per_mass o)
     (eaten_nitrogen_per_ind o).

(** The five [+=] at the end of [HerbivoreBase::eat]. *)
Definition add_eaten (kg_per_ind mj_per_ind : ForageValues)
    (N_per_ind bodymass : R) (o : t) : t :=
  mk (mortality o) (energy_content o)
     (fv_add (eaten_forage_per_ind o) kg_per_ind)
     (fv_add (eaten_forage_per_mass o) (fv_div_scalar kg_per_ind bodymass))
     (fv_add (energy_intake_per_ind o) mj_per_ind)
     (fv_add (energy_intake_per_mass o) (fv_div_scalar mj_per_ind bodymass))
     (eaten_nitrogen_per_ind o + N_per_ind).

End HerbivoreData.

(** ** The herbivore base class (src/Fauna/herbivore_base.cpp) *)

(** The classes and functions that [HerbivoreBase] calls and that are not
    among the sources.  A function is fallible here when the sources show
    it throwing (a try block around the call, a unit test). *)
Class Collaborators : Type := {
  (** nitrogen.h *)
  NitrogenInHerbivore : Type;
  nitrogen_ingest : R -> NitrogenInHerbivore -> NitrogenInHerbivore;
  (** habitat_forage.h *)
  HabitatForage : Type;
  get_digestibility : HabitatForage -> ForageValues;
  (** get_forage_demands.h *)
  GetForageDemands : Type;
  is_day_initialized : Z -> GetForageDemands -> bool;
  init_today :
    Z -> HabitatForage -> ForageValues -> R -> GetForageDemands -> GetForageDemands;
  add_eaten : ForageValues -> GetForageDemands -> result GetForageDemands;
  demand_per_ind : R -> GetForageDemands -> result (ForageValues * GetForageDemands);
  (** energetics.h *)
  metabolize_energy : R -> FatmassEnergyBudget.t -> FatmassEnergyBudget.t;
  force_body_condition : R -> FatmassEnergyBudget.t -> FatmassEnergyBudget.t;
  (** mortality.h: the four mortality functors *)
  GetBackgroundMortality : R -> R -> Z -> R;
  GetSimpleLifespanMortality : Z -> Z -> R;
  GetStarvationIlliusOConnor2000 : R -> bool -> R -> R * R;
  GetStarvationMortalityThreshold : R -> R;
  (** breeding_season.h, reproduction_models.h: a constructor returns the
      object, which is its member function [get_offspring_density] *)
  BreedingSeason : Type;
  BreedingSeason_new : Z -> Z -> result BreedingSeason;
  ReprIlliusOconnor2000 : BreedingSeason -> R -> result (Z -> R -> result R);
  ReproductionConstMax : BreedingSeason -> R -> result (Z -> result R);
  ReproductionLinear : BreedingSeason -> R -> result (Z -> R -> result R);
  (** herbivore_base.h: [get_age_years()], from the age in days *)
  age_years_of_days : Z -> R
}.

Section HerbivoreBase.

Context {collab : Collaborators}.

(** [D] is the state that a derived class (cohort, individual) adds. *)
Context {D : Type}.

Record HerbivoreBase : Type := mkHerbivoreBase {
  hft : Hft;
  sex : Sex;
  age_days : Z;
  today : Z;
  body_condition_gestation : PeriodAverage.t;
  nitrogen : NitrogenInHerbivore;
  energy_budget : FatmassEnergyBudget.t;
  current_output : HerbivoreData.t;
  get_forage_demands_per_ind : GetForageDemands;
  derived : D
}.

(** The pure virtual member functions, implemented by derived classes. *)
Class HerbivoreVirtual : Type := {
  get_ind_per_km2 : HerbivoreBase -> R;
  is_dead : HerbivoreBase -> bool;
  apply_mortality : R -> HerbivoreBase -> HerbivoreBase * result unit
}.

Context {virt : HerbivoreVirtual}.

Definition set_energy_budget (b : FatmassEnergyBudget.t) (h : HerbivoreBase)
    : HerbivoreBase :=
  mkHerbivoreBase (hft h) (sex h) (age_days h) (today h)
    (body_condition_gestation h) (nitrogen h) b (current_output h)
    (get_forage_demands_per_ind h) (derived h).

Definition set_current_output (o : HerbivoreData.t) (h : HerbivoreBase)
    : HerbivoreBase :=
  mkHerbivoreBase (hft h) (sex h) (age_days h) (today h)
    (body_condition_gestation h) (nitrogen h) (energy_budget h) o
    (get_forage_demands_per_ind h) (derived h).

Definition set_forage_demands (g : GetForageDemands) (h : HerbivoreBase)
    : HerbivoreBase :=
  mkHerbivoreBase (hft h) (sex h) (age_days h) (today h)
    (body_condition_gestation h) (nitrogen h) (energy_budget h)
    (current_output h) g (derived h).

Definition set_nitrogen (n : NitrogenInHerbivore) (h : HerbivoreBase)
    : HerbivoreBase :=
  mkHerbivoreBase (hft h) (sex h) (age_days h) (today h)
    (body_condition_gestation h) n (energy_budget h)
    (current_output h) (get_forage_demands_per_ind h) (derived h).

Definition get_sex (h : HerbivoreBase) : Sex := sex h.
Definition get_hft (h : HerbivoreBase) : Hft := hft h.
Definition get_age_days (h : HerbivoreBase) : Z := age_days h.
Definition get_age_years (h : HerbivoreBase) : R := age_years_of_days (age_days h).
Definition get_energy_budget (h : HerbivoreBase) : FatmassEnergyBudget.t :=
  energy_budget h.
Definition get_todays_output (h : HerbivoreBase) : HerbivoreData.t :=
  current_output h.

Definition Sex_eqb (a b : Sex) : bool :=
  match a, b with
  | SEX_FEMALE, SEX_FEMALE | SEX_MALE, SEX_MALE => true
  | _, _ => false
  end.

Definition get_bodymass_adult (h : HerbivoreBase) : R :=
  if Sex_eqb (get_sex h) SEX_MALE then bodymass_male (get_hft h)
  else bodymass_female (get_hft h).

Definition get_fatmass (h : HerbivoreBase) : R :=
  FatmassEnergyBudget.get_fatmass (get_energy_budget h).

Definition get_potential_bodymass (h : HerbivoreBase) : result R :=
  let maturity_age :=
    if Sex_eqb (get_sex h) SEX_MALE then maturity_age_phys_male (get_hft h)
    else maturity_age_phys_female (get_hft h) in
  if Rleb maturity_age (get_age_years h) then Ok (get_bodymass_adult h)
  else
    let birth_leanmass :=
      bodymass_birth (get_hft h) * (1 - bodyfat_birth (get_hft h)) in
    if negb (Rltb 0 (1 - bodyfat_max (get_hft h))) then Throw assertion_failed
    else
      let birth_potmass := birth_leanmass / (1 - bodyfat_max (get_hft h)) in
      if negb (Rltb 0 maturity_age) then Throw assertion_failed
      else
        let fraction := IZR (get_age_days h) / (maturity_age * 365) in
        let difference := get_bodymass_adult h - birth_potmass in
        Ok (birth_potmass + fraction * difference).

Definition get_lean_bodymass (h : HerbivoreBase) : result R :=
  do p <- get_potential_bodymass h;
  Ok (p * (1 - bodyfat_max (get_hft h))).

Definition get_max_fatmass (h : HerbivoreBase) : result R :=
  do p <- get_potential_bodymass h;
  Ok (p * bodyfat_max (get_hft h)).

Definition get_bodymass (h : HerbivoreBase) : result R :=
  do l <- get_lean_bodymass h;
  Ok (FatmassEnergyBudget.get_fatmass (get_energy_budget h) + l).

Definition get_bodyfat (h : HerbivoreBase) : result R :=
  do m <- get_bodymass h;
  Ok (FatmassEnergyBudget.get_fatmass (get_energy_budget h) / m).

Definition get_today (h : HerbivoreBase) : result Z :=
  if (today h =? -1)%Z then Throw logic_error
  else if negb ((0 <=? today h)%Z && (today h <? 365)%Z) then
    Throw assertion_failed
  else Ok (today h).

(** [NE_DEFAULT] is the only net energy model, so the branch that throws
    "not implemented" cannot be taken. *)
Definition get_net_energy_content (h : HerbivoreBase)
    (digestibility : ForageValues) : result ForageValues :=
  match net_energy_model (get_hft h) with
  | NE_DEFAULT =>
      NetEnergy.get_net_energy_content_default (digestion_type (get_hft h))
        digestibility
  end.

(** *** Reproduction *)

(** The four reproduction models are all handled, so the final branch that
    throws "not implemented" cannot be taken. *)
Definition get_todays_offspring_proportion (h : HerbivoreBase) : result R :=
  if Sex_eqb (get_sex h) SEX_MALE
     || Rltb (get_age_years h) (maturity_age_sex (get_hft h))
  then Ok 0
  else
    do breeding_season <-
      BreedingSeason_new (breeding_season_start (get_hft h))
        (breeding_season_length (get_hft h));
    do body_condition <- PeriodAverage.get_average (body_condition_gestation h);
    match reproduction_model (get_hft h) with
    | RM_ILLIUS_OCONNOR_2000 =>
        do illius_2000 <-
          ReprIlliusOconnor2000 breeding_season (reproduction_max (get_hft h));
        do d <- get_today h;
        illius_2000 d body_condition
    | RM_CONST_MAX =>
        do const_max <-
          ReproductionConstMax breeding_season (reproduction_max (get_hft h));
        do d <- get_today h;
        const_max d
    | RM_LINEAR =>
        do linear <-
          ReproductionLinear breeding_season (reproduction_max (get_hft h));
        do d <- get_today h;
        linear d body_condition
    | RM_NONE => Ok 0
    end.

(** *** Mortality *)

(** One pass of the loop body of [apply_mortality_factors_today] for the
    factor [f]: the rate of this factor is added to [mortality_sum] and
    written to today's output. *)
Definition mortality_factor_step (f : MortalityFactor) (mortality_sum : R)
    (h : HerbivoreBase) : HerbivoreBase * result R :=
  match f with
  | MF_BACKGROUND =>
      let mortality :=
        GetBackgroundMortality (mortality_juvenile (get_hft h))
          (mortality (get_hft h)) (get_age_days h) in
      (set_current_output
         (HerbivoreData.set_mortality MF_BACKGROUND mortality (get_todays_output h)) h,
       Ok (mortality_sum + mortality))
  | MF_LIFESPAN =>
      let mortality :=
        GetSimpleLifespanMortality (lifespan (get_hft h)) (get_age_days h) in
      (set_current_output
         (HerbivoreData.set_mortality MF_LIFESPAN mortality (get_todays_output h)) h,
       Ok (mortality_sum + mortality))
  | MF_STARVATION_ILLIUS_OCONNOR_2000 =>
      match get_max_fatmass h with
      | Throw e => (h, Throw e)
      | Ok max_fatmass =>
          let body_condition := get_fatmass h / max_fatmass in
          let bodyfat_deviation :=
            if Rleb 1 (get_age_years h) then bodyfat_deviation (get_hft h)
            else 0 in
          let '(mortality, new_body_condition) :=
            GetStarvationIlliusOConnor2000 bodyfat_deviation
              (shift_body_condition_for_starvation (get_hft h))
              body_condition in
          let h1 :=
            if negb (Reqb new_body_condition body_condition)
            then set_energy_budget
                   (force_body_condition new_body_condition (get_energy_budget h)) h
            else h in
          (set_current_output
             (HerbivoreData.set_mortality MF_STARVATION_ILLIUS_OCONNOR_2000
                mortality (get_todays_output h1)) h1,
           Ok (mortality_sum + mortality))
      end
  | MF_STARVATION_THRESHOLD =>
      match get_bodyfat h with
      | Throw e => (h, Throw e)
      | Ok bodyfat =>
          let mortality := GetStarvationMortalityThreshold bodyfat in
          (set_current_output
             (HerbivoreData.set_mortality MF_STARVATION_THRESHOLD mortality
                (get_todays_output h)) h,
           Ok (mortality_sum + mortality))
      end
  end.

(** The loop over [get_hft().mortality_factors]. *)
Fixpoint mortality_factors_loop (factors : list MortalityFactor)
    (mortality_sum : R) (h : HerbivoreBase) : HerbivoreBase * result R :=
  match factors with
  | [] => (h, Ok mortality_sum)
  | f :: rest =>
      match mortality_factor_step f mortality_sum h with
      | (h', Ok s) => mortality_factors_loop rest s h'
      | (h', Throw e) => (h', Throw e)
      end
  end.

(** The value with which [apply_mortality_factors_today] calls
    [apply_mortality]: the loop, then [std::min(1.0, mortality_sum)]. *)
Definition todays_mortality_sum (h : HerbivoreBase) : HerbivoreBase * result R :=
  match mortality_factors_loop (mortality_factors (get_hft h)) 0 h with
  | (h', Ok mortality_sum) => (h', Ok (Rmin 1 mortality_sum))
  | (h', Throw e) => (h', Throw e)
  end.

Definition apply_mortality_factors_today (h : HerbivoreBase)
    : HerbivoreBase * result unit :=
  match todays_mortality_sum h with
  | (h', Ok mortality_sum) => apply_mortality mortality_sum h'
  | (h', Throw e) => (h', Throw e)
  end.

(** *** Feeding *)

Definition eat (kg_per_km2 digestibility N_kg_per_km2 : ForageValues)
    (h : HerbivoreBase) : HerbivoreBase * result unit :=
  if Reqb (get_ind_per_km2 h) 0 && fv_eq_scalar kg_per_km2 0 then
    (h, Throw logic_error)
  else if Reqb (get_ind_per_km2 h) 0 then
    (* assert(get_ind_per_km2() != 0.0) *)
    (h, Throw assertion_failed)
  else
    let kg_per_ind := fv_div_scalar kg_per_km2 (get_ind_per_km2 h) in
    let N_kg_per_ind := fv_div_scalar N_kg_per_km2 (get_ind_per_km2 h) in
    match get_net_energy_content h digestibility with
    | Throw e => (h, Throw e)
    | Ok net_energy_content =>
        let mj_per_ind := fv_mul net_energy_content kg_per_ind in
        match add_eaten kg_per_ind (get_forage_demands_per_ind h) with
        | Throw assertion_failed => (h, Throw assertion_failed)
        | Throw _ =>
            (* catch (const std::logic_error e): also an invalid_argument
               is thrown on as a plain logic_error *)
            (h, Throw logic_error)
        | Ok demands =>
            let h1 := set_forage_demands demands h in
            let h2 :=
              set_energy_budget
                (metabolize_energy (fv_sum mj_per_ind) (get_energy_budget h1)) h1 in
            match get_bodymass h2 with
            | Throw e => (h2, Throw e)
            | Ok bodymass =>
                let h3 :=
                  set_current_output
                    (HerbivoreData.add_eaten kg_per_ind mj_per_ind
                       (fv_sum N_kg_per_ind) bodymass (get_todays_output h2)) h2 in
                (set_nitrogen
                   (nitrogen_ingest (fv_sum N_kg_per_ind * get_ind_per_km2 h3)
                      (nitrogen h3)) h3,
                 Ok tt)
            end
        end
    end.

(** *** Forage demands *)

Definition get_forage_demands (available_forage : HabitatForage)
    (h : HerbivoreBase) : HerbivoreBase * result ForageValues :=
  if is_dead h then (h, Ok (fv_const 0))
  else
    match get_today h with
    | Throw e => (h, Throw e)
    | Ok d =>
        let prepared :=
          if negb (is_day_initialized d (get_forage_demands_per_ind h)) then
            match get_net_energy_content h (get_digestibility available_forage) with
            | Throw e => (h, Throw e)
            | Ok net_energy_content =>
                match get_bodymass h with
                | Throw e => (h, Throw e)
                | Ok bodymass =>
                    let h1 :=
                      set_forage_demands
                        (init_today d available_forage net_energy_content
                           bodymass (get_forage_demands_per_ind h)) h in
                    (set_current_output
                       (HerbivoreData.set_energy_content net_energy_content
                          (get_todays_output h1)) h1,
                     Ok tt)
                end
            end
          else (h, Ok tt) in
        match prepared with
        | (h', Throw e) => (h', Throw e)
        | (h', Ok _) =>
            let total_energy_demands :=
              FatmassEnergyBudget.get_energy_needs (get_energy_budget h')
              + FatmassEnergyBudget.get_max_anabolism_per_day (get_energy_budget h') in
            match demand_per_ind total_energy_demands (get_forage_demands_per_ind h') with
            | Throw e => (h', Throw e)
            | Ok (demand_ind, demands) =>
                let h'' := set_forage_demands demands h' in
                (h'', Ok (fv_mul_scalar demand_ind (get_ind_per_km2 h'')))
            end
        end
  end.

End HerbivoreBase.

Arguments HerbivoreBase {collab} D.
Arguments HerbivoreVirtual {collab} D.

(** *** The rates written to today's output *)

Section RecordedRates.

Context {collab : Collaborators} {D : Type}.

(** The rate of the mortality factor [f] in today's output of [h], and 0
    if the output holds none. *)
Definition recorded_rate (h : HerbivoreBase D) (f : MortalityFactor) : R :=
  default 0 (HerbivoreData.mortality (current_output h) !! f).

(** The sum of the rates in today's output over the selected mortality
    factors of the functional type of [h]. *)
Definition sum_of_recorded_rates (h : HerbivoreBase D) : R :=
  fold_right Rplus 0 (map (recorded_rate h) (mortality_factors (hft h))).

(** The conditions of the assertions in [get_potential_bodymass]. *)
Definition bodymass_assertions_hold (t : Hft) : Prop :=
  0 < 1 - bodyfat_max t
  /\ 0 < maturity_age_phys_male t
  /\ 0 < maturity_age_phys_female t.

End RecordedRates.

(** *** The rate of each mortality factor *)

Section FactorMortality.

Context {collab : Collaborators} {D : Type}.

(** The value of the local variable [mortality] in the branch of
    [apply_mortality_factors_today] for the factor [f], as the functor
    of that factor returns it for the herbivore [h]. *)
Definition factor_mortality (f : MortalityFactor) (h : HerbivoreBase D)
    : result R :=
  match f with
  | MF_BACKGROUND =>
      Ok (GetBackgroundMortality (mortality_juvenile (get_hft h))
            (mortality (get_hft h)) (get_age_days h))
  | MF_LIFESPAN =>
      Ok (GetSimpleLifespanMortality (lifespan (get_hft h)) (get_age_days h))
  | MF_STARVATION_ILLIUS_OCONNOR_2000 =>
      do max_fatmass <- get_max_fatmass h;
      Ok (fst (GetStarvationIlliusOConnor2000
                 (if Rleb 1 (get_age_years h) then bodyfat_deviation (get_hft h)
                  else 0)
                 (shift_body_condition_for_starvation (get_hft h))
                 (get_fatmass h / max_fatmass)))
  | MF_STARVATION_THRESHOLD =>
      do bodyfat <- get_bodyfat h;
      Ok (GetStarvationMortalityThreshold bodyfat)
  end.

(** The herbivore as the loop finds it once the factors [before] have
    been handled, where [h] is the herbivore before the loop and [h']
    the one after it: only the branch of
    [MF_STARVATION_ILLIUS_OCONNOR_2000] changes what a functor reads, by
    [force_body_condition] on the energy budget. *)
Definition as_seen_after (before : list MortalityFactor)
    (h h' : HerbivoreBase D) : HerbivoreBase D :=
  if bool_decide (MF_STARVATION_ILLIUS_OCONNOR_2000 ∈ before)
  then set_energy_budget (energy_budget h') h
  else h.

End FactorMortality.

(** ** The cohort class (modules/herbiv_herbivore.cpp) *)

Module HerbivoreCohort.
Section Cohort.

Context {collab : Collaborators}.

(** A cohort adds the individual density [ind_per_km2] to the base
    class. *)
Definition t : Type := HerbivoreBase R.

Definition ind_per_km2 (c : t) : R := derived c.

Definition set_ind_per_km2 (d : R) (c : t) : t :=
  mkHerbivoreBase (hft c) (sex c) (age_days c) (today c)
    (body_condition_gestation c) (nitrogen c) (energy_budget c)
    (current_output c) (get_forage_demands_per_ind c) d.

Definition get_ind_per_km2 (c : t) : R := ind_per_km2 c.

(** Modelled from the spec: [is_dead] of a cohort is not among the
    sources.  Section 3: "a cohort is dead iff individuals_per_km2 <
    hft.minimum_density_threshold". *)
Definition is_dead (c : t) : bool :=
  Rltb (ind_per_km2 c) (minimum_density_threshold (hft c)).

(** [is_same_age] is declared in the header, which is not among the
    sources: both cohorts have the same age in days. *)
Definition is_same_age (c other : t) : bool :=
  (age_days c =? age_days other)%Z.

Definition apply_mortality (mortality : R) (c : t) : t * result unit :=
  if Rltb mortality 0 || Rltb 1 mortality then (c, Throw invalid_argument)
  else
    let ind_change := - mortality * get_ind_per_km2 c in
    let c' := set_ind_per_km2 (Rmax 0 (ind_per_km2 c + ind_change)) c in
    if negb (Rleb 0 (ind_per_km2 c')) then (c', Throw assertion_failed)
    else (c', Ok tt).

(** [this->merge(other)] for two distinct objects: the pair is
    [(this, other)]. *)
Definition merge (this other : t) : (t * t) * result unit :=
  if negb (is_same_age this other) then ((this, other), Throw invalid_argument)
  else if negb (Sex_eqb (get_sex this) (get_sex other)) then
    ((this, other), Throw invalid_argument)
  else if negb (hft_eqb (get_hft this) (get_hft other)) then
    ((this, other), Throw invalid_argument)
  else
    let this1 :=
      set_energy_budget
        (FatmassEnergyBudget.merge (get_energy_budget other)
           (get_ind_per_km2 this) (get_ind_per_km2 other)
           (get_energy_budget this)) this in
    let this2 := set_ind_per_km2 (ind_per_km2 this1 + ind_per_km2 other) this1 in
    let other' := set_ind_per_km2 0 other in
    ((this2, other'), Ok tt).

#[export] Instance virt : HerbivoreVirtual R :=
  @Build_HerbivoreVirtual _ R get_ind_per_km2 is_dead apply_mortality.

End Cohort.
End HerbivoreCohort.

(** The earlier draft of [get_todays_offspring_proportion]
    (modules/herbiv_herbivore.cpp).  It knows one reproduction model,
    [RM_ILLIUS_2000], so the branch that throws "not implemented" cannot be
    taken, and it feeds the model today's body condition. *)
Section DraftReproduction.

Context {collab : Collaborators} {D : Type}.

(** herbiv_reproduction.h is not among the sources: the constructor of
    [ReproductionIllius2000] returns the object, which is its member
    function [get_offspring_density]. *)
Variable ReproductionIllius2000 : Z -> Z -> R -> result (Z -> R -> result R).

Definition draft_get_todays_offspring_proportion (h : HerbivoreBase D)
    : result R :=
  if Sex_eqb (get_sex h) SEX_MALE
     || Rleb (maturity_age_sex (get_hft h)) (get_age_years h)
  then Ok 0
  else
    do illius_2000 <-
      ReproductionIllius2000 (breeding_season_start (get_hft h))
        (breeding_season_length (get_hft h)) (reproduction_max (get_hft h));
    do d <- get_today h;
    do max_fatmass <- get_max_fatmass h;
    illius_2000 d (FatmassEnergyBudget.get_fatmass (get_energy_budget h)
                     / max_fatmass).

End DraftReproduction.

(** ** Forage distribution (framework/herbiv_framework.cpp) *)

Module Framework.

(** A [HerbivoreInterface*] is the address of a herbivore object. *)
Definition HerbivorePtr : Type := positive.

(** [ForageDistribution]: the forage mass allotted to each herbivore. *)
Definition forage_distribution_lookup
    (forage_distribution : gmap positive ForageValues) (herbiv : HerbivorePtr)
    : option ForageValues :=
  forage_distribution !! herbiv.

(** [DistributeForageEqually::operator()].  [populations] holds, for each
    population, the list returned by [get_list()].  The body of the inner
    loop is a comment ("TODO"), so neither loop touches
    [forage_distribution]; [forage_sum] is passed by value. *)
Definition DistributeForageEqually {HabitatForage : Type}
    (available : HabitatForage)
    (populations : list (list HerbivorePtr))
    (forage_distribution : gmap positive ForageValues)
    (forage_sum : ForageValues) : gmap positive ForageValues :=
  fold_left
    (fun forage_distribution herbivores =>
       fold_left (fun forage_distribution herbiv => forage_distribution)
         herbivores forage_distribution)
    populations forage_distribution.

(** The foraging part of [Simulator::simulate_day]: the distribution
    starts empty, and the herbivores listed in it are fed.  The result is
    the distribution handed to [eat] and the sum handed to
    [remove_eaten_forage]. *)
Definition todays_forage_distribution {HabitatForage : Type}
    (available : HabitatForage) (populations : list (list HerbivorePtr))
    : gmap positive ForageValues * ForageValues :=
  let forage_dist : gmap positive ForageValues := ∅ in
  let forage_sum := fv_const 0 in
  (DistributeForageEqually available populations forage_dist forage_sum,
   forage_sum).

End Framework.

(** Modelled from the spec: the finished algorithm of the forage
    distributor is not among the sources.  Section 4.5, for one forage
    type: with [D] the sum of the demands and [A] the available mass,
    every herbivore gets its demand if [D <= A], and its demand scaled by
    [A / D] otherwise. *)
Module DistributeEqually.

Definition total (l : list R) : R := fold_right Rplus 0 l.

Definition distribute (A : R) (demands : list R) : list R :=
  let D := total demands in
  if Rleb D A then demands else map (fun d => d * (A / D)) demands.

End DistributeEqually.

(** ** The establishment cycle (src/Fauna/world.cpp) *)

Module World.

(** The classes that [World::simulate_day] calls and that are not among
    the sources: a simulation unit, and the functor [SimulateDay] with the
    day of the year, [do_herbivores] and [establish_if_needed]. *)
Class Collaborators : Type := {
  SimulationUnit : Type;
  is_initial_establishment_done : SimulationUnit -> bool;
  SimulateDay : Z -> bool -> bool -> SimulationUnit -> SimulationUnit
}.

Section World.

Context {collab : Collaborators}.

Record t : Type := mk {
  herbivore_establish_interval : Z;
  days_since_last_establishment : Z;
  sim_units : list SimulationUnit
}.

(** The constructor: the counter starts at the interval. *)
Definition new (herbivore_establish_interval : Z) : t :=
  mk herbivore_establish_interval herbivore_establish_interval [].

Definition create_simulation_unit (u : SimulationUnit) (w : t) : t :=
  mk (herbivore_establish_interval w) (days_since_last_establishment w)
     (sim_units w ++ [u]).

(** One pass of the loop body over [sim_units]: the new counter, the
    simulation unit after [SimulateDay], and the value of
    [establish_if_needed] that [SimulateDay] was called with.  The
    counter is an [int] in the code; the integer here is that [int] as
    long as it has not passed the largest one. *)
Definition visit_sim_unit (day_of_year : Z) (do_herbivores : bool)
    (interval days_since : Z) (sim_unit : SimulationUnit)
    : Z * SimulationUnit * bool :=
  let establish_if_needed := negb (is_initial_establishment_done sim_unit) in
  let '(establish_if_needed, days_since) :=
    if (days_since =? interval)%Z && (0 <? interval)%Z
    then (true, 0%Z)
    else (establish_if_needed, days_since) in
  let days_since := (days_since + 1)%Z in
  (days_since,
   SimulateDay day_of_year do_herbivores establish_if_needed sim_unit,
   establish_if_needed).

(** The loop over [sim_units]: the counter is a member of the world and
    is shared by all passes.  The loop variable is a copy of the list
    element ([auto sim_unit]); the copy is taken to share the habitat
    and the populations with the element, as a handle does, so that the
    list holds what [SimulateDay] has done to it. *)
Fixpoint visit_sim_units (day_of_year : Z) (do_herbivores : bool)
    (interval days_since : Z) (units : list SimulationUnit)
    : Z * list SimulationUnit * list bool :=
  match units with
  | [] => (days_since, [], [])
  | u :: rest =>
      let '(days_since1, u', e) :=
        visit_sim_unit day_of_year do_herbivores interval days_since u in
      let '(days_since2, rest', es) :=
        visit_sim_units day_of_year do_herbivores interval days_since1 rest in
      (days_since2, u' :: rest', e :: es)
  end.

(** [World::simulate_day].  Beside the world, the result lists the value
    of [establish_if_needed] for each simulation unit, in order. *)
Definition simulate_day (day_of_year : Z) (do_herbivores : bool) (w : t)
    : t * result (list bool) :=
  if (day_of_year <? 0)%Z || (365 <=? day_of_year)%Z then
    (w, Throw invalid_argument)
  else
    let '(days_since, units, established) :=
      visit_sim_units day_of_year do_herbivores
        (herbivore_establish_interval w) (days_since_last_establishment w)
        (sim_units w) in
    (mk (herbivore_establish_interval w) days_since units, Ok established).

(** The worlds that the program can build: constructed, then extended by
    simulation units and advanced by days. *)
Inductive reachable : t -> Prop :=
| reachable_new interval : reachable (new interval)
| reachable_create u w : reachable w -> reachable (create_simulation_unit u w)
| reachable_simulate day do_herbivores w :
    reachable w -> reachable (fst (simulate_day day do_herbivores w)).

End World.
End World.

(** ** Concrete collaborators and herbivores *)

Module Examples.

(** Collaborators without state of their own: every forage demand is 0,
    the energy budget is left alone, the background mortality is the adult
    rate, the other mortality rates are 0, and every reproduction model
    yields its annual maximum each day. *)
Definition collab : Collaborators := {|
  NitrogenInHerbivore := unit;
  nitrogen_ingest := fun _ n => n;
  HabitatForage := ForageValues;
  get_digestibility := fun f => f;
  GetForageDemands := unit;
  is_day_initialized := fun _ _ => true;
  init_today := fun _ _ _ _ g => g;
  add_eaten := fun _ g => Ok g;
  demand_per_ind := fun _ g => Ok (fv_const 0, g);
  metabolize_energy := fun _ b => b;
  force_body_condition := fun _ b => b;
  GetBackgroundMortality := fun juvenile adult _ => adult;
  GetSimpleLifespanMortality := fun _ _ => 0;
  GetStarvationIlliusOConnor2000 := fun _ _ body_condition => (0, body_condition);
  GetStarvationMortalityThreshold := fun _ => 0;
  BreedingSeason := Z * Z;
  BreedingSeason_new := fun start length => Ok (start, length);
  ReprIlliusOconnor2000 := fun _ annual_max => Ok (fun _ _ => Ok annual_max);
  ReproductionConstMax := fun _ annual_max => Ok (fun _ => Ok annual_max);
  ReproductionLinear := fun _ annual_max => Ok (fun _ _ => Ok annual_max);
  age_years_of_days := fun d => IZR d / 365
|}.

Definition hft (factors : list MortalityFactor) (model : ReproductionModel)
    : Hft := {|
  name := "hft0";
  bodyfat_birth := 1 / 5;
  bodyfat_deviation := 1 / 8;
  bodyfat_max := 3 / 10;
  bodymass_birth := 5;
  bodymass_female := 50;
  bodymass_male := 70;
  breeding_season_length := 30;
  breeding_season_start := 120;
  digestion_type := NetEnergy.DT_RUMINANT;
  gestation_months := 9;
  lifespan := 10;
  maturity_age_phys_female := 2;
  maturity_age_phys_male := 3;
  maturity_age_sex := 2;
  minimum_density_threshold := 1 / 1000;
  mortality := 1 / 10;
  mortality_factors := factors;
  mortality_juvenile := 3 / 10;
  net_energy_model := NE_DEFAULT;
  reproduction_max := 1;
  reproduction_model := model;
  shift_body_condition_for_starvation := false
|}.

Definition no_output : HerbivoreData.t :=
  HerbivoreData.mk ∅ (fv_const 0) (fv_const 0) (fv_const 0) (fv_const 0)
    (fv_const 0) 0.

(** A cohort of the given functional type, sex, age in days and density,
    on day 0 of the year, with 4 kg of fat out of at most 15 kg. *)
Definition cohort (h : Hft) (s : Sex) (age : Z) (density : R)
    : @HerbivoreCohort.t collab :=
  @mkHerbivoreBase collab R h s age 0
    (PeriodAverage.mk 270 [1 / 2] 1) tt
    (FatmassEnergyBudget.mk 4 15 0 0) no_output tt density.

(** The same collaborators with a lifespan functor that kills at the end
    of the lifespan: its rate is 1 from [lifespan * 365] days on. *)
Definition old_age_collab : Collaborators := {|
  NitrogenInHerbivore := unit;
  nitrogen_ingest := fun _ n => n;
  HabitatForage := ForageValues;
  get_digestibility := fun f => f;
  GetForageDemands := unit;
  is_day_initialized := fun _ _ => true;
  init_today := fun _ _ _ _ g => g;
  add_eaten := fun _ g => Ok g;
  demand_per_ind := fun _ g => Ok (fv_const 0, g);
  metabolize_energy := fun _ b => b;
  force_body_condition := fun _ b => b;
  GetBackgroundMortality := fun juvenile adult _ => adult;
  GetSimpleLifespanMortality := fun lifespan age_days =>
    if (lifespan * 365 <=? age_days)%Z then 1 else 0;
  GetStarvationIlliusOConnor2000 := fun _ _ body_condition => (0, body_condition);
  GetStarvationMortalityThreshold := fun _ => 0;
  BreedingSeason := Z * Z;
  BreedingSeason_new := fun start length => Ok (start, length);
  ReprIlliusOconnor2000 := fun _ annual_max => Ok (fun _ _ => Ok annual_max);
  ReproductionConstMax := fun _ annual_max => Ok (fun _ => Ok annual_max);
  ReproductionLinear := fun _ annual_max => Ok (fun _ _ => Ok annual_max);
  age_years_of_days := fun d => IZR d / 365
|}.

(** A cohort of males of 4000 days, past the lifespan of 10 years, with
    the background and the lifespan mortality selected. *)
Definition old_cohort (density : R) : @HerbivoreCohort.t old_age_collab :=
  @mkHerbivoreBase old_age_collab R
    (hft [MF_BACKGROUND; MF_LIFESPAN] RM_NONE) SEX_MALE 4000 0
    (PeriodAverage.mk 270 [1 / 2] 1) tt
    (FatmassEnergyBudget.mk 4 15 0 0) no_output tt density.

Definition grass_only (kg : R) : ForageValues :=
  fun ft => match ft with Grass => kg | Inedible => 0 end.

(** A simulation unit that is only its flag "initial establishment
    done"; [SimulateDay] sets the flag once it has established. *)
Definition world_collab : World.Collaborators := {|
  World.SimulationUnit := bool;
  World.is_initial_establishment_done := fun done => done;
  World.SimulateDay := fun _ do_herbivores establish_if_needed done =>
    done || (do_herbivores && establish_if_needed)
|}.

End Examples.

(** ** More of the period average (src/Fauna/average.cpp) *)

Module PeriodAverageMore.
Import PeriodAverage.

(** The constructor.  The vector starts empty; [current_index] starts at
    0 (its initialiser is in the header). *)
Definition new (count : Z) : result t :=
  if (count <=? 0)%Z then Throw invalid_argument else Ok (mk count [] 0).

(** Adding the values of a list one after the other, stopping at the
    first failure. *)
Fixpoint add_values (vs : list R) (p : t) : t * result unit :=
  match vs with
  | [] => (p, Ok tt)
  | v :: rest =>
      match add_value v p with
      | (p', Ok _) => add_values rest p'
      | (p', Throw e) => (p', Throw e)
      end
  end.

(** What the constructor and [add_value] keep: a positive capacity, an
    index below it, no more values than the capacity, and, until the
    vector is full, the index at its end. *)
Definition well_formed (p : t) : Prop :=
  (0 < count p)%Z
  /\ (0 <= current_index p < count p)%Z
  /\ (Z.of_nat (length (values p)) <= count p)%Z
  /\ ((Z.of_nat (length (values p)) < count p)%Z ->
      current_index p = Z.of_nat (length (values p))).

(** The values of the buffer from the oldest to the newest. *)
Definition window (p : t) : list R :=
  drop (Z.to_nat (current_index p)) (values p)
  ++ take (Z.to_nat (current_index p)) (values p).

(** The last [n] elements of a list. *)
Definition last_n (n : nat) (l : list R) : list R :=
  drop (length l - n) l.

Definition mean (l : list R) : R := fold_right Rplus 0 l / INR (length l).

End PeriodAverageMore.

(** ** The weighted average with its guards (src/Fauna/average.cpp) *)

Module AverageDouble.

(** A weight as the double that it is: a finite number, an infinity or
    NaN.  The values [a] and [b] are finite numbers, and the returned
    quotient is the one of the real numbers. *)
Inductive weight : Type :=
| finite (x : R)
| INFINITY
| NEG_INFINITY
| NAN.

(** [weight < 0.0] *)
Definition lt_zero (w : weight) : bool :=
  match w with
  | finite x => Rltb x 0
  | NEG_INFINITY => true
  | INFINITY | NAN => false
  end.

(** [weight != weight] *)
Definition is_nan (w : weight) : bool :=
  match w with
  | NAN => true
  | _ => false
  end.

(** [weight == INFINITY] *)
Definition is_infinity (w : weight) : bool :=
  match w with
  | INFINITY => true
  | _ => false
  end.

(** [Fauna::average] with its four guards in their order.  Once the
    first three have passed both weights are finite. *)
Definition average (a b : R) (weight_a weight_b : weight) : result R :=
  if lt_zero weight_a || lt_zero weight_b then Throw invalid_argument
  else if is_nan weight_a || is_nan weight_b then Throw invalid_argument
  else if is_infinity weight_a || is_infinity weight_b then
    Throw invalid_argument
  else
    match weight_a, weight_b with
    | finite x, finite y =>
        if Reqb (x + y) 0 then Throw invalid_argument
        else Ok ((a * x + b * y) / (x + y))
    | _, _ => Throw invalid_argument
    end.

End AverageDouble.

(** ** Several days in a row (src/Fauna/world.cpp) *)

(** The largest [int], 32 bits wide: the counters of the code are
    [int]s, and a sum above it overflows. *)
Definition INT_MAX : Z := 2147483647.

Module WorldMore.
Import World.

Section Days.

Context {collab : Collaborators}.

(** A caller's loop over days: [simulate_day] for each day of the year in
    [days], in order, until one throws.  The result lists the values of
    [establish_if_needed] day by day. *)
Fixpoint simulate_days (days : list Z) (do_herbivores : bool) (w : t)
    : t * result (list (list bool)) :=
  match days with
  | [] => (w, Ok [])
  | day :: rest =>
      match simulate_day day do_herbivores w with
      | (w', Throw e) => (w', Throw e)
      | (w', Ok established) =>
          match simulate_days rest do_herbivores w' with
          | (w'', Throw e) => (w'', Throw e)
          | (w'', Ok more) => (w'', Ok (established :: more))
          end
      end
  end.

(** The establishment requests of a single simulation unit whose initial
    establishment is done, over [n] days that start with the counter at
    [c]: a request on the days on which the counter equals the interval. *)
Fixpoint expected_requests (interval c : Z) (n : nat) : list (list bool) :=
  match n with
  | O => []
  | S m =>
      [(c =? interval)%Z]
      :: expected_requests interval
           (if (c =? interval)%Z then 1 else c + 1)%Z m
  end.

End Days.
End WorldMore.

(** ** The individual class (modules/herbiv_herbivore.cpp) *)

Module HerbivoreIndividual.
Section Individual.

Context {collab : Collaborators}.

(** An individual adds the area it lives in and the flag [dead] to the
    base class. *)
Record members : Type := mk_members {
  area_km2 : R;
  dead : bool
}.

Definition t : Type := HerbivoreBase members.

Definition set_dead (b : bool) (i : t) : t :=
  mkHerbivoreBase (hft i) (sex i) (age_days i) (today i)
    (body_condition_gestation i) (nitrogen i) (energy_budget i)
    (current_output i) (get_forage_demands_per_ind i)
    (mk_members (area_km2 (derived i)) b).

(** [apply_mortality].  [random_fraction] is the value that
    [get_random_fraction()] returns if this call draws one. *)
Definition apply_mortality (random_fraction : R) (mortality : R) (i : t)
    : t * result unit :=
  if Rltb mortality 0 || Rltb 1 mortality then (i, Throw invalid_argument)
  else if Reqb mortality 0 then (i, Ok tt)
  else if Reqb mortality 1 then (set_dead true i, Ok tt)
  else if Rltb random_fraction mortality then (set_dead true i, Ok tt)
  else (i, Ok tt).

End Individual.
End HerbivoreIndividual.

(** ** Output dates (modules/herbiv_outputmodule.cpp) *)

Module OutputModule.

(** [is_first_day_of_month]: the loop that subtracts the lengths of the
    months from [day], starting with January.  [months] holds the
    entries of [date.ndaymonth] that are still to come, so the assertion
    [m <= 11] fails when none is left. *)
Fixpoint subtract_months (months : list Z) (day : Z) : result bool :=
  if (0 <? day)%Z then
    match months with
    | [] => Throw assertion_failed
    | month_length :: rest => subtract_months rest (day - month_length)
    end
  else Ok (day =? 0)%Z.

(** [ndaymonth] is the table [date.ndaymonth] of the vegetation model,
    with twelve entries. *)
Definition is_first_day_of_month (ndaymonth : list Z) (day : Z) : result bool :=
  if (day <? 0)%Z || (364 <? day)%Z then Throw invalid_argument
  else subtract_months ndaymonth day.

Inductive Interval : Type := DAILY | MONTHLY | ANNUAL | DECADAL.

(** [set_date_to_period_center]: [day] and [year] are passed by
    reference; the result is the pair of their new values.  Integer
    division and remainder truncate towards zero. *)
Definition set_date_to_period_center (interval : Interval) (day year : Z)
    : Z * Z :=
  let day :=
    match interval with
    | DAILY => day
    | MONTHLY => (day - Z.quot 30 2)%Z
    | ANNUAL => (day - Z.quot 365 2)%Z
    | DECADAL => (day - Z.quot (10 * 365) 2)%Z
    end in
  if (day <? 0)%Z then
    (365 + Z.rem day 365, year + (Z.quot day 365 - 1))%Z
  else (day, year).

(** The number of days by which a date is moved back. *)
Definition half_period (interval : Interval) : Z :=
  match interval with
  | DAILY => 0
  | MONTHLY => 15
  | ANNUAL => 182
  | DECADAL => 1825
  end.

(** The sums of the first [k] month lengths, for every [k]. *)
Fixpoint month_starts (months : list Z) : list Z :=
  match months with
  | [] => [0%Z]
  | month_length :: rest =>
      0%Z :: map (fun s => (month_length + s)%Z) (month_starts rest)
  end.

(** The month lengths of a year without a leap day. *)
Definition ndaymonth_365 : list Z :=
  [31; 28; 31; 30; 31; 30; 31; 31; 30; 31; 30; 31]%Z.

End OutputModule.

(** ** Plant parameters (modules/herbiv_pftparameters.cpp) *)

Module PftParams.

#[local] Open Scope string_scope.

(** The members of [PftParams] (modules/herbiv_pftparameters.h).  The
    plant functional type [pft] belongs to the vegetation model; of it
    only the test [pft.lifeform != GRASS] is read. *)
Record t : Type := mk {
  c_in_dm_forage : R;
  digestibility : R;
  digestibility_dead : R;
  inaccessible_forage : R;
  forage_type : ForageType;
  pft_lifeform_is_grass : bool
}.

Definition is_edible (p : t) : bool :=
  match forage_type p with Inedible => false | Grass => true end.

(** The double quote and the line end of [std::endl]. *)
Definition quote : string := String (Ascii.ascii_of_nat 34) EmptyString.
Definition endl : string := String (Ascii.ascii_of_nat 10) EmptyString.

Definition msg_lifeform : string :=
  "forage_type=" ++ quote ++ "grass" ++ quote ++ ", but lifeform!="
  ++ quote ++ "grass" ++ quote ++ endl.
Definition msg_digestibility_low : string := "digestibility <= 0.0" ++ endl.
Definition msg_digestibility_high : string := "digestibility > 1.0" ++ endl.

(** [is_valid(params, messages)]: the returned flag and the text written
    to [messages].  Of [params] only the test
    [params.digestibility_model == DM_PFT_FIXED] is read. *)
Definition is_valid (digestibility_model_is_pft_fixed : bool) (p : t)
    : bool * string :=
  let '(valid, stream) := (true, EmptyString) in
  let '(valid, stream) :=
    if (match forage_type p with Grass => true | Inedible => false end)
       && negb (pft_lifeform_is_grass p)
    then (false, stream ++ msg_lifeform)
    else (valid, stream) in
  let '(valid, stream) :=
    if digestibility_model_is_pft_fixed
       && negb (match forage_type p with Inedible => true | Grass => false end)
    then
      let '(valid, stream) :=
        if Rleb (digestibility p) 0
        then (false, stream ++ msg_digestibility_low)
        else (valid, stream) in
      if Rltb 1 (digestibility p)
      then (false, stream ++ msg_digestibility_high)
      else (valid, stream)
    else (valid, stream) in
  (valid, stream).

End PftParams.

(** ** Reading the instruction file (src/Fauna/insfile_reader.cpp) *)

Module InsfileReader.

(** [::tolower] in the C locale: the letters A to Z become a to z. *)
Definition tolower (c : Ascii.ascii) : Ascii.ascii :=
  let n := Ascii.nat_of_ascii c in
  if (65 <=? n)%nat && (n <=? 90)%nat then Ascii.ascii_of_nat (n + 32) else c.

Fixpoint lowercase (s : string) : string :=
  match s with
  | EmptyString => EmptyString
  | String c rest => String (tolower c) (lowercase rest)
  end.

(** The exceptions of the reader.  All derive from [std::runtime_error]
    and carry what their message is built from. *)
Inductive error : Type :=
| missing_parameter (key : string)
| missing_group (hft_name group_name : string)
| missing_hft_parameter (hft_name key : string)
| invalid_option (key value : string) (valid_options : list string)
| failed_assertion.

Section Tables.

(** The type [T] at which a table is read. *)
Context {T : Type}.

(** A TOML table as the reader sees it at the type [T]: its entry
    [name], its array [groups], and [get_qualified_as<T>(key)] as a
    function of the qualified key. *)
Record table : Type := mk_table {
  table_name : option string;
  table_groups : option (list string);
  table_values : string -> option T
}.

(** [get_group_table]: [group_tables] is the table array "group" of the
    file, absent or a list. *)
Fixpoint search_groups (tables : list table) (group_name : string)
    : error + option table :=
  match tables with
  | [] => inr None
  | group_table :: rest =>
      match table_name group_table with
      | None => inl (missing_parameter "group.name")
      | Some name =>
          if String.eqb name group_name then inr (Some group_table)
          else search_groups rest group_name
      end
  end.

Definition get_group_table (group_tables : option (list table))
    (group_name : string) : error + option table :=
  match group_tables with
  | Some tables => search_groups tables group_name
  | None => inr None
  end.

(** The loop over the groups of an HFT in [find_hft_parameter]: the
    value of the first group that has the key. *)
Fixpoint search_hft_groups (group_tables : option (list table))
    (hft_name : string) (groups : list string) (key : string)
    : error + option T :=
  match groups with
  | [] => inr None
  | g :: rest =>
      match get_group_table group_tables g with
      | inl e => inl e
      | inr None => inl (missing_group hft_name g)
      | inr (Some group_table) =>
          match table_values group_table key with
          | Some value => inr (Some value)
          | None => search_hft_groups group_tables hft_name rest key
          end
      end
  end.

Definition find_hft_parameter (group_tables : option (list table))
    (hft_table : table) (key : string) (mandatory : bool)
    : error + option T :=
  match table_name hft_table with
  | None => inl failed_assertion
  | Some name =>
      match table_values hft_table key with
      | Some value => inr (Some value)
      | None =>
          let inherited :=
            match table_groups hft_table with
            | Some groups => search_hft_groups group_tables name groups key
            | None => inr None
            end in
          match inherited with
          | inl e => inl e
          | inr (Some value) => inr (Some value)
          | inr None =>
              if mandatory then inl (missing_hft_parameter name key)
              else inr None
          end
      end
  end.

End Tables.

Arguments table T : clear implicits.

End InsfileReader.

(** [InsfileReader::read_table_simulation] *)
Module ReadSimulation.
Import InsfileReader.

Inductive ForageDistributionAlgorithm : Type := Equally.
Inductive HerbivoreType : Type := Cohort | Individual.

(** The members of [Parameters] that the table "simulation" sets. *)
Record Parameters : Type := mk_parameters {
  forage_distribution : ForageDistributionAlgorithm;
  habitat_area_km2 : R;
  herbivore_establish_interval : Z;
  herbivore_type : HerbivoreType;
  one_hft_per_habitat : bool
}.

(** The entries of the root table that the function asks for, each at
    the type it is asked at. *)
Record ins_simulation : Type := mk_ins {
  simulation_forage_distribution : option string;
  simulation_habitat_area_km2 : option R;
  simulation_establishment_interval : option Z;
  simulation_herbivore_type : option string;
  simulation_one_hft_per_habitat : option bool
}.

(** The function writes into the member [params] of the reader under
    construction; when it throws, the constructor fails and the reader
    with its half-written parameters does not come to exist, so only the
    exception is kept. *)
Definition read_table_simulation (ins : ins_simulation) (params : Parameters)
    : error + Parameters :=
  match
    match simulation_forage_distribution ins with
    | Some value =>
        if String.eqb (lowercase value) (lowercase "Equally")
        then inr Equally
        else inl (invalid_option "simulation.forage_distribution" value
                    ["Equally"%string])
    | None => inr (forage_distribution params)
    end
  with
  | inl e => inl e
  | inr distribution =>
      let area :=
        match simulation_habitat_area_km2 ins with
        | Some value => value
        | None => habitat_area_km2 params
        end in
      let interval :=
        match simulation_establishment_interval ins with
        | Some value => value
        | None => herbivore_establish_interval params
        end in
      match simulation_herbivore_type ins with
      | Some value =>
          match
            if String.eqb (lowercase value) (lowercase "Cohort")
            then inr Cohort
            else if String.eqb (lowercase value) (lowercase "Individual")
            then inr Individual
            else inl (invalid_option "simulation.herbivore_type" value
                        ["Cohort"%string; "Individual"%string])
          with
          | inl e => inl e
          | inr type =>
              let one_hft :=
                match simulation_one_hft_per_habitat ins with
                | Some value => value
                | None => one_hft_per_habitat params
                end in
              inr (mk_parameters distribution area interval type one_hft)
          end
      | None => inl (missing_parameter "simulation.herbivore_type")
      end
  end.

End ReadSimulation.

(** ** The demo simulator (tools/demo_simulator/demo_simulator.cpp) *)

Module DemoSimulator.

#[local] Open Scope string_scope.

(** Convert g/m² to kg/km². *)
Definition g_m2_to_kg_km2 (g_m2 : R) : R := g_m2 * 1000.

(** [LogisticGrass::Parameters] and [SimpleHabitat::Parameters]
    (tools/simulator/testhabitat.h). *)
Record GrassParameters : Type := mk_grass {
  decay_monthly : list R;
  digestibility : list R;
  fpc : R;
  growth_monthly : list R;
  init_mass : R;
  reserve : R;
  saturation : R
}.

Record HabitatParameters : Type := mk_habitat {
  grass : GrassParameters;
  snow_depth_monthly : list R
}.

(** The member [params] of the framework.  The header that declares it
    is not among the sources; the fields are those that
    demo_simulator.cpp reads and writes. *)
Record Parameters : Type := mk_parameters {
  nyears : Z;
  ngroups : Z;
  nhabitats_per_group : Z;
  habitat : HabitatParameters
}.

(** The entries of the parsed file that [read_instruction_file] asks
    for, each at the type it is asked at: the three grass masses are
    asked for as integers. *)
Record instruction_file : Type := mk_file {
  general_years : option Z;
  general_habitat_groups : option Z;
  general_habitats_per_group : option Z;
  environment_snow_depth : option (list R);
  grass_daily_decay_rate : option (list R);
  grass_daily_growth_rate : option (list R);
  grass_digestibility : option (list R);
  grass_fpc : option R;
  grass_initial_mass : option Z;
  grass_saturation_mass : option Z;
  grass_ungrazeable_reserve : option Z
}.

(** Both exceptions derive from [std::runtime_error]. *)
Inductive error : Type :=
| runtime_error (message : string)
| missing_parameter (key : string).

Definition bind {A B : Type} (r : error + A) (k : A -> error + B) : error + B :=
  match r with
  | inl e => inl e
  | inr a => k a
  end.

(** A loop with one test: the first element below 0 throws. *)
Fixpoint check_not_negative (key : string) (l : list R) : error + unit :=
  match l with
  | [] => inr tt
  | i :: rest =>
      if Rltb i 0 then inl (runtime_error (key ++ " must be greater than 0."))
      else check_not_negative key rest
  end.

(** A loop with two tests: the first element below 0 or above 1 throws;
    [too_large] is the text thrown for an element above 1. *)
Fixpoint check_fraction (key too_large : string) (l : list R) : error + unit :=
  match l with
  | [] => inr tt
  | i :: rest =>
      if Rltb i 0 then inl (runtime_error (key ++ " must be greater than 0."))
      else if Rltb 1 i then inl (runtime_error (key ++ too_large))
      else check_fraction key too_large rest
  end.

Definition read_count (key : string) (value : option Z) : error + Z :=
  match value with
  | Some v =>
      if (v <? 1)%Z then inl (runtime_error (key ++ " must be greater than 1."))
      else inr v
  | None => inl (missing_parameter key)
  end.

(** [Framework::read_instruction_file], after the file is parsed.  The
    function writes into the member [params]; when it throws, [run]
    gives up, so only the exception is kept. *)
Definition read_instruction_file (ins : instruction_file) : error + Parameters :=
  bind (read_count "general.years" (general_years ins)) (fun nyears =>
  bind (read_count "general.habitat_groups" (general_habitat_groups ins))
    (fun ngroups =>
  bind (read_count "general.habitats_per_group" (general_habitats_per_group ins))
    (fun nhabitats =>
  bind (match environment_snow_depth ins with
        | Some v => bind (check_not_negative "environment.snow_depth" v)
                      (fun _ => inr v)
        | None => inl (missing_parameter "environment.snow_depth")
        end) (fun snow =>
  bind (match grass_daily_decay_rate ins with
        | Some v => bind (check_fraction "grass.daily_decay_rate"
                            " must be smaller than 1." v) (fun _ => inr v)
        | None => inl (missing_parameter "grass.daily_decay_rate")
        end) (fun decay =>
  bind (match grass_daily_growth_rate ins with
        | Some v => bind (check_fraction "grass.daily_growth_rate"
                            " must smaller than 1." v) (fun _ => inr v)
        | None => inl (missing_parameter "grass.daily_growth_rate")
        end) (fun growth =>
  bind (match grass_digestibility ins with
        | Some v => bind (check_fraction "grass.digestibility"
                            " must smaller than 1." v) (fun _ => inr v)
        | None => inl (missing_parameter "grass.digestibility")
        end) (fun dig =>
  bind (match grass_fpc ins with
        | Some v =>
            if Rleb v 0 || Rltb 1 v
            then inl (runtime_error ("grass.fpc" ++ " must be between 0 and 1."))
            else inr v
        | None => inl (missing_parameter "grass.fpc")
        end) (fun fpc =>
  bind (match grass_initial_mass ins with
        | Some v =>
            let init := g_m2_to_kg_km2 (IZR v) in
            if Rleb init 0
            then inl (runtime_error
                        ("grass.initial_mass" ++ " must be greater than 0."))
            else inr init
        | None => inl (missing_parameter "grass.initial_mass")
        end) (fun init =>
  bind (match grass_saturation_mass ins with
        | Some v =>
            let sat := g_m2_to_kg_km2 (IZR v) in
            if Rltb sat init
            then inl (runtime_error
                        ("grass.saturation_mass"
                         ++ " must be greater than grass.initial_mass."))
            else inr sat
        | None => inl (missing_parameter "grass.saturation_mass")
        end) (fun sat =>
  bind (match grass_ungrazeable_reserve ins with
        | Some v =>
            let res := g_m2_to_kg_km2 (IZR v) in
            if Rleb sat res
            then inl (runtime_error
                        ("grass.ungrazeable_reserve"
                         ++ " must be smaller than grass.saturation_mass."))
            else inr res
        | None => inl (missing_parameter "grass.ungrazeable_reserve")
        end) (fun res =>
  inr (mk_parameters nyears ngroups nhabitats
         (mk_habitat (mk_grass decay dig fpc growth init res sat)
            snow))))))))))))).

(** What an instruction file must satisfy to be accepted. *)
Definition acceptable (ins : instruction_file) : Prop :=
  (exists v, general_years ins = Some v /\ (1 <= v)%Z)
  /\ (exists v, general_habitat_groups ins = Some v /\ (1 <= v)%Z)
  /\ (exists v, general_habitats_per_group ins = Some v /\ (1 <= v)%Z)
  /\ (exists v, environment_snow_depth ins = Some v
                /\ Forall (fun i => 0 <= i) v)
  /\ (exists v, grass_daily_decay_rate ins = Some v
                /\ Forall (fun i => 0 <= i <= 1) v)
  /\ (exists v, grass_daily_growth_rate ins = Some v
                /\ Forall (fun i => 0 <= i <= 1) v)
  /\ (exists v, grass_digestibility ins = Some v
                /\ Forall (fun i => 0 <= i <= 1) v)
  /\ (exists v, grass_fpc ins = Some v /\ 0 < v <= 1)
  /\ (exists init sat res,
        grass_initial_mass ins = Some init
        /\ grass_saturation_mass ins = Some sat
        /\ grass_ungrazeable_reserve ins = Some res
        /\ (0 < init)%Z /\ (init <= sat)%Z /\ (res < sat)%Z).

(** What [read_instruction_file] guarantees of the parameters it
    leaves behind. *)
Definition validated (p : Parameters) : Prop :=
  (1 <= nyears p)%Z /\ (1 <= ngroups p)%Z /\ (1 <= nhabitats_per_group p)%Z
  /\ Forall (fun i => 0 <= i) (snow_depth_monthly (habitat p))
  /\ Forall (fun i => 0 <= i <= 1) (decay_monthly (grass (habitat p)))
  /\ Forall (fun i => 0 <= i <= 1) (growth_monthly (grass (habitat p)))
  /\ Forall (fun i => 0 <= i <= 1) (digestibility (grass (habitat p)))
  /\ 0 < fpc (grass (habitat p)) <= 1
  /\ 0 < init_mass (grass (habitat p)) <= saturation (grass (habitat p))
  /\ reserve (grass (habitat p)) < saturation (grass (habitat p)).

(** *** [Framework::run] *)

(** An exception that a collaborator throws: a [std::runtime_error] (or
    a class derived from it), or another [std::exception]. *)
Inductive thrown : Type := runtime | other.

(** How [run] ends: it returns, an exception leaves it, or it divides
    by zero or overflows an [int]. *)
Inductive undefined_behaviour : Type := division_by_zero | signed_overflow.

Inductive outcome : Type :=
| Returned (success : bool)
| Propagated (e : thrown)
| Undefined (what : undefined_behaviour).

Section Run.

(** The library behind the calls of [run]: the world of the megafauna
    library with its constructor from an instruction file,
    [create_simulation_unit] for a new [SimpleHabitat] of the parameters
    and the group number (whose decimal digits are the aggregation unit)
    and [simulate_day] with [do_herbivores] true; the constructor of
    [Date]; and the parser of the second instruction file. *)
Context {World Date : Type}.
Variable new_world : string -> thrown + World.
Variable parse_file : string -> thrown + instruction_file.
Variable create_simulation_unit :
  World -> HabitatParameters -> Z -> thrown + World.
Variable new_date : Z -> Z -> thrown + Date.
Variable simulate_day : World -> Date -> thrown + World.

(** The inner loop over [h], from [h] for [n] more habitats. *)
Fixpoint create_habitats (n : nat) (p : Parameters) (g : Z) (w : World)
    : thrown + World :=
  match n with
  | O => inr w
  | S m =>
      match create_simulation_unit w (habitat p) g with
      | inl e => inl e
      | inr w' => create_habitats m p g w'
      end
  end.

(** The outer loop over [g], from [g] for [n] more groups. *)
Fixpoint create_groups (n : nat) (p : Parameters) (g : Z) (w : World)
    : thrown + World :=
  match n with
  | O => inr w
  | S m =>
      match create_habitats (Z.to_nat (nhabitats_per_group p)) p g w with
      | inl e => inl e
      | inr w' => create_groups m p (g + 1)%Z w'
      end
  end.

(** The loop over the days of a year, from [day_of_year] for [n] more
    days.  The date is made outside of the try block, the call of
    [simulate_day] inside. *)
Fixpoint simulate_days (n : nat) (day_of_year year : Z) (w : World)
    : outcome + World :=
  match n with
  | O => inr w
  | S m =>
      match new_date day_of_year year with
      | inl e => inl (Propagated e)
      | inr date =>
          match simulate_day w date with
          | inl _ => inl (Returned false)
          | inr w' => simulate_days m (day_of_year + 1)%Z year w'
          end
      end
  end.

(** The progress report at the end of a year: the percentage printed,
    if any. *)
Definition print_progress (p : Parameters) (year : Z)
    : undefined_behaviour + option Z :=
  let progress_interval := Z.quot (nyears p) 10 in
  if (progress_interval =? 0)%Z then inl division_by_zero
  else if (Z.rem year progress_interval =? 0)%Z || (year =? nyears p - 1)%Z
  then
    if (INT_MAX <? 100 * year)%Z then inl signed_overflow
    else if (nyears p - 1 =? 0)%Z then inl division_by_zero
    else inr (Some (Z.quot (100 * year) (nyears p - 1)))
  else inr None.

(** The loop over the years, from [year] for [n] more years; [printed]
    are the percentages printed so far. *)
Fixpoint simulate_years (n : nat) (p : Parameters) (year : Z) (w : World)
    (printed : list Z) : outcome * list Z :=
  match n with
  | O => (Returned true, printed)
  | S m =>
      match simulate_days 365 0 year w with
      | inl o => (o, printed)
      | inr w' =>
          match print_progress p year with
          | inl u => (Undefined u, printed)
          | inr None => simulate_years m p (year + 1)%Z w' printed
          | inr (Some percent) =>
              simulate_years m p (year + 1)%Z w' (printed ++ [percent])
          end
      end
  end.

(** [Framework::run]: how it ends and the progress percentages it has
    printed. *)
Definition run (insfile_fauna insfile_demo : string) : outcome * list Z :=
  match new_world insfile_fauna with
  | inl runtime => (Returned false, [])
  | inl other => (Propagated other, [])
  | inr w =>
      match parse_file insfile_demo with
      | inl runtime => (Returned false, [])
      | inl other => (Propagated other, [])
      | inr ins =>
          match read_instruction_file ins with
          | inl _ => (Returned false, [])
          | inr p =>
              match create_groups (Z.to_nat (ngroups p)) p 0 w with
              | inl _ => (Returned false, [])
              | inr w' => simulate_years (Z.to_nat (nyears p)) p 0 w' []
              end
          end
      end
  end.

End Run.

(** Whether [run] prints the progress at the end of [year], and the
    percentage it prints. *)
Definition prints (nyears year : Z) : bool :=
  (Z.rem year (Z.quot nyears 10) =? 0)%Z || (year =? nyears - 1)%Z.

Definition percent (nyears year : Z) : Z := Z.quot (100 * year) (nyears - 1).

(** The years at whose end [run] prints the progress. *)
Definition progress_years (nyears : Z) : list Z :=
  List.filter (prints nyears) (map Z.of_nat (seq 0 (Z.to_nat nyears))).

(** An instruction file of three years, and collaborators that never
    throw. *)
Definition example_file : instruction_file :=
  mk_file (Some 3%Z) (Some 2%Z) (Some 1%Z)
    (Some [0; 10]) (Some [0; 1 / 100]) (Some [1 / 10]) (Some [1 / 2; 1])
    (Some (4 / 5)) (Some 20%Z) (Some 200%Z) (Some 20%Z).

Definition example_parameters : Parameters :=
  mk_parameters 3 2 1
    (mk_habitat
       (mk_grass [0; 1 / 100] [1 / 2; 1] (4 / 5) [1 / 10]
          (g_m2_to_kg_km2 (IZR 20)) (g_m2_to_kg_km2 (IZR 20))
          (g_m2_to_kg_km2 (IZR 200)))
       [0; 10]).

End DemoSimulator.

(** ** The arithmetic on binary64 numbers *)

(** The return statements of [Fauna::average] and
    [PeriodAverage::get_average] (src/Fauna/average.cpp) and of the body
    mass getters (src/Fauna/herbivore_base.cpp) once more, with the
    operations of IEEE 754 binary64 in the order of the source. *)
Module Binary64.
Import PrimFloat.

#[local] Open Scope float_scope.

(** [Fauna::average]; [w != w] is the negation of the equality. *)
Definition average (a b weight_a weight_b : float) : result float :=
  if orb (weight_a <? 0) (weight_b <? 0) then Throw invalid_argument
  else if orb (negb (weight_a =? weight_a)) (negb (weight_b =? weight_b)) then
    Throw invalid_argument
  else if orb (weight_a =? infinity) (weight_b =? infinity) then
    Throw invalid_argument
  else if weight_a + weight_b =? 0 then Throw invalid_argument
  else Ok ((a * weight_a + b * weight_b) / (weight_a + weight_b)).

(** [(double)values.size()], counted up by ones, which is exact below
    2^53. *)
Definition size (values : list float) : float :=
  fold_left (fun n _ => n + 1) values 0.

(** [PeriodAverage::get_average] on the vector of the buffer:
    [std::accumulate] from 0.0, then the division. *)
Definition get_average (values : list float) : result float :=
  match values with
  | [] => Throw logic_error
  | _ => Ok (fold_left add values 0 / size values)
  end.

(** The branch of [get_potential_bodymass] below the age of physical
    maturity, with the age in days as the double that the cast gives;
    its two assertions are left to the caller. *)
Definition get_potential_bodymass (age_days bodymass_birth bodyfat_birth
    bodyfat_max bodymass_adult maturity_age : float) : float :=
  let birth_leanmass := bodymass_birth * (1 - bodyfat_birth) in
  let birth_potmass := birth_leanmass / (1 - bodyfat_max) in
  let fraction := age_days / (maturity_age * 365) in
  let difference := bodymass_adult - birth_potmass in
  birth_potmass + fraction * difference.

Definition get_lean_bodymass (potential_bodymass bodyfat_max : float) : float :=
  potential_bodymass * (1 - bodyfat_max).

Definition get_max_fatmass (potential_bodymass bodyfat_max : float) : float :=
  potential_bodymass * bodyfat_max.

Definition get_bodymass (fatmass potential_bodymass bodyfat_max : float)
    : float :=
  fatmass + get_lean_bodymass potential_bodymass bodyfat_max.

Definition get_bodyfat (fatmass potential_bodymass bodyfat_max : float)
    : float :=
  fatmass / get_bodymass fatmass potential_bodymass bodyfat_max.

(** The doubles nearest to 0.1, 0.2 and 0.3, as the literals of the
    source language denote them. *)
Definition tenth : float := 1 / 10.
Definition fifth : float := 2 / 10.
Definition three_tenths : float := 3 / 10.

Definition three : float := 3.
Definition seven : float := 7.
Definition fifty : float := 50.

End Binary64.
(** * Theorems *)

(** ** Boolean comparisons of reals *)

Lemma Rltb_true x y : Rltb x y = true <-> x < y.
Proof. unfold Rltb. destruct (Rlt_dec x y); split; intros; try easy. Qed.

Lemma Rltb_false x y : Rltb x y = false <-> y <= x.
Proof.
  unfold Rltb. destruct (Rlt_dec x y); split; intros; try easy; lra.
Qed.

Lemma Rleb_true x y : Rleb x y = true <-> x <= y.
Proof. unfold Rleb. destruct (Rle_dec x y); split; intros; try easy. Qed.

Lemma Rleb_false x y : Rleb x y = false <-> y < x.
Proof.
  unfold Rleb. destruct (Rle_dec x y); split; intros; try easy; lra.
Qed.

Lemma Reqb_true x y : Reqb x y = true <-> x = y.
Proof. unfold Reqb. destruct (Req_dec_T x y); split; intros; try easy. Qed.

Lemma Reqb_false x y : Reqb x y = false <-> x <> y.
Proof. unfold Reqb. destruct (Req_dec_T x y); split; intros; try easy. Qed.

Module NetEnergyFacts.
Import NetEnergy.

Lemma grass_formula_nonneg (d e : R) :
  0 <= d -> 0 <= e ->
  0 <= d * 15 * (19 / 1000 * (d * 15) + 503 / 1000) * e.
Proof.
  intros Hd He.
  apply Rmult_le_pos; [apply Rmult_le_pos|]; nra.
Qed.

Lemma digestion_efficiency_nonneg dt : 0 <= digestion_efficiency dt.
Proof. destruct dt; unfold digestion_efficiency, DIGESTION_EFFICIENCY_HINDGUTS; lra. Qed.

(** C5: for a digestibility [d] in [0,1] the net energy content of grass
    is [ME * (0.019 * ME + 0.503) * e] with [ME = d * 15], [e = 1] for
    ruminants and [e = 0.93] for hindguts, and that of the inedible type is
    0; for a digestibility outside [0,1] the call throws invalid_argument,
    whatever the forage type. *)
Theorem net_energy_content_default (dt : DigestionType) (d : R) :
  (0 <= d <= 1 ->
     get_per_forage_type dt Grass d =
       Ok (let ME := d * 15 in
           let e := match dt with DT_RUMINANT => 1 | DT_HINDGUT => 93 / 100 end in
           ME * (19 / 1000 * ME + 503 / 1000) * e)
     /\ get_per_forage_type dt Inedible d = Ok 0)
  /\ (d < 0 \/ 1 < d ->
        forall ft, get_per_forage_type dt ft d = Throw invalid_argument).
Proof.
  split.
  - intros [H0 H1]. unfold get_per_forage_type.
    rewrite (proj2 (Rleb_true 0 d) H0), (proj2 (Rleb_true d 1) H1). cbn.
    split; [|reflexivity].
    pose proof (grass_formula_nonneg d (digestion_efficiency dt) H0
                  (digestion_efficiency_nonneg dt)) as Hnn.
    unfold ME_COEFFICIENT_GRASS.
    rewrite (proj2 (Rleb_true _ _) Hnn).
    destruct dt; reflexivity.
  - intros Hout ft. unfold get_per_forage_type.
    destruct Hout as [Hlt | Hgt].
    + rewrite (proj2 (Rleb_false 0 d) Hlt). reflexivity.
    + rewrite (proj2 (Rleb_false d 1) Hgt), andb_false_r. reflexivity.
Qed.

Lemma net_energy_content_default_witness :
  (get_per_forage_type DT_HINDGUT Grass (1 / 2) =
     Ok (1 / 2 * 15 * (19 / 1000 * (1 / 2 * 15) + 503 / 1000) * (93 / 100))
   /\ get_per_forage_type DT_HINDGUT Inedible (1 / 2) = Ok 0)
  /\ get_per_forage_type DT_RUMINANT Grass 2 = Throw invalid_argument.
Proof.
  split.
  - apply (proj1 (net_energy_content_default DT_HINDGUT (1 / 2))). lra.
  - apply (proj2 (net_energy_content_default DT_RUMINANT 2)). right. lra.
Defined.

End NetEnergyFacts.

(** ** The weighted average *)

Module AverageFacts.
Import Average.

Lemma average_ok (a b wa wb : R) :
  0 <= wa -> 0 <= wb -> wa + wb <> 0 ->
  average a b wa wb = Ok ((a * wa + b * wb) / (wa + wb)).
Proof.
  intros Ha Hb Hsum. unfold average.
  rewrite (proj2 (Rltb_false wa 0) Ha), (proj2 (Rltb_false wb 0) Hb).
  rewrite (proj2 (Reqb_false (wa + wb) 0) Hsum). reflexivity.
Qed.

Lemma average_negative_weight (a b wa wb : R) :
  wa < 0 \/ wb < 0 -> average a b wa wb = Throw invalid_argument.
Proof.
  intros [H | H]; unfold average.
  - rewrite (proj2 (Rltb_true wa 0) H). reflexivity.
  - rewrite (proj2 (Rltb_true wb 0) H), orb_true_r. reflexivity.
Qed.

Lemma average_zero_weights (a b : R) :
  average a b 0 0 = Throw invalid_argument.
Proof.
  unfold average.
  rewrite (proj2 (Rltb_false 0 0)) by lra.
  rewrite (proj2 (Reqb_true (0 + 0) 0)) by lra. reflexivity.
Qed.

(** C8: over the reals the weighted average is commutative and
    associative: for non-negative weights whose pairwise sums are positive,
    [average a b wa wb] equals [average b a wb wa], and averaging
    [average a b] with [c] under the weights [wa + wb] and [wc] gives the
    same value as averaging [a] with [average b c] under [wa] and
    [wb + wc]; all the calls return and none throws. *)
Theorem average_commutative_associative (a b c wa wb wc : R) :
  0 <= wa -> 0 <= wb -> 0 <= wc ->
  0 < wa + wb -> 0 < wb + wc -> 0 < wa + wc ->
  average a b wa wb = average b a wb wa
  /\ (exists ab, average a b wa wb = Ok ab)
  /\ (do ab <- average a b wa wb; average ab c (wa + wb) wc)
     = (do bc <- average b c wb wc; average a bc wa (wb + wc))
  /\ (do ab <- average a b wa wb; average ab c (wa + wb) wc)
     = Ok ((a * wa + b * wb + c * wc) / (wa + wb + wc)).
Proof.
  intros Ha Hb Hc Hab Hbc Hac.
  rewrite (average_ok a b wa wb), (average_ok b a wb wa),
    (average_ok b c wb wc) by lra.
  cbn [rbind].
  rewrite !average_ok by lra.
  repeat split.
  - f_equal. f_equal; lra.
  - eexists. reflexivity.
  - f_equal. field. lra.
  - f_equal. field. lra.
Qed.

Lemma average_commutative_associative_witness :
  average 1 2 1 3 = average 2 1 3 1
  /\ (do ab <- average 1 2 1 3; average ab 5 (1 + 3) 0)
     = (do bc <- average 2 5 3 0; average 1 bc 1 (3 + 0)).
Proof.
  pose proof (average_commutative_associative 1 2 5 1 3 0
                ltac:(lra) ltac:(lra) ltac:(lra) ltac:(lra) ltac:(lra) ltac:(lra))
    as (Hcomm & _ & Hassoc & _).
  exact (conj Hcomm Hassoc).
Defined.

End AverageFacts.

(** ** The cohort class *)

Module HerbivoreCohortFacts.
Import HerbivoreCohort.

Section Facts.

Context {collab : Collaborators}.

Lemma apply_mortality_in_range (m : R) (c : t) :
  0 <= m <= 1 ->
  apply_mortality m c
  = (set_ind_per_km2 (Rmax 0 (ind_per_km2 c + - m * ind_per_km2 c)) c, Ok tt).
Proof.
  intros [H0 H1]. unfold apply_mortality, get_ind_per_km2.
  rewrite (proj2 (Rltb_false m 0) H0), (proj2 (Rltb_false 1 m) H1).
  cbn [orb].
  rewrite (proj2 (Rleb_true 0 _)); [reflexivity|].
  unfold ind_per_km2, set_ind_per_km2. cbn [derived]. apply Rmax_l.
Qed.

(** C3: for a cohort of density [d >= 0] and a mortality [m] in [0,1],
    [apply_mortality] returns normally, sets the density to
    [max(0, d - m * d)], which is [(1 - m) * d] clamped below at 0 and is
    not negative, and changes nothing else; for [m] outside [0,1] it throws
    invalid_argument and leaves the cohort as it was. *)
Theorem cohort_apply_mortality (m : R) (c : t) :
  (0 <= ind_per_km2 c -> 0 <= m <= 1 ->
     exists c',
       apply_mortality m c = (c', Ok tt)
       /\ ind_per_km2 c' = Rmax 0 (ind_per_km2 c - m * ind_per_km2 c)
       /\ ind_per_km2 c' = Rmax 0 ((1 - m) * ind_per_km2 c)
       /\ ind_per_km2 c' = (1 - m) * ind_per_km2 c
       /\ 0 <= ind_per_km2 c'
       /\ c' = set_ind_per_km2 (ind_per_km2 c') c)
  /\ (m < 0 \/ 1 < m -> apply_mortality m c = (c, Throw invalid_argument)).
Proof.
  split.
  - intros Hd Hm. eexists. split; [apply apply_mortality_in_range; exact Hm|].
    unfold ind_per_km2, set_ind_per_km2 in *. cbn [derived].
    assert (Hnn : 0 <= (1 - m) * derived c).
    { apply Rmult_le_pos; [lra | exact Hd]. }
    replace (derived c + - m * derived c) with ((1 - m) * derived c) by ring.
    replace (derived c - m * derived c) with ((1 - m) * derived c) by ring.
    rewrite Rmax_right by exact Hnn.
    repeat split; try reflexivity. exact Hnn.
  - intros Hout. unfold apply_mortality.
    destruct Hout as [H | H].
    + rewrite (proj2 (Rltb_true m 0) H). reflexivity.
    + rewrite (proj2 (Rltb_true 1 m) H), orb_true_r. reflexivity.
Qed.

Lemma merge_mergeable (this other : t) :
  age_days this = age_days other ->
  sex this = sex other ->
  hft_eqb (hft this) (hft other) = true ->
  merge this other
  = ((set_ind_per_km2 (ind_per_km2 this + ind_per_km2 other)
        (set_energy_budget
           (FatmassEnergyBudget.merge (energy_budget other)
              (ind_per_km2 this) (ind_per_km2 other) (energy_budget this))
           this),
      set_ind_per_km2 0 other),
     Ok tt).
Proof.
  intros Hage Hsex Hhft. unfold merge, is_same_age, get_sex, get_hft.
  rewrite Hage, Z.eqb_refl, Hsex, Hhft. cbn [negb].
  destruct (sex other); reflexivity.
Qed.

Lemma merge_not_mergeable (this other : t) :
  age_days this <> age_days other
  \/ sex this <> sex other
  \/ hft_eqb (hft this) (hft other) = false ->
  merge this other = ((this, other), Throw invalid_argument).
Proof.
  intros H. unfold merge, is_same_age, get_sex, get_hft.
  destruct (Z.eqb_spec (age_days this) (age_days other)) as [Hage | Hage];
    [|reflexivity].
  cbn [negb].
  destruct (Sex_eqb (sex this) (sex other)) eqn:Hsex; [|reflexivity].
  cbn [negb].
  destruct (hft_eqb (hft this) (hft other)) eqn:Hhft; [|reflexivity].
  exfalso. destruct H as [H | [H | H]].
  - exact (H Hage).
  - apply H. destruct (sex this), (sex other); (reflexivity || discriminate).
  - discriminate.
Qed.

(** C9: merging two cohorts of the same functional type, sex and age
    gives the receiving cohort the sum of the two densities and the other
    cohort the density 0, so the total density is conserved; the energy
    budget of the receiving cohort becomes the mean of the two budgets
    weighted by the two densities, and nothing else changes.  If the
    cohorts differ in age, sex or functional type, [merge] throws
    invalid_argument and both cohorts stay as they were. *)
Theorem cohort_merge (this other : t) :
  (age_days this = age_days other ->
   sex this = sex other ->
   hft_eqb (hft this) (hft other) = true ->
   exists this' other',
     merge this other = ((this', other'), Ok tt)
     /\ ind_per_km2 this' = ind_per_km2 this + ind_per_km2 other
     /\ ind_per_km2 other' = 0
     /\ ind_per_km2 this' + ind_per_km2 other'
        = ind_per_km2 this + ind_per_km2 other
     /\ (ind_per_km2 this + ind_per_km2 other <> 0 ->
         FatmassEnergyBudget.fatmass (energy_budget this')
         = (FatmassEnergyBudget.fatmass (energy_budget this) * ind_per_km2 this
            + FatmassEnergyBudget.fatmass (energy_budget other) * ind_per_km2 other)
           / (ind_per_km2 this + ind_per_km2 other))
     /\ energy_budget this'
        = FatmassEnergyBudget.merge (energy_budget other)
            (ind_per_km2 this) (ind_per_km2 other) (energy_budget this)
     /\ this' = set_ind_per_km2 (ind_per_km2 this')
                  (set_energy_budget (energy_budget this') this)
     /\ other' = set_ind_per_km2 0 other)
  /\ (age_days this <> age_days other
      \/ sex this <> sex other
      \/ hft_eqb (hft this) (hft other) = false ->
      merge this other = ((this, other), Throw invalid_argument)).
Proof.
  split.
  - intros Hage Hsex Hhft. do 2 eexists.
    split; [apply merge_mergeable; assumption|].
    unfold ind_per_km2, set_ind_per_km2, set_energy_budget,
      FatmassEnergyBudget.merge, FatmassEnergyBudget.weighted_mean.
    cbn [derived energy_budget FatmassEnergyBudget.fatmass].
    repeat split; try reflexivity. ring.
  - apply merge_not_mergeable.
Qed.

End Facts.

Lemma cohort_apply_mortality_witness :
  (exists c',
     apply_mortality (1 / 4)
       (Examples.cohort (Examples.hft [] RM_NONE) SEX_FEMALE 400 8)
     = (c', Ok tt)
     /\ ind_per_km2 c' = (1 - 1 / 4) * 8)
  /\ apply_mortality 2
       (Examples.cohort (Examples.hft [] RM_NONE) SEX_FEMALE 400 8)
     = (Examples.cohort (Examples.hft [] RM_NONE) SEX_FEMALE 400 8,
        Throw invalid_argument).
Proof.
  pose proof (cohort_apply_mortality (collab := Examples.collab) (1 / 4)
                (Examples.cohort (Examples.hft [] RM_NONE) SEX_FEMALE 400 8))
    as [Hin _].
  pose proof (cohort_apply_mortality (collab := Examples.collab) 2
                (Examples.cohort (Examples.hft [] RM_NONE) SEX_FEMALE 400 8))
    as [_ Hout].
  split.
  - destruct Hin as (c' & Hrun & _ & _ & Hd & _); [cbn; lra | lra |].
    exists c'. exact (conj Hrun Hd).
  - apply Hout. right. lra.
Defined.

(** Scenario S6 of the specification: equal cohorts of densities 1 and 3
    merge into one of density 4 whose fat mass is the common one. *)
Lemma cohort_merge_witness :
  (exists this' other',
     merge (Examples.cohort (Examples.hft [] RM_NONE) SEX_FEMALE 400 1)
           (Examples.cohort (Examples.hft [] RM_NONE) SEX_FEMALE 400 3)
     = ((this', other'), Ok tt)
     /\ ind_per_km2 this' = 1 + 3
     /\ ind_per_km2 other' = 0
     /\ FatmassEnergyBudget.fatmass (energy_budget this') = 4)
  /\ merge (Examples.cohort (Examples.hft [] RM_NONE) SEX_FEMALE 400 1)
           (Examples.cohort (Examples.hft [] RM_NONE) SEX_MALE 400 3)
     = ((Examples.cohort (Examples.hft [] RM_NONE) SEX_FEMALE 400 1,
         Examples.cohort (Examples.hft [] RM_NONE) SEX_MALE 400 3),
        Throw invalid_argument).
Proof.
  split.
  - destruct (proj1 (cohort_merge (collab := Examples.collab)
                       (Examples.cohort (Examples.hft [] RM_NONE) SEX_FEMALE 400 1)
                       (Examples.cohort (Examples.hft [] RM_NONE) SEX_FEMALE 400 3))
                eq_refl eq_refl eq_refl)
      as (this' & other' & Hrun & Hsum & Hzero & _ & Hfat & _).
    exists this', other'. repeat split; try assumption.
    rewrite Hfat.
    + change ((4 * 1 + 4 * 3) / (1 + 3) = 4). lra.
    + change ((1 : R) + 3 <> 0). lra.
  - apply (proj2 (cohort_merge (collab := Examples.collab)
                    (Examples.cohort (Examples.hft [] RM_NONE) SEX_FEMALE 400 1)
                    (Examples.cohort (Examples.hft [] RM_NONE) SEX_MALE 400 3))).
    right. left. discriminate.
Defined.

End HerbivoreCohortFacts.

(** ** The herbivore base class: mortality *)

Section MortalityFacts.

Context {collab : Collaborators} {D : Type} {virt : HerbivoreVirtual D}.

Lemma get_potential_bodymass_ok (h : HerbivoreBase D) :
  bodymass_assertions_hold (hft h) ->
  exists m, get_potential_bodymass h = Ok m.
Proof.
  intros (Hfat & Hmale & Hfemale). unfold get_potential_bodymass, get_hft.
  destruct (Rleb _ (get_age_years h)); [eexists; reflexivity|].
  rewrite (proj2 (Rltb_true 0 (1 - bodyfat_max (hft h))) Hfat). cbn [negb].
  destruct (Sex_eqb (get_sex h) SEX_MALE).
  - rewrite (proj2 (Rltb_true 0 _) Hmale). eexists; reflexivity.
  - rewrite (proj2 (Rltb_true 0 _) Hfemale). eexists; reflexivity.
Qed.

Lemma get_max_fatmass_ok (h : HerbivoreBase D) :
  bodymass_assertions_hold (hft h) -> exists m, get_max_fatmass h = Ok m.
Proof.
  intros H. destruct (get_potential_bodymass_ok h H) as [m Hm].
  unfold get_max_fatmass. rewrite Hm. eexists; reflexivity.
Qed.

Lemma get_bodyfat_ok (h : HerbivoreBase D) :
  bodymass_assertions_hold (hft h) -> exists m, get_bodyfat h = Ok m.
Proof.
  intros H. destruct (get_potential_bodymass_ok h H) as [m Hm].
  unfold get_bodyfat, get_bodymass, get_lean_bodymass. rewrite Hm.
  eexists; reflexivity.
Qed.

(** What one pass of the loop does when it ends normally: it adds one
    rate and writes it to the output under its factor; the functional type
    stays. *)
Lemma mortality_factor_step_ok (f : MortalityFactor) (s : R)
    (h h1 : HerbivoreBase D) (s1 : R) :
  mortality_factor_step f s h = (h1, Ok s1) ->
  exists m,
    s1 = s + m
    /\ HerbivoreData.mortality (current_output h1)
       = <[f := m]> (HerbivoreData.mortality (current_output h))
    /\ hft h1 = hft h.
Proof.
  unfold mortality_factor_step. destruct f.
  - intros [= <- <-]. eexists. repeat split.
  - intros [= <- <-]. eexists. repeat split.
  - destruct (get_max_fatmass h) as [mf|e]; [|discriminate].
    destruct (GetStarvationIlliusOConnor2000 _ _ _) as [m nbc].
    intros [= <- <-]. exists m.
    destruct (negb (Reqb nbc _)); repeat split.
  - destruct (get_bodyfat h) as [bf|e]; [|discriminate].
    intros [= <- <-]. eexists. repeat split.
Qed.

Lemma mortality_factor_step_total (f : MortalityFactor) (s : R)
    (h : HerbivoreBase D) :
  bodymass_assertions_hold (hft h) ->
  exists h1 s1, mortality_factor_step f s h = (h1, Ok s1).
Proof.
  intros H. unfold mortality_factor_step. destruct f.
  - do 2 eexists; reflexivity.
  - do 2 eexists; reflexivity.
  - destruct (get_max_fatmass_ok h H) as [mf ->].
    destruct (GetStarvationIlliusOConnor2000 _ _ _) as [m nbc].
    do 2 eexists; reflexivity.
  - destruct (get_bodyfat_ok h H) as [bf ->].
    do 2 eexists; reflexivity.
Qed.

Lemma mortality_factors_loop_total (factors : list MortalityFactor) :
  forall (s : R) (h : HerbivoreBase D),
    bodymass_assertions_hold (hft h) ->
    exists h' s', mortality_factors_loop factors s h = (h', Ok s').
Proof.
  induction factors as [|f rest IH]; intros s h H.
  - do 2 eexists; reflexivity.
  - destruct (mortality_factor_step_total f s h H) as (h1 & s1 & Hstep).
    cbn [mortality_factors_loop]. rewrite Hstep.
    destruct (mortality_factor_step_ok _ _ _ _ _ Hstep) as (m & _ & _ & Hhft).
    apply IH. rewrite Hhft. exact H.
Qed.

(** The loop adds up exactly the rates that it leaves in the output,
    once for each factor, and leaves the entries of other factors alone. *)
Lemma mortality_factors_loop_sum (factors : list MortalityFactor) :
  forall (s : R) (h h' : HerbivoreBase D) (s' : R),
    NoDup factors ->
    mortality_factors_loop factors s h = (h', Ok s') ->
    s' = s + fold_right Rplus 0 (map (recorded_rate h') factors)
    /\ (forall g, g ∉ factors ->
          HerbivoreData.mortality (current_output h') !! g
          = HerbivoreData.mortality (current_output h) !! g)
    /\ hft h' = hft h.
Proof.
  induction factors as [|f rest IH]; intros s h h' s' Hnodup Hloop.
  - injection Hloop as <- <-. cbn. repeat split. lra.
  - cbn [mortality_factors_loop] in Hloop.
    destruct (mortality_factor_step f s h) as [h1 [s1|e]] eqn:Hstep;
      [|discriminate].
    destruct (mortality_factor_step_ok _ _ _ _ _ Hstep) as (m & -> & Hout & Hhft).
    apply NoDup_cons in Hnodup as [Hnotin Hnodup].
    destruct (IH _ _ _ _ Hnodup Hloop) as (-> & Hother & Hhft').
    assert (Hf : recorded_rate h' f = m).
    { unfold recorded_rate. rewrite (Hother f Hnotin), Hout.
      rewrite lookup_insert_eq. reflexivity. }
    repeat split.
    + cbn [map fold_right]. rewrite Hf. lra.
    + intros g Hg. apply not_elem_of_cons in Hg as [Hne Hg].
      rewrite (Hother g Hg), Hout. apply lookup_insert_ne. congruence.
    + congruence.
Qed.

Lemma factor_mortality_ext (f : MortalityFactor) (x y : HerbivoreBase D) :
  hft x = hft y -> sex x = sex y -> age_days x = age_days y ->
  energy_budget x = energy_budget y ->
  factor_mortality f x = factor_mortality f y.
Proof.
  intros Hh Hs Ha Hb.
  unfold factor_mortality, get_max_fatmass, get_bodyfat, get_bodymass,
    get_lean_bodymass, get_potential_bodymass, get_bodymass_adult,
    get_fatmass, get_age_years, get_age_days, get_energy_budget, get_sex,
    get_hft.
  rewrite Hh, Hs, Ha, Hb. reflexivity.
Qed.

Lemma mortality_factor_step_rate (f : MortalityFactor) (s : R)
    (h h1 : HerbivoreBase D) (s1 : R) :
  mortality_factor_step f s h = (h1, Ok s1) ->
  exists m,
    factor_mortality f h = Ok m
    /\ s1 = s + m
    /\ HerbivoreData.mortality (current_output h1)
       = <[f := m]> (HerbivoreData.mortality (current_output h))
    /\ hft h1 = hft h /\ sex h1 = sex h /\ age_days h1 = age_days h
    /\ (f <> MF_STARVATION_ILLIUS_OCONNOR_2000 ->
        energy_budget h1 = energy_budget h).
Proof.
  unfold mortality_factor_step, factor_mortality. destruct f.
  - intros [= <- <-]. eexists. repeat split.
  - intros [= <- <-]. eexists. repeat split.
  - destruct (get_max_fatmass h) as [mf|e]; [|discriminate].
    cbn [rbind].
    destruct (GetStarvationIlliusOConnor2000 _ _ _) as [m nbc].
    intros [= <- <-]. exists m.
    destruct (negb (Reqb nbc _)); repeat split; congruence.
  - destruct (get_bodyfat h) as [bf|e]; [|discriminate].
    intros [= <- <-]. eexists. repeat split.
Qed.

Lemma mortality_factors_loop_frame (factors : list MortalityFactor) :
  forall (s : R) (h h' : HerbivoreBase D) (s' : R),
    mortality_factors_loop factors s h = (h', Ok s') ->
    hft h' = hft h /\ sex h' = sex h /\ age_days h' = age_days h
    /\ (MF_STARVATION_ILLIUS_OCONNOR_2000 ∉ factors ->
        energy_budget h' = energy_budget h).
Proof.
  induction factors as [|f rest IH]; intros s h h' s' Hloop.
  - injection Hloop as <- <-. repeat split.
  - cbn [mortality_factors_loop] in Hloop.
    destruct (mortality_factor_step f s h) as [h1 [s1|e]] eqn:Hstep;
      [|discriminate].
    destruct (mortality_factor_step_rate _ _ _ _ _ Hstep)
      as (m & _ & _ & _ & Hh & Hs & Ha & Hb).
    destruct (IH _ _ _ _ Hloop) as (Hh' & Hs' & Ha' & Hb').
    split; [congruence|]. split; [congruence|]. split; [congruence|].
    intros Hnotin. apply not_elem_of_cons in Hnotin as [Hne Hnotin].
    rewrite (Hb' Hnotin). apply Hb. congruence.
Qed.

(** Each rate in the output after the loop is the one that the functor
    of its factor returns for the herbivore as the loop finds it. *)
Lemma mortality_factors_loop_rates (factors : list MortalityFactor) :
  forall (s : R) (h h' : HerbivoreBase D) (s' : R),
    NoDup factors ->
    mortality_factors_loop factors s h = (h', Ok s') ->
    forall before f after,
      factors = before ++ f :: after ->
      factor_mortality f (as_seen_after before h h') = Ok (recorded_rate h' f).
Proof.
  induction factors as [|f0 rest IH]; intros s h h' s' Hnodup Hloop
    before f after Hsplit.
  - destruct before; discriminate.
  - cbn [mortality_factors_loop] in Hloop.
    destruct (mortality_factor_step f0 s h) as [h1 [s1|e]] eqn:Hstep;
      [|discriminate].
    destruct (mortality_factor_step_rate _ _ _ _ _ Hstep)
      as (m & Hrate & _ & Hout & Hh & Hs & Ha & Hb).
    apply NoDup_cons in Hnodup as [Hnotin Hnodup].
    destruct (mortality_factors_loop_sum _ _ _ _ _ Hnodup Hloop)
      as (_ & Hother & _).
    destruct (mortality_factors_loop_frame _ _ _ _ _ Hloop)
      as (Hh' & Hs' & Ha' & Hb').
    destruct before as [|b before].
    + injection Hsplit as <- <-.
      unfold as_seen_after. rewrite bool_decide_eq_false_2 by apply not_elem_of_nil.
      rewrite Hrate. f_equal. unfold recorded_rate.
      rewrite (Hother f0 Hnotin), Hout, lookup_insert_eq. reflexivity.
    + injection Hsplit as <- Hrest.
      rewrite <- (IH _ _ _ _ Hnodup Hloop before f after Hrest).
      unfold as_seen_after.
      destruct (decide (MF_STARVATION_ILLIUS_OCONNOR_2000 ∈ before))
        as [Hin|Hnin].
      * rewrite (bool_decide_eq_true_2 _ Hin).
        rewrite bool_decide_eq_true_2 by (apply list_elem_of_further; exact Hin).
        apply factor_mortality_ext; cbn; congruence.
      * rewrite (bool_decide_eq_false_2 _ Hnin).
        destruct (decide (f0 = MF_STARVATION_ILLIUS_OCONNOR_2000)) as [->|Hne].
        -- rewrite bool_decide_eq_true_2 by apply list_elem_of_here.
           apply factor_mortality_ext; cbn; try congruence.
           apply Hb'. exact Hnotin.
        -- rewrite bool_decide_eq_false_2
             by (intros Hin; apply elem_of_cons in Hin as [Heq|Hin];
                 [congruence | contradiction]).
           apply factor_mortality_ext; try congruence.
           symmetry. apply Hb. exact Hne.
Qed.

(** C2: the mortality with which [apply_mortality_factors_today] calls
    [apply_mortality] is the sum of the rates of the selected mortality
    factors clamped from above to 1, so that it never exceeds 1.  Each of
    these rates, which the loop also writes to today's output, is the one
    that the functor of its factor returns for the herbivore as the loop
    finds it: as it was before the loop, and with the energy budget that
    the loop leaves behind once the branch of
    MF_STARVATION_ILLIUS_OCONNOR_2000 has been passed.  The call is
    reached whenever the assertions on the body mass parameters of the
    functional type hold. *)
Theorem applied_mortality_is_clamped_sum (h : HerbivoreBase D) :
  NoDup (mortality_factors (hft h)) ->
  bodymass_assertions_hold (hft h) ->
  exists h' m,
    todays_mortality_sum h = (h', Ok m)
    /\ apply_mortality_factors_today h = apply_mortality m h'
    /\ m = Rmin 1 (sum_of_recorded_rates h')
    /\ m <= 1
    /\ hft h' = hft h
    /\ (forall before f after,
          mortality_factors (hft h) = before ++ f :: after ->
          factor_mortality f (as_seen_after before h h')
          = Ok (recorded_rate h' f)).
Proof.
  intros Hnodup Hassert.
  destruct (mortality_factors_loop_total (mortality_factors (hft h)) 0 h Hassert)
    as (h' & s' & Hloop).
  destruct (mortality_factors_loop_sum _ _ _ _ _ Hnodup Hloop)
    as (Hsum & _ & Hhft).
  exists h', (Rmin 1 s').
  assert (Htoday : todays_mortality_sum h = (h', Ok (Rmin 1 s'))).
  { unfold todays_mortality_sum, get_hft. rewrite Hloop. reflexivity. }
  split; [exact Htoday|]. split.
  { unfold apply_mortality_factors_today. rewrite Htoday. reflexivity. }
  split.
  { unfold sum_of_recorded_rates. rewrite Hhft, Hsum. f_equal. lra. }
  split; [apply Rmin_l|]. split; [exact Hhft|].
  exact (mortality_factors_loop_rates _ _ _ _ _ Hnodup Hloop).
Qed.

End MortalityFacts.

Lemma applied_mortality_is_clamped_sum_witness :
  exists h',
    todays_mortality_sum (Examples.old_cohort 8) = (h', Ok 1)
    /\ recorded_rate h' MF_BACKGROUND = 1 / 10
    /\ recorded_rate h' MF_LIFESPAN = 1.
Proof.
  destruct (applied_mortality_is_clamped_sum
              (collab := Examples.old_age_collab) (virt := HerbivoreCohort.virt)
              (Examples.old_cohort 8))
    as (h' & m & Hrun & _ & Hm & _ & Hhft & Hrates).
  - apply NoDup_cons_2; [|apply NoDup_singleton].
    intros Hin. apply list_elem_of_singleton in Hin. discriminate.
  - unfold bodymass_assertions_hold. cbn. lra.
  - pose proof (Hrates [] MF_BACKGROUND [MF_LIFESPAN] eq_refl) as Hb.
    pose proof (Hrates [MF_BACKGROUND] MF_LIFESPAN [] eq_refl) as Hl.
    injection Hb as Hb. injection Hl as Hl.
    change (1 / 10 = recorded_rate h' MF_BACKGROUND) in Hb.
    change (1 = recorded_rate h' MF_LIFESPAN) in Hl.
    assert (Hone : m = 1).
    { rewrite Hm. unfold sum_of_recorded_rates. rewrite Hhft. cbn.
      rewrite <- Hb, <- Hl. apply Rmin_left. lra. }
    rewrite Hone in Hrun. exists h'.
    exact (conj Hrun (conj (eq_sym Hb) (eq_sym Hl))).
Defined.

(** ** The herbivore base class: reproduction, feeding, forage demands *)

Section HerbivoreFacts.

Context {collab : Collaborators} {D : Type} {virt : HerbivoreVirtual D}.

Lemma Sex_eqb_eq (a b : Sex) : Sex_eqb a b = true <-> a = b.
Proof. destruct a, b; cbn; split; (reflexivity || discriminate). Qed.

Lemma offspring_guard (h : HerbivoreBase D) :
  Sex_eqb (get_sex h) SEX_MALE
  || Rltb (get_age_years h) (maturity_age_sex (get_hft h)) = false ->
  get_sex h = SEX_FEMALE /\ maturity_age_sex (get_hft h) <= get_age_years h.
Proof.
  intros H. apply orb_false_iff in H as [Hsex Hage]. split.
  - destruct (get_sex h); [reflexivity | discriminate].
  - apply Rltb_false. exact Hage.
Qed.

(** C1: [get_todays_offspring_proportion] returns 0 for every male and
    for every herbivore whose age in years is below the age of sexual
    maturity of its functional type; whenever it returns a value above 0,
    the herbivore is a female whose age in years is at least that age. *)
Theorem offspring_only_from_mature_females (h : HerbivoreBase D) :
  (get_sex h = SEX_MALE \/ get_age_years h < maturity_age_sex (get_hft h) ->
   get_todays_offspring_proportion h = Ok 0)
  /\ (forall p,
        get_todays_offspring_proportion h = Ok p -> 0 < p ->
        get_sex h = SEX_FEMALE
        /\ maturity_age_sex (get_hft h) <= get_age_years h).
Proof.
  split.
  - intros H. unfold get_todays_offspring_proportion.
    destruct H as [H | H].
    + rewrite H. reflexivity.
    + rewrite (proj2 (Rltb_true _ _) H), orb_true_r. reflexivity.
  - intros p Hrun Hpos. unfold get_todays_offspring_proportion in Hrun.
    destruct (Sex_eqb (get_sex h) SEX_MALE
              || Rltb (get_age_years h) (maturity_age_sex (get_hft h)))
      eqn:Hguard.
    + injection Hrun as <-. lra.
    + apply offspring_guard. exact Hguard.
Qed.

(** The part of the guard of [eat] that the code implements: without
    individuals and without forage, [eat] throws a logic error and the
    herbivore stays as it was. *)
Lemma eat_nothing_without_individuals
    (kg_per_km2 digestibility N_kg_per_km2 : ForageValues) (h : HerbivoreBase D) :
  get_ind_per_km2 h = 0 ->
  kg_per_km2 Grass = 0 -> kg_per_km2 Inedible = 0 ->
  eat kg_per_km2 digestibility N_kg_per_km2 h = (h, Throw logic_error).
Proof.
  intros Hd Hg Hi. unfold eat, fv_eq_scalar.
  rewrite (proj2 (Reqb_true _ _) Hd), (proj2 (Reqb_true _ _) Hg),
    (proj2 (Reqb_true _ _) Hi).
  reflexivity.
Qed.

(** With forage on offer the guard lets a herbivore without individuals
    pass, and the assertion that follows it fails. *)
Lemma eat_something_without_individuals
    (kg_per_km2 digestibility N_kg_per_km2 : ForageValues) (h : HerbivoreBase D) :
  get_ind_per_km2 h = 0 ->
  kg_per_km2 Grass <> 0 \/ kg_per_km2 Inedible <> 0 ->
  eat kg_per_km2 digestibility N_kg_per_km2 h = (h, Throw assertion_failed).
Proof.
  intros Hd Hkg. unfold eat, fv_eq_scalar.
  rewrite (proj2 (Reqb_true _ _) Hd).
  destruct Hkg as [H | H].
  - rewrite (proj2 (Reqb_false _ _) H). reflexivity.
  - rewrite (proj2 (Reqb_false _ _) H), andb_false_r. reflexivity.
Qed.

(** C10: for a dead herbivore [get_forage_demands] returns the zero
    forage mass, whatever forage is available, and the herbivore, with its
    forage-demand helper and its output, stays as it was. *)
Theorem dead_herbivore_demands_nothing (available_forage : HabitatForage)
    (h : HerbivoreBase D) :
  is_dead h = true ->
  get_forage_demands available_forage h = (h, Ok (fv_const 0)).
Proof.
  intros Hdead. unfold get_forage_demands. rewrite Hdead. reflexivity.
Qed.

End HerbivoreFacts.

(** A mature female under the constant-maximum model has offspring. *)
Lemma mature_female_has_offspring :
  get_todays_offspring_proportion
    (Examples.cohort (Examples.hft [] RM_CONST_MAX) SEX_FEMALE 1000 8) = Ok 1.
Proof.
  unfold get_todays_offspring_proportion.
  change (Sex_eqb _ SEX_MALE || Rltb _ _) with (Rltb (IZR 1000 / 365) 2).
  rewrite (proj2 (Rltb_false _ _)) by lra.
  reflexivity.
Qed.

Lemma offspring_only_from_mature_females_witness :
  get_todays_offspring_proportion
    (Examples.cohort (Examples.hft [] RM_CONST_MAX) SEX_MALE 1000 8) = Ok 0
  /\ get_todays_offspring_proportion
       (Examples.cohort (Examples.hft [] RM_CONST_MAX) SEX_FEMALE 365 8) = Ok 0
  /\ (get_sex (Examples.cohort (Examples.hft [] RM_CONST_MAX) SEX_FEMALE 1000 8)
      = SEX_FEMALE
      /\ maturity_age_sex
           (get_hft (Examples.cohort (Examples.hft [] RM_CONST_MAX)
                       SEX_FEMALE 1000 8))
         <= get_age_years
              (Examples.cohort (Examples.hft [] RM_CONST_MAX) SEX_FEMALE 1000 8)).
Proof.
  split; [|split].
  - apply (proj1 (offspring_only_from_mature_females
                    (collab := Examples.collab)
                    (Examples.cohort (Examples.hft [] RM_CONST_MAX)
                       SEX_MALE 1000 8))).
    left. reflexivity.
  - apply (proj1 (offspring_only_from_mature_females
                    (collab := Examples.collab)
                    (Examples.cohort (Examples.hft [] RM_CONST_MAX)
                       SEX_FEMALE 365 8))).
    right. change (IZR 365 / 365 < 2). lra.
  - apply (proj2 (offspring_only_from_mature_females
                    (collab := Examples.collab)
                    (Examples.cohort (Examples.hft [] RM_CONST_MAX)
                       SEX_FEMALE 1000 8)) 1).
    + exact mature_female_has_offspring.
    + lra.
Defined.

Lemma dead_herbivore_demands_nothing_witness :
  get_forage_demands (virt := HerbivoreCohort.virt)
    (Examples.grass_only 1000 : @HabitatForage Examples.collab)
    (Examples.cohort (Examples.hft [] RM_NONE) SEX_FEMALE 400 0)
  = (Examples.cohort (Examples.hft [] RM_NONE) SEX_FEMALE 400 0,
     Ok (fv_const 0)).
Proof.
  apply (dead_herbivore_demands_nothing (collab := Examples.collab)
           (virt := HerbivoreCohort.virt)).
  change (Rltb 0 (1 / 1000) = true). apply Rltb_true. lra.
Defined.

(** C4: a cohort without individuals that is offered 1 kg of grass per
    square kilometre.  The guard of [eat] asks for zero density and zero
    forage at once, so it does not throw; the assertion behind it fails
    instead.  No logic error is thrown, against the documented
    precondition of a positive density. *)
Theorem eat_without_individuals_fails_assertion :
  eat (virt := HerbivoreCohort.virt)
    (Examples.grass_only 1) (Examples.grass_only (1 / 2)) (fv_const 0)
    (Examples.cohort (Examples.hft [] RM_NONE) SEX_FEMALE 400 0)
  = (Examples.cohort (Examples.hft [] RM_NONE) SEX_FEMALE 400 0,
     Throw assertion_failed)
  /\ eat (virt := HerbivoreCohort.virt)
       (Examples.grass_only 1) (Examples.grass_only (1 / 2)) (fv_const 0)
       (Examples.cohort (Examples.hft [] RM_NONE) SEX_FEMALE 400 0)
     <> (Examples.cohort (Examples.hft [] RM_NONE) SEX_FEMALE 400 0,
         Throw logic_error).
Proof.
  assert (Heat :
    eat (virt := HerbivoreCohort.virt)
      (Examples.grass_only 1) (Examples.grass_only (1 / 2)) (fv_const 0)
      (Examples.cohort (Examples.hft [] RM_NONE) SEX_FEMALE 400 0)
    = (Examples.cohort (Examples.hft [] RM_NONE) SEX_FEMALE 400 0,
       Throw assertion_failed)).
  { apply (eat_something_without_individuals (collab := Examples.collab)
             (virt := HerbivoreCohort.virt)).
    - reflexivity.
    - left. change ((1 : R) <> 0). lra. }
  split; [exact Heat|]. rewrite Heat. intros [=].
Qed.

(** ** The earlier draft of the reproduction guard *)

Section DraftReproductionFacts.

Context {collab : Collaborators} {D : Type}.
Variable ReproductionIllius2000 : Z -> Z -> R -> result (Z -> R -> result R).

(** The draft compares the age with [>=] where the final version has
    [<]: there, a female that has reached sexual maturity never has
    offspring. *)
Lemma draft_mature_female_has_no_offspring (h : HerbivoreBase D) :
  maturity_age_sex (get_hft h) <= get_age_years h ->
  draft_get_todays_offspring_proportion ReproductionIllius2000 h = Ok 0.
Proof.
  intros H. unfold draft_get_todays_offspring_proportion.
  rewrite (proj2 (Rleb_true _ _) H), orb_true_r. reflexivity.
Qed.

End DraftReproductionFacts.

(** ** Forage distribution *)

Module FrameworkFacts.
Import Framework.

Lemma inner_loop_leaves_distribution (herbivores : list HerbivorePtr)
    (dist : gmap positive ForageValues) :
  fold_left (fun (d : gmap positive ForageValues) (_ : HerbivorePtr) => d)
    herbivores dist = dist.
Proof. induction herbivores as [|p rest IH]; [reflexivity | exact IH]. Qed.

(** The draft distributor returns the distribution it was given. *)
Lemma DistributeForageEqually_leaves_distribution {HabitatForage : Type}
    (available : HabitatForage) (populations : list (list HerbivorePtr))
    (dist : gmap positive ForageValues) (forage_sum : ForageValues) :
  DistributeForageEqually available populations dist forage_sum = dist.
Proof.
  unfold DistributeForageEqually.
  induction populations as [|pop rest IH]; [reflexivity|].
  cbn [fold_left]. rewrite inner_loop_leaves_distribution. exact IH.
Qed.

(** C6: scenario S4 of the specification, two herbivores (at the
    addresses 1 and 2) in one population and 60 kg of grass.  The draft
    distributor allots nothing to either of them, whatever they demand, and
    the sum handed to the habitat is 0: the allocation is not the demands
    scaled to the available forage, and with positive demands its sum is
    not [min(A, D)]. *)
Theorem draft_distributor_allots_nothing :
  todays_forage_distribution (Examples.grass_only 60) [[1%positive; 2%positive]]
  = (∅, fv_const 0)
  /\ forage_distribution_lookup
       (fst (todays_forage_distribution (Examples.grass_only 60)
               [[1%positive; 2%positive]])) 1%positive = None
  /\ forage_distribution_lookup
       (fst (todays_forage_distribution (Examples.grass_only 60)
               [[1%positive; 2%positive]])) 2%positive = None.
Proof.
  unfold todays_forage_distribution.
  rewrite DistributeForageEqually_leaves_distribution.
  repeat split.
Qed.

End FrameworkFacts.

(** The algorithm of section 4.5 of the specification does what the
    distributor is required to do. *)
Module DistributeEquallyFacts.
Import DistributeEqually.

Lemma total_scaled (k : R) (l : list R) :
  total (map (fun d => d * k) l) = total l * k.
Proof.
  induction l as [|d rest IH]; cbn [map total fold_right].
  - lra.
  - fold (total (map (fun d => d * k) rest)). fold (total rest).
    rewrite IH. lra.
Qed.

Lemma scaled_below_demand (k : R) (l : list R) :
  0 <= k <= 1 -> Forall (fun d => 0 <= d) l ->
  Forall2 (fun x d => 0 <= x <= d) (map (fun d => d * k) l) l.
Proof.
  intros Hk Hl. induction Hl as [|d rest Hd _ IH]; cbn [map].
  - constructor.
  - constructor; [nra | exact IH].
Qed.

Lemma distribute_meets_requirements (A : R) (demands : list R) :
  0 <= A -> Forall (fun d => 0 <= d) demands ->
  (total demands <= A -> distribute A demands = demands)
  /\ (A < total demands ->
      distribute A demands = map (fun d => d * (A / total demands)) demands)
  /\ total (distribute A demands) = Rmin A (total demands)
  /\ Forall2 (fun x d => 0 <= x <= d) (distribute A demands) demands
  /\ total (distribute A demands) <= A.
Proof.
  intros HA Hdem. unfold distribute.
  destruct (Rle_dec (total demands) A) as [Hle | Hgt].
  - rewrite (proj2 (Rleb_true _ _) Hle).
    repeat split.
    + intros H. lra.
    + rewrite Rmin_right by exact Hle. reflexivity.
    + clear Hle. induction Hdem as [|d rest Hd _ IH]; constructor; [lra | exact IH].
    + exact Hle.
  - apply Rnot_le_lt in Hgt.
    rewrite (proj2 (Rleb_false _ _) Hgt).
    assert (HD : 0 < total demands) by lra.
    assert (Hk : 0 <= A / total demands <= 1).
    { split.
      - apply Rmult_le_pos; [exact HA|]. left. apply Rinv_0_lt_compat. exact HD.
      - apply (Rmult_le_reg_r (total demands)); [exact HD|].
        unfold Rdiv. rewrite Rmult_assoc, Rinv_l by lra. lra. }
    assert (Htotal : total (map (fun d => d * (A / total demands)) demands) = A).
    { rewrite total_scaled. field. lra. }
    repeat split.
    + intros H. lra.
    + rewrite Htotal, Rmin_left by lra. reflexivity.
    + apply scaled_below_demand; assumption.
    + rewrite Htotal. lra.
Qed.

End DistributeEquallyFacts.

(** ** The establishment cycle *)

Module WorldFacts.
Import World.

Section Facts.

Context {collab : Collaborators}.

(** One pass of the loop: establishment is asked for exactly when the
    initial establishment is not done, or the counter equals a positive
    interval; in the latter case the counter restarts and ends the pass
    at 1. *)
Lemma visit_sim_unit_establish (day : Z) (do_herbivores : bool)
    (interval days : Z) (u : SimulationUnit) :
  let '(days', _, establish) :=
    visit_sim_unit day do_herbivores interval days u in
  establish
  = negb (is_initial_establishment_done u)
    || ((days =? interval)%Z && (0 <? interval)%Z)
  /\ days' = (if (days =? interval)%Z && (0 <? interval)%Z
              then 1 else days + 1)%Z.
Proof.
  unfold visit_sim_unit.
  destruct ((days =? interval)%Z && (0 <? interval)%Z); cbn.
  - rewrite orb_true_r. split; reflexivity.
  - rewrite orb_false_r. split; reflexivity.
Qed.

Lemma visit_sim_unit_counter (day : Z) (do_herbivores : bool)
    (interval days : Z) (u : SimulationUnit) :
  (0 < interval -> 0 <= days <= interval ->
   0 <= fst (fst (visit_sim_unit day do_herbivores interval days u)) <= interval)%Z.
Proof.
  intros Hpos Hrange. unfold visit_sim_unit.
  destruct (Z.eqb_spec days interval) as [-> | Hne]; cbn.
  - destruct (Z.ltb_spec 0 interval); cbn; lia.
  - lia.
Qed.

Lemma visit_sim_units_counter (day : Z) (do_herbivores : bool) (interval : Z)
    (units : list SimulationUnit) :
  forall days,
    (0 < interval -> 0 <= days <= interval ->
     0 <= fst (fst (visit_sim_units day do_herbivores interval days units))
       <= interval)%Z.
Proof.
  induction units as [|u rest IH]; intros days Hpos Hrange; cbn.
  - exact Hrange.
  - pose proof (visit_sim_unit_counter day do_herbivores interval days u
                  Hpos Hrange) as Hstep.
    destruct (visit_sim_unit day do_herbivores interval days u)
      as [[days1 u'] e]. cbn in Hstep.
    specialize (IH days1 Hpos Hstep).
    destruct (visit_sim_units day do_herbivores interval days1 rest)
      as [[days2 rest'] es]. exact IH.
Qed.

(** In every world that the program can build, the counter of a positive
    interval stays between 0 and the interval, so the test [==] of the
    code holds exactly when the counter has reached the interval. *)
Lemma reachable_counter_in_range (w : t) :
  reachable w ->
  (0 < herbivore_establish_interval w ->
   0 <= days_since_last_establishment w <= herbivore_establish_interval w)%Z.
Proof.
  induction 1 as [interval | u w Hw IH | day do_herbivores w Hw IH]; cbn.
  - lia.
  - exact IH.
  - unfold simulate_day.
    destruct ((day <? 0)%Z || (365 <=? day)%Z); [exact IH|].
    intros Hpos.
    pose proof (visit_sim_units_counter day do_herbivores
                  (herbivore_establish_interval w)
                  (sim_units w) (days_since_last_establishment w)) as Hloop.
    destruct (visit_sim_units day do_herbivores
                (herbivore_establish_interval w)
                (days_since_last_establishment w) (sim_units w))
      as [[days units] es].
    cbn in *. apply Hloop; [exact Hpos | apply IH; exact Hpos].
Qed.

(** With a single simulation unit the counter counts days: a day that
    starts with the counter at the positive interval establishes and
    leaves the counter at 1, and any other day asks for establishment only
    if the initial one is not done, and adds 1 to the counter. *)
Lemma single_unit_day (day : Z) (do_herbivores : bool) (interval days : Z)
    (u : SimulationUnit) :
  (0 <= day < 365)%Z ->
  simulate_day day do_herbivores (mk interval days [u])
  = (mk interval
       (if (days =? interval)%Z && (0 <? interval)%Z then 1 else days + 1)%Z
       [SimulateDay day do_herbivores
          (negb (is_initial_establishment_done u)
           || ((days =? interval)%Z && (0 <? interval)%Z)) u],
     Ok [negb (is_initial_establishment_done u)
         || ((days =? interval)%Z && (0 <? interval)%Z)]).
Proof.
  intros Hday. unfold simulate_day.
  destruct (Z.ltb_spec day 0); [lia|].
  destruct (Z.leb_spec 365 day); [lia|].
  cbn [orb sim_units herbivore_establish_interval
       days_since_last_establishment visit_sim_units].
  unfold visit_sim_unit.
  destruct ((days =? interval)%Z && (0 <? interval)%Z); cbn.
  - rewrite orb_true_r. reflexivity.
  - rewrite orb_false_r. reflexivity.
Qed.

(** With two simulation units and the interval 2 the counter is back at
    the interval at the start of every day, whatever [SimulateDay] does:
    the first unit is asked to establish every day, and the second one
    only for its initial establishment. *)
Lemma two_units_day (day : Z) (do_herbivores : bool) (u0 u1 : SimulationUnit) :
  (0 <= day < 365)%Z ->
  simulate_day day do_herbivores (mk 2 2 [u0; u1])
  = (mk 2 2
       [SimulateDay day do_herbivores true u0;
        SimulateDay day do_herbivores
          (negb (is_initial_establishment_done u1)) u1],
     Ok [true; negb (is_initial_establishment_done u1)]).
Proof.
  intros Hday. unfold simulate_day.
  destruct (Z.ltb_spec day 0); [lia|].
  destruct (Z.leb_spec 365 day); [lia|].
  reflexivity.
Qed.

End Facts.

(** C7: a world with the establishment interval 2 and two simulation
    units, simulated on three consecutive days.  The counter is shared by
    the passes of the loop over the simulation units and advances once for
    each unit, so with two units it reaches the interval every day: the
    first unit is handed [establish_if_needed = true] on each of the three
    days, one day after its last establishment and not two, and the
    second unit only on the first day, for its initial establishment. *)
Theorem shared_counter_establishes_every_day :
  simulate_day (collab := Examples.world_collab) 0 true
    (create_simulation_unit (collab := Examples.world_collab) false
       (create_simulation_unit (collab := Examples.world_collab) false
          (new (collab := Examples.world_collab) 2)))
  = (mk (collab := Examples.world_collab) 2 2 [true; true], Ok [true; true])
  /\ simulate_day (collab := Examples.world_collab) 1 true
       (mk (collab := Examples.world_collab) 2 2 [true; true])
     = (mk (collab := Examples.world_collab) 2 2 [true; true], Ok [true; false])
  /\ simulate_day (collab := Examples.world_collab) 2 true
       (mk (collab := Examples.world_collab) 2 2 [true; true])
     = (mk (collab := Examples.world_collab) 2 2 [true; true], Ok [true; false]).
Proof. repeat split. Qed.

End WorldFacts.

(** * Further properties *)

(** ** The period average *)

Module PeriodAverageFacts.
Import PeriodAverage PeriodAverageMore.

Lemma overwrite_insert (l : list R) (i : nat) (v : R) :
  overwrite l i v = <[i := v]> l.
Proof.
  revert i. induction l as [|x tl IH]; intros [|j]; cbn; try reflexivity.
  rewrite IH. reflexivity.
Qed.

(** The window of a vector [A ++ B] read from the index [length A]. *)
Lemma rotate_at (A B : list R) :
  drop (length A) (A ++ B) ++ take (length A) (A ++ B) = B ++ A.
Proof.
  rewrite drop_app_length, take_app_length. reflexivity.
Qed.

Lemma split_at (l : list R) (i : nat) :
  (i < length l)%nat ->
  exists A x B, l = A ++ x :: B /\ length A = i.
Proof.
  intros H. exists (take i l).
  destruct (drop i l) as [|x B] eqn:Hdrop.
  - apply (f_equal length) in Hdrop. rewrite length_drop in Hdrop. cbn in Hdrop. lia.
  - exists x, B. split.
    + rewrite <- Hdrop. symmetry. apply take_drop.
    + rewrite length_take. lia.
Qed.

Lemma add_value_step (v : R) (p : t) :
  well_formed p ->
  exists p',
    add_value v p = (p', Ok tt)
    /\ well_formed p'
    /\ count p' = count p
    /\ window p' = last_n (Z.to_nat (count p)) (window p ++ [v]).
Proof.
  intros (Hc & Hi & Hlen & Hfill).
  unfold add_value.
  destruct (Z.ltb_spec (current_index p) (count p)) as [_|]; [|lia].
  cbn [negb].
  assert (Hrem : Z.rem (current_index p + 1) (count p)
                 = if (current_index p + 1 =? count p)%Z then 0%Z
                   else (current_index p + 1)%Z).
  { destruct (Z.eqb_spec (current_index p + 1) (count p)) as [E|E].
    - rewrite E. apply Z.rem_same. lia.
    - apply Z.rem_small. lia. }
  eexists. split; [reflexivity|].
  destruct p as [c vals i]. cbn [count values current_index] in *.
  destruct (Z.ltb_spec i (Z.of_nat (length vals))) as [Hin | Hout].
  - (* the vector is full: the oldest value is overwritten *)
    assert (Hfull : Z.of_nat (length vals) = c).
    { destruct (Z.lt_ge_cases (Z.of_nat (length vals)) c) as [H|H].
      - specialize (Hfill H). lia.
      - lia. }
    destruct (split_at vals (Z.to_nat i) ltac:(lia)) as (A & x & B & -> & HA).
    rewrite overwrite_insert, <- HA.
    rewrite (insert_app_r_alt A (x :: B) _ v) by lia.
    replace (length A - length A)%nat with 0%nat by lia. cbn [insert list_insert].
    rewrite length_app in Hfull. cbn [length] in Hfull.
    split; [|split; [reflexivity|]].
    + unfold well_formed. cbn [count values current_index].
      rewrite length_app. cbn [length]. rewrite Hrem.
      destruct (Z.eqb_spec (i + 1) c); repeat split; lia.
    + unfold window, last_n. cbn [count values current_index].
      rewrite <- HA, rotate_at, Hrem.
      rewrite length_app, length_app. cbn [length].
      replace (S (length B) + length A + 1 - Z.to_nat c)%nat with 1%nat by lia.
      cbn [app drop].
      destruct (Z.eqb_spec (i + 1) c) as [E|E].
      * assert (B = []) as -> by (destruct B; [reflexivity | cbn in Hfull; lia]).
        change (Z.to_nat 0) with 0%nat. rewrite !drop_0, take_0, app_nil_r.
        reflexivity.
      * replace (Z.to_nat (i + 1)) with (length (A ++ [v])).
        2:{ rewrite length_app. cbn. lia. }
        replace (A ++ v :: B) with ((A ++ [v]) ++ B).
        2:{ rewrite <- app_assoc. reflexivity. }
        rewrite rotate_at, drop_0, <- !app_assoc. reflexivity.
  - (* the vector is filling up: the value is appended *)
    assert (Hi' : i = Z.of_nat (length vals)) by (apply Hfill; lia).
    split; [|split; [reflexivity|]].
    + unfold well_formed. cbn [count values current_index].
      rewrite length_app. cbn [length]. rewrite Hrem.
      destruct (Z.eqb_spec (i + 1) c); repeat split; lia.
    + unfold window, last_n. cbn [count values current_index].
      rewrite Hrem.
      replace (Z.to_nat i) with (length vals) by lia.
      rewrite drop_all, (take_ge vals (length vals)) by lia. cbn [app].
      rewrite length_app. cbn [length].
      replace (length vals + 1 - Z.to_nat c)%nat with 0%nat by lia.
      rewrite drop_0.
      destruct (Z.eqb_spec (i + 1) c) as [E|E].
      * change (Z.to_nat 0) with 0%nat. rewrite drop_0, take_0, app_nil_r.
        reflexivity.
      * replace (Z.to_nat (i + 1)) with (length (vals ++ [v])).
        2:{ rewrite length_app. cbn. lia. }
        rewrite drop_all, (take_ge (vals ++ [v]) (length (vals ++ [v]))) by lia.
        reflexivity.
Qed.

Lemma fold_left_Rplus (l : list R) (acc : R) :
  fold_left Rplus l acc = acc + fold_right Rplus 0 l.
Proof.
  revert acc. induction l as [|x tl IH]; intros acc; cbn.
  - lra.
  - rewrite IH. lra.
Qed.

Lemma fold_right_Rplus_app (l1 l2 : list R) :
  fold_right Rplus 0 (l1 ++ l2) = fold_right Rplus 0 l1 + fold_right Rplus 0 l2.
Proof.
  induction l1 as [|x tl IH]; cbn; [lra | rewrite IH; lra].
Qed.

Lemma window_sum (p : t) :
  fold_right Rplus 0 (window p) = fold_right Rplus 0 (values p).
Proof.
  unfold window. rewrite fold_right_Rplus_app.
  rewrite <- (take_drop (Z.to_nat (current_index p)) (values p)) at 3.
  rewrite fold_right_Rplus_app. lra.
Qed.

Lemma window_length (p : t) : length (window p) = length (values p).
Proof.
  unfold window. rewrite length_app, length_drop, length_take. lia.
Qed.

Lemma get_average_is_window_mean (p : t) :
  well_formed p -> values p <> [] ->
  get_average p = Ok (mean (window p)).
Proof.
  intros (_ & _ & Hlen & _) Hne. unfold get_average.
  destruct (Z.leb_spec (Z.of_nat (length (values p))) (count p)); [|lia].
  cbn [negb]. unfold mean.
  rewrite window_sum, window_length, fold_left_Rplus, Rplus_0_l.
  destruct (values p); [contradiction | reflexivity].
Qed.

Lemma get_average_empty (p : t) :
  well_formed p -> values p = [] -> get_average p = Throw logic_error.
Proof.
  intros (_ & _ & Hlen & _) He. unfold get_average.
  destruct (Z.leb_spec (Z.of_nat (length (values p))) (count p)); [|lia].
  rewrite He. reflexivity.
Qed.

Lemma last_n_short (n : nat) (l : list R) :
  (length l <= n)%nat -> last_n n l = l.
Proof.
  intros H. unfold last_n.
  replace (length l - n)%nat with 0%nat by lia. apply drop_0.
Qed.

Lemma last_n_app (n : nat) (l k : list R) :
  last_n n (last_n n l ++ k) = last_n n (l ++ k).
Proof.
  destruct (Nat.le_gt_cases (length l) n) as [H|H].
  - rewrite (last_n_short n l H). reflexivity.
  - unfold last_n at 2.
    rewrite <- (take_drop (length l - n) l) at 3.
    set (l1 := take (length l - n) l). set (l2 := drop (length l - n) l).
    assert (H1 : length l1 = (length l - n)%nat).
    { subst l1. rewrite length_take. lia. }
    assert (H2 : length l2 = n).
    { subst l2. rewrite length_drop. lia. }
    unfold last_n. rewrite <- app_assoc, !length_app, H1, H2.
    replace (length l - n + (n + length k) - n)%nat
      with (length l1 + length k)%nat by lia.
    rewrite <- drop_drop, drop_app_length.
    f_equal. lia.
Qed.

Lemma add_values_window (vs : list R) :
  forall p,
    well_formed p ->
    exists p',
      add_values vs p = (p', Ok tt)
      /\ well_formed p'
      /\ count p' = count p
      /\ window p' = last_n (Z.to_nat (count p)) (window p ++ vs).
Proof.
  induction vs as [|v rest IH]; intros p Hwf.
  - exists p. split; [reflexivity|]. split; [exact Hwf|]. split; [reflexivity|].
    rewrite app_nil_r, last_n_short; [reflexivity|].
    rewrite window_length. destruct Hwf as (_ & _ & Hlen & _). lia.
  - destruct (add_value_step v p Hwf) as (p1 & Hadd & Hwf1 & Hc1 & Hw1).
    destruct (IH p1 Hwf1) as (p' & Hrest & Hwf' & Hc' & Hw').
    exists p'. cbn [add_values]. rewrite Hadd.
    split; [exact Hrest|]. split; [exact Hwf'|]. split; [congruence|].
    rewrite Hw', Hw1, Hc1, last_n_app, <- app_assoc. reflexivity.
Qed.

Lemma mean_bounds (lo hi : R) (l : list R) :
  l <> [] -> Forall (fun x => lo <= x <= hi) l -> lo <= mean l <= hi.
Proof.
  intros Hne Hall. unfold mean.
  assert (Hsum : lo * INR (length l) <= fold_right Rplus 0 l <= hi * INR (length l)).
  { clear Hne. induction Hall as [|x tl Hx _ IH].
    - cbn. lra.
    - cbn [fold_right]. change (length (x :: tl)) with (S (length tl)).
      rewrite S_INR. lra. }
  assert (Hpos : 0 < INR (length l)).
  { apply lt_0_INR. destruct l; [contradiction | cbn; lia]. }
  split.
  - apply (Rmult_le_reg_r (INR (length l))); [exact Hpos|].
    unfold Rdiv. rewrite Rmult_assoc, Rinv_l by lra. lra.
  - apply (Rmult_le_reg_r (INR (length l))); [exact Hpos|].
    unfold Rdiv. rewrite Rmult_assoc, Rinv_l by lra. lra.
Qed.


(** X1: on a well-formed buffer [add_value] never fails its assertion and
    keeps the buffer well formed with the same capacity; the buffer then
    holds, oldest first, the last [count] of the values it held followed by
    the new one, so that once it is full the oldest value is the one that
    is overwritten. *)
Theorem add_value_keeps_last_values (v : R) (p : t) :
  well_formed p ->
  exists p',
    add_value v p = (p', Ok tt)
    /\ well_formed p'
    /\ count p' = count p
    /\ window p' = last_n (Z.to_nat (count p)) (window p ++ [v]).
Proof. exact (add_value_step v p). Qed.

(** X2: a buffer built by the constructor with a positive capacity and
    filled with the values [vs], at least one, returns from [get_average]
    the mean of the last [count] values of [vs]. *)
Theorem get_average_of_last_values (count : Z) (vs : list R) :
  (0 < count)%Z -> vs <> [] ->
  exists p0 p,
    new count = Ok p0
    /\ add_values vs p0 = (p, Ok tt)
    /\ get_average p = Ok (mean (last_n (Z.to_nat count) vs)).
Proof.
  intros Hc Hne.
  assert (Hwf0 : well_formed (mk count [] 0)).
  { unfold well_formed. cbn. repeat split; lia. }
  destruct (add_values_window vs _ Hwf0) as (p & Hadd & Hwf & Hcount & Hwin).
  exists (mk count [] 0), p. split; [|split; [exact Hadd|]].
  - unfold new. destruct (Z.leb_spec count 0); [lia | reflexivity].
  - cbn [PeriodAverage.count] in Hwin. change (window (mk count [] 0)) with (@nil R) in Hwin.
    cbn [app] in Hwin. rewrite <- Hwin.
    apply get_average_is_window_mean; [exact Hwf|].
    intros Hnil.
    assert (Hlen : length (window p) = 0%nat).
    { rewrite window_length, Hnil. reflexivity. }
    rewrite Hwin in Hlen. unfold last_n in Hlen. rewrite length_drop in Hlen.
    destruct vs; [contradiction | cbn in Hlen; lia].
Qed.

Lemma get_average_of_last_values_witness :
  exists p0 p,
    new 2 = Ok p0
    /\ add_values [1; 2; 6] p0 = (p, Ok tt)
    /\ get_average p = Ok (mean [2; 6]).
Proof.
  apply (get_average_of_last_values 2 [1; 2; 6]); [lia | discriminate].
Defined.

Lemma get_average_bounded_over_reals (lo hi : R) (p : t) :
  well_formed p -> values p <> [] ->
  Forall (fun x => lo <= x <= hi) (values p) ->
  exists a, get_average p = Ok a /\ lo <= a <= hi.
Proof.
  intros Hwf Hne Hall. exists (mean (window p)).
  split; [apply get_average_is_window_mean; assumption|].
  apply mean_bounds.
  - intros Hnil. apply Hne.
    destruct (values p) eqn:Hv; [reflexivity|].
    apply (f_equal length) in Hnil. rewrite window_length, Hv in Hnil.
    discriminate.
  - unfold window. apply Forall_app. split.
    + apply Forall_drop. exact Hall.
    + apply Forall_take. exact Hall.
Qed.

(** X3: over the real numbers, that is with the sum and the division of
    [get_average] read as exact, the average of a well-formed, non-empty
    buffer lies between any two bounds that enclose all its values.  On
    binary64 numbers it need not: the average of three times 0.1 is above
    0.1. *)
Theorem get_average_within_bounds (lo hi : R) (p : t) :
  (well_formed p -> values p <> [] ->
   Forall (fun x => lo <= x <= hi) (values p) ->
   exists a, get_average p = Ok a /\ lo <= a <= hi)
  /\ (exists m,
        Binary64.get_average [Binary64.tenth; Binary64.tenth; Binary64.tenth]
        = Ok m
        /\ PrimFloat.ltb Binary64.tenth m = true).
Proof.
  split; [exact (get_average_bounded_over_reals lo hi p)|].
  eexists. split; vm_compute; reflexivity.
Qed.

Lemma get_average_within_bounds_witness :
  exists a, get_average (mk 3 [1 / 4; 3 / 4] 2) = Ok a /\ 0 <= a <= 1.
Proof.
  apply (proj1 (get_average_within_bounds 0 1 (mk 3 [1 / 4; 3 / 4] 2))).
  - unfold well_formed. cbn. repeat split; lia.
  - discriminate.
  - repeat constructor; lra.
Defined.

(** X4: the constructor throws invalid_argument for a capacity of 0 or
    less; for a positive capacity it returns a well-formed, empty buffer,
    whose average is a logic error. *)
Theorem new_buffer_has_no_average (count : Z) :
  ((count <= 0)%Z -> new count = Throw invalid_argument)
  /\ ((0 < count)%Z ->
      exists p0,
        new count = Ok p0
        /\ well_formed p0
        /\ get_average p0 = Throw logic_error).
Proof.
  unfold new. split; intros H.
  - destruct (Z.leb_spec count 0); [reflexivity | lia].
  - destruct (Z.leb_spec count 0); [lia|].
    assert (Hwf0 : well_formed (mk count [] 0)).
    { unfold well_formed. cbn. repeat split; lia. }
    eexists. split; [reflexivity|]. split; [exact Hwf0|].
    apply get_average_empty; [exact Hwf0 | reflexivity].
Qed.

Lemma new_buffer_has_no_average_witness :
  new 0 = Throw invalid_argument
  /\ exists p0, new 270 = Ok p0 /\ get_average p0 = Throw logic_error.
Proof.
  split.
  - apply (proj1 (new_buffer_has_no_average 0)). lia.
  - destruct (proj2 (new_buffer_has_no_average 270) ltac:(lia))
      as (p0 & Hnew & _ & Havg).
    exists p0. exact (conj Hnew Havg).
Defined.

Lemma add_value_keeps_last_values_witness :
  exists p',
    add_value 5 (mk 2 [1; 2] 0) = (p', Ok tt)
    /\ window p' = [2; 5].
Proof.
  destruct (add_value_keeps_last_values 5 (mk 2 [1; 2] 0)) as (p' & Hadd & _ & _ & Hwin).
  - unfold well_formed. cbn. repeat split; lia.
  - exists p'. split; [exact Hadd|]. rewrite Hwin. reflexivity.
Defined.

End PeriodAverageFacts.

(** ** More on the weighted average *)

Module AverageMoreFacts.
Import Average.

Lemma average_cases (a b wa wb : R) :
  (0 <= wa /\ 0 <= wb /\ wa + wb <> 0
   /\ average a b wa wb = Ok ((a * wa + b * wb) / (wa + wb)))
  \/ ((wa < 0 \/ wb < 0 \/ wa + wb = 0)
      /\ average a b wa wb = Throw invalid_argument).
Proof.
  destruct (Rlt_dec wa 0) as [Ha|Ha].
  { right. split; [left; exact Ha|].
    apply AverageFacts.average_negative_weight. left. exact Ha. }
  destruct (Rlt_dec wb 0) as [Hb|Hb].
  { right. split; [right; left; exact Hb|].
    apply AverageFacts.average_negative_weight. right. exact Hb. }
  destruct (Req_dec_T (wa + wb) 0) as [Hs|Hs].
  { right. split; [right; right; exact Hs|].
    unfold average.
    rewrite (proj2 (Rltb_false wa 0)), (proj2 (Rltb_false wb 0)) by lra.
    rewrite (proj2 (Reqb_true _ _) Hs). reflexivity. }
  left. repeat split; try lra.
  apply AverageFacts.average_ok; lra.
Qed.

Lemma average_finite (a b x y : R) :
  AverageDouble.average a b (AverageDouble.finite x) (AverageDouble.finite y)
  = average a b x y.
Proof. reflexivity. Qed.

Lemma average_not_finite (a b : R) (wa wb : AverageDouble.weight) :
  (forall x y, wa = AverageDouble.finite x -> wb = AverageDouble.finite y ->
     False) ->
  AverageDouble.average a b wa wb = Throw invalid_argument.
Proof.
  intros H. unfold AverageDouble.average.
  destruct (AverageDouble.lt_zero wa || AverageDouble.lt_zero wb);
    [reflexivity|].
  destruct (AverageDouble.is_nan wa || AverageDouble.is_nan wb);
    [reflexivity|].
  destruct (AverageDouble.is_infinity wa || AverageDouble.is_infinity wb);
    [reflexivity|].
  destruct wa as [x| | |], wb as [y| | |]; try reflexivity.
  exfalso. exact (H x y eq_refl eq_refl).
Qed.

(** X5: [average] returns a value exactly when both weights are finite
    (neither NaN nor an infinity), at least 0, and their sum is not 0; in
    every other case it throws invalid_argument.  On finite weights it
    is the function over the real numbers. *)
Theorem average_returns_iff (a b : R) (wa wb : AverageDouble.weight) :
  ((exists m, AverageDouble.average a b wa wb = Ok m)
   <-> exists x y,
         wa = AverageDouble.finite x /\ wb = AverageDouble.finite y
         /\ 0 <= x /\ 0 <= y /\ x + y <> 0)
  /\ ((forall m, AverageDouble.average a b wa wb <> Ok m)
      <-> AverageDouble.average a b wa wb = Throw invalid_argument)
  /\ (forall x y,
        wa = AverageDouble.finite x -> wb = AverageDouble.finite y ->
        AverageDouble.average a b wa wb = average a b x y).
Proof.
  split; [|split].
  - split.
    + intros [m Hm].
      destruct wa as [x| | |], wb as [y| | |];
        try (rewrite average_not_finite in Hm by (intros; discriminate);
             discriminate).
      exists x, y. rewrite average_finite in Hm.
      destruct (average_cases a b x y) as [(Hx & Hy & Hs & _) | (_ & Herr)];
        [auto | rewrite Herr in Hm; discriminate].
    + intros (x & y & -> & -> & Hx & Hy & Hs).
      rewrite average_finite. eexists.
      apply AverageFacts.average_ok; assumption.
  - split.
    + intros Hno.
      destruct wa as [x| | |], wb as [y| | |];
        try (apply average_not_finite; intros; discriminate).
      rewrite average_finite in *.
      destruct (average_cases a b x y) as [(_ & _ & _ & Hok) | (_ & Herr)];
        [exfalso; exact (Hno _ Hok) | exact Herr].
    + intros Herr m Hm. rewrite Herr in Hm. discriminate.
  - intros x y -> ->. apply average_finite.
Qed.

Lemma between_arguments_over_reals (a b : R) (wa wb : AverageDouble.weight) (m : R) :
  AverageDouble.average a b wa wb = Ok m -> Rmin a b <= m <= Rmax a b.
Proof.
  intros Hrun.
  destruct wa as [x| | |], wb as [y| | |];
    try (rewrite average_not_finite in Hrun by (intros; discriminate);
         discriminate).
  rewrite average_finite in Hrun.
  destruct (average_cases a b x y) as [(Ha & Hb & Hs & Hok) | (_ & Herr)];
    [|rewrite Herr in Hrun; discriminate].
  rewrite Hok in Hrun. injection Hrun as <-.
  assert (Hpos : 0 < x + y) by lra.
  pose proof (Rmin_l a b). pose proof (Rmin_r a b).
  pose proof (Rmax_l a b). pose proof (Rmax_r a b).
  split.
  - apply (Rmult_le_reg_r (x + y)); [exact Hpos|].
    unfold Rdiv. rewrite Rmult_assoc, Rinv_l by lra. nra.
  - apply (Rmult_le_reg_r (x + y)); [exact Hpos|].
    unfold Rdiv. rewrite Rmult_assoc, Rinv_l by lra. nra.
Qed.

(** X6: over the real numbers, that is with the products, the sums and
    the division of the return statement read as exact, the value that
    [average] returns lies between its two arguments.  On binary64
    numbers it need not: the average of 0.1 and 0.1 with the weights 1
    and 2 is above 0.1. *)
Theorem average_between (a b : R) (wa wb : AverageDouble.weight) (m : R) :
  (AverageDouble.average a b wa wb = Ok m -> Rmin a b <= m <= Rmax a b)
  /\ (exists r,
        Binary64.average Binary64.tenth Binary64.tenth PrimFloat.one
          PrimFloat.two
        = Ok r
        /\ PrimFloat.ltb Binary64.tenth r = true).
Proof.
  split; [exact (between_arguments_over_reals a b wa wb m)|].
  eexists. split; vm_compute; reflexivity.
Qed.

Lemma unchanged_value_over_reals (a b wa wb : R) :
  (0 < wa ->
   AverageDouble.average a b (AverageDouble.finite wa) (AverageDouble.finite 0)
   = Ok a
   /\ AverageDouble.average b a (AverageDouble.finite 0)
        (AverageDouble.finite wa)
      = Ok a)
  /\ (0 <= wa -> 0 <= wb -> wa + wb <> 0 ->
      AverageDouble.average a a (AverageDouble.finite wa)
        (AverageDouble.finite wb)
      = Ok a).
Proof.
  rewrite !average_finite. split.
  - intros Hpos. rewrite !AverageFacts.average_ok by lra.
    split; f_equal; field; lra.
  - intros Ha Hb Hs. rewrite AverageFacts.average_ok by assumption.
    f_equal. field. exact Hs.
Qed.

(** X7: over the real numbers, that is with the operations of the return
    statement read as exact, and for finite weights: a value averaged
    with anything of weight 0 is unchanged, and so is a value averaged
    with itself.  On binary64 numbers it need not be: 0.1 of weight 3
    averaged with 7 of weight 0 is above 0.1. *)
Theorem average_identity (a b wa wb : R) :
  ((0 < wa ->
    AverageDouble.average a b (AverageDouble.finite wa) (AverageDouble.finite 0)
    = Ok a
    /\ AverageDouble.average b a (AverageDouble.finite 0)
         (AverageDouble.finite wa)
       = Ok a)
   /\ (0 <= wa -> 0 <= wb -> wa + wb <> 0 ->
       AverageDouble.average a a (AverageDouble.finite wa)
         (AverageDouble.finite wb)
       = Ok a))
  /\ (exists r,
        Binary64.average Binary64.tenth Binary64.seven Binary64.three
          PrimFloat.zero
        = Ok r
        /\ PrimFloat.ltb Binary64.tenth r = true).
Proof.
  split; [exact (unchanged_value_over_reals a b wa wb)|].
  eexists. split; vm_compute; reflexivity.
Qed.

Lemma average_returns_iff_witness :
  (exists m,
     AverageDouble.average 1 2 (AverageDouble.finite 3) (AverageDouble.finite 0)
     = Ok m)
  /\ AverageDouble.average 1 2 (AverageDouble.finite 3) AverageDouble.INFINITY
     = Throw invalid_argument
  /\ AverageDouble.average 1 2 AverageDouble.NAN (AverageDouble.finite 3)
     = Throw invalid_argument
  /\ AverageDouble.average 1 2 (AverageDouble.finite 0) (AverageDouble.finite 0)
     = Throw invalid_argument.
Proof.
  split; [|split; [|split]].
  - apply (proj1 (average_returns_iff 1 2 _ _)).
    exists 3, 0. repeat split; lra.
  - apply (proj1 (proj2 (average_returns_iff 1 2 _ _))).
    intros m Hm.
    destruct (proj1 (proj1 (average_returns_iff 1 2 _ _)) (ex_intro _ m Hm))
      as (x & y & _ & Hy & _).
    discriminate.
  - apply (proj1 (proj2 (average_returns_iff 1 2 _ _))).
    intros m Hm.
    destruct (proj1 (proj1 (average_returns_iff 1 2 _ _)) (ex_intro _ m Hm))
      as (x & y & Hx & _).
    discriminate.
  - apply (proj1 (proj2 (average_returns_iff 1 2 _ _))).
    intros m Hm.
    destruct (proj1 (proj1 (average_returns_iff 1 2 _ _)) (ex_intro _ m Hm))
      as (x & y & [= <-] & [= <-] & _ & _ & Hs).
    lra.
Defined.

Lemma average_between_witness :
  Rmin 1 3 <= (1 * 1 + 3 * 1) / (1 + 1) <= Rmax 1 3.
Proof.
  apply (proj1 (average_between 1 3 (AverageDouble.finite 1)
                  (AverageDouble.finite 1) _)).
  rewrite average_finite. apply AverageFacts.average_ok; lra.
Defined.

Lemma average_identity_witness :
  AverageDouble.average 7 2 (AverageDouble.finite 4) (AverageDouble.finite 0)
  = Ok 7
  /\ AverageDouble.average 7 7 (AverageDouble.finite 1) (AverageDouble.finite 3)
     = Ok 7.
Proof.
  split.
  - apply (proj1 (proj1 (average_identity 7 2 4 0))). lra.
  - apply (proj2 (proj1 (average_identity 7 7 1 3))); lra.
Defined.

End AverageMoreFacts.

(** ** More on the establishment cycle *)

Module WorldMoreFacts.
Import World WorldMore.

Section Facts.

Context {collab : Collaborators}.

(** X8: in every world that the program can build (constructed, extended
    by simulation units, advanced by days) with a positive establishment
    interval, the counter of days since the last establishment lies
    between 0 and the interval; it never passes the interval, so the
    equality test of the code cannot miss it. *)
Theorem establishment_counter_in_range (w : t) :
  reachable w ->
  (0 < herbivore_establish_interval w)%Z ->
  (0 <= days_since_last_establishment w <= herbivore_establish_interval w)%Z.
Proof. exact (WorldFacts.reachable_counter_in_range w). Qed.

Lemma visit_sim_units_no_interval (day : Z) (do_herbivores : bool)
    (interval : Z) (units : list SimulationUnit) :
  (interval <= 0)%Z ->
  forall days,
    exists units',
      visit_sim_units day do_herbivores interval days units
      = ((days + Z.of_nat (length units))%Z, units',
         map (fun u => negb (is_initial_establishment_done u)) units)
      /\ length units' = length units.
Proof.
  intros Hint. induction units as [|u rest IH]; intros days.
  - exists []. cbn. rewrite Z.add_0_r. split; reflexivity.
  - cbn [visit_sim_units]. unfold visit_sim_unit.
    destruct (Z.ltb_spec 0 interval) as [|_]; [lia|].
    rewrite andb_false_r.
    destruct (IH (days + 1)%Z) as (rest' & Hrest & Hlen). rewrite Hrest.
    eexists. split.
    + cbn [map length].
      replace (days + 1 + Z.of_nat (length rest))%Z
        with (days + Z.of_nat (S (length rest)))%Z by lia.
      reflexivity.
    + cbn [length]. rewrite Hlen. reflexivity.
Qed.

Lemma simulate_day_no_interval (day : Z) (do_herbivores : bool) (w : t) :
  (herbivore_establish_interval w <= 0)%Z ->
  (0 <= day < 365)%Z ->
  exists w',
    simulate_day day do_herbivores w
    = (w', Ok (map (fun u => negb (is_initial_establishment_done u))
                 (sim_units w)))
    /\ days_since_last_establishment w'
       = (days_since_last_establishment w + Z.of_nat (length (sim_units w)))%Z
    /\ herbivore_establish_interval w' = herbivore_establish_interval w
    /\ length (sim_units w') = length (sim_units w).
Proof.
  intros Hint Hday. unfold simulate_day.
  destruct (Z.ltb_spec day 0); [lia|].
  destruct (Z.leb_spec 365 day); [lia|].
  cbn [orb].
  destruct (visit_sim_units_no_interval day do_herbivores
              (herbivore_establish_interval w) (sim_units w) Hint
              (days_since_last_establishment w))
    as (units' & -> & Hlen).
  eexists. split; [reflexivity|]. cbn. auto.
Qed.

Lemma simulate_days_no_interval (days : list Z) (do_herbivores : bool) :
  Forall (fun d => (0 <= d < 365)%Z) days ->
  forall w : t,
    (herbivore_establish_interval w <= 0)%Z ->
    exists w' established,
      simulate_days days do_herbivores w = (w', Ok established)
      /\ days_since_last_establishment w'
         = (days_since_last_establishment w
            + Z.of_nat (length days) * Z.of_nat (length (sim_units w)))%Z
      /\ herbivore_establish_interval w' = herbivore_establish_interval w.
Proof.
  induction 1 as [|d days Hd _ IH]; intros w Hint.
  - exists w, []. cbn. split; [reflexivity|]. split; [lia | reflexivity].
  - destruct (simulate_day_no_interval d do_herbivores w Hint Hd)
      as (w1 & Hday & Hc1 & Hi1 & Hl1).
    destruct (IH w1) as (w' & est & Hrest & Hc & Hi); [lia|].
    cbn [simulate_days]. rewrite Hday, Hrest.
    do 2 eexists. split; [reflexivity|].
    split; [|congruence].
    rewrite Hc, Hc1, Hl1. cbn [length]. lia.
Qed.

(** X9: with an establishment interval of 0 or less, re-establishment is
    switched off and the counter is never reset.  As long as the counter
    fits an int: on a valid day each simulation unit is asked to
    establish exactly if its initial establishment is not done, and the
    counter grows by the number of simulation units; over any run of
    valid days it grows by the number of days times the number of
    simulation units.  So the counter of the code reaches INT_MAX after
    about [INT_MAX / number of units] days, and the next increment
    overflows. *)
Theorem no_reestablishment_without_interval (day : Z) (do_herbivores : bool)
    (w : t) :
  (herbivore_establish_interval w <= 0)%Z ->
  ((0 <= day < 365)%Z ->
   (days_since_last_establishment w + Z.of_nat (length (sim_units w))
    <= INT_MAX)%Z ->
   exists w',
     simulate_day day do_herbivores w
     = (w', Ok (map (fun u => negb (is_initial_establishment_done u))
                  (sim_units w)))
     /\ days_since_last_establishment w'
        = (days_since_last_establishment w
           + Z.of_nat (length (sim_units w)))%Z
     /\ herbivore_establish_interval w' = herbivore_establish_interval w)
  /\ (forall days,
        Forall (fun d => (0 <= d < 365)%Z) days ->
        (days_since_last_establishment w
         + Z.of_nat (length days) * Z.of_nat (length (sim_units w))
         <= INT_MAX)%Z ->
        exists w' established,
          simulate_days days do_herbivores w = (w', Ok established)
          /\ days_since_last_establishment w'
             = (days_since_last_establishment w
                + Z.of_nat (length days) * Z.of_nat (length (sim_units w)))%Z
          /\ herbivore_establish_interval w' = herbivore_establish_interval w).
Proof.
  intros Hint. split.
  - intros Hday _.
    destruct (simulate_day_no_interval day do_herbivores w Hint Hday)
      as (w' & Hrun & Hc & Hi & _).
    exists w'. auto.
  - intros days Hdays _.
    exact (simulate_days_no_interval days do_herbivores Hdays w Hint).
Qed.

(** X10: a world with a single simulation unit whose initial
    establishment is done, and stays done under [SimulateDay], with a
    positive interval and the counter at [c]: over any run of valid days,
    establishment is requested exactly on the days on which the counter
    has reached the interval, after which it restarts at 1; that is, once
    every [interval] days. *)
Theorem single_unit_requests (days : list Z) (do_herbivores : bool)
    (interval : Z) :
  (forall d e u,
     is_initial_establishment_done u = true ->
     is_initial_establishment_done (SimulateDay d do_herbivores e u) = true) ->
  Forall (fun d => (0 <= d < 365)%Z) days ->
  forall (c : Z) (u : SimulationUnit),
    (0 < interval)%Z ->
    is_initial_establishment_done u = true ->
    exists w',
      simulate_days days do_herbivores (mk interval c [u])
      = (w', Ok (expected_requests interval c (length days))).
Proof.
  intros Hkeep Hdays. induction Hdays as [|d rest Hd _ IH]; intros c u Hpos Hu.
  - eexists. reflexivity.
  - cbn [simulate_days length expected_requests].
    rewrite (WorldFacts.single_unit_day d do_herbivores interval c u Hd).
    rewrite Hu. cbn [negb orb].
    destruct (Z.ltb_spec 0 interval) as [_|]; [|lia].
    rewrite andb_true_r.
    destruct (IH (if (c =? interval)%Z then 1 else c + 1)%Z
                (SimulateDay d do_herbivores (c =? interval)%Z u) Hpos
                (Hkeep _ _ _ Hu))
      as (w' & ->).
    eexists. reflexivity.
Qed.

End Facts.

Lemma establishment_counter_in_range_witness :
  (0 <= days_since_last_establishment
          (fst (simulate_day (collab := Examples.world_collab) 3 true
                  (create_simulation_unit (collab := Examples.world_collab) false
                     (new (collab := Examples.world_collab) 10))))
     <= 10)%Z.
Proof.
  apply (establishment_counter_in_range (collab := Examples.world_collab)
           (fst (simulate_day (collab := Examples.world_collab) 3 true
                   (create_simulation_unit (collab := Examples.world_collab) false
                      (new (collab := Examples.world_collab) 10))))).
  - apply reachable_simulate, reachable_create, reachable_new.
  - cbn. lia.
Defined.

Lemma no_reestablishment_without_interval_witness :
  (exists w',
     simulate_day (collab := Examples.world_collab) 0 true
       (mk (collab := Examples.world_collab) 0 0 [true; false])
     = (w', Ok [false; true]))
  /\ exists w' established,
       simulate_days (collab := Examples.world_collab) [0; 1; 2]%Z true
         (mk (collab := Examples.world_collab) 0 0 [true; false])
       = (w', Ok established)
       /\ days_since_last_establishment w' = 6%Z.
Proof.
  pose proof (no_reestablishment_without_interval
                (collab := Examples.world_collab) 0 true
                (mk (collab := Examples.world_collab) 0 0 [true; false])
                ltac:(cbn; lia)) as [Hone Hmany].
  split.
  - destruct Hone as (w' & Hrun & _); [lia | cbn; unfold INT_MAX; lia |].
    exists w'. exact Hrun.
  - destruct (Hmany [0; 1; 2]%Z) as (w' & est & Hrun & Hc & _).
    + repeat constructor; lia.
    + cbn. unfold INT_MAX. lia.
    + exists w', est. split; [exact Hrun|]. rewrite Hc. reflexivity.
Defined.

(** An interval of 3: a request on the first day and then on every third
    day. *)
Lemma single_unit_requests_witness :
  exists w',
    simulate_days (collab := Examples.world_collab) [0; 1; 2; 3; 4; 5; 6]%Z true
      (mk (collab := Examples.world_collab) 3 3 [true])
    = (w', Ok [[true]; [false]; [false]; [true]; [false]; [false]; [true]]).
Proof.
  apply (single_unit_requests (collab := Examples.world_collab)
           [0; 1; 2; 3; 4; 5; 6]%Z true 3).
  - intros d e u Hu. cbn in *. rewrite Hu. reflexivity.
  - repeat constructor; lia.
  - lia.
  - reflexivity.
Defined.

End WorldMoreFacts.

(** ** More on the herbivore base class *)

Section BodyMass.

Context {collab : Collaborators} {D : Type}.

Lemma body_mass_of_potential (h : HerbivoreBase D) (p : R) :
  get_potential_bodymass h = Ok p ->
  get_max_fatmass h = Ok (p * bodyfat_max (hft h))
  /\ get_lean_bodymass h = Ok (p * (1 - bodyfat_max (hft h)))
  /\ get_bodymass h = Ok (get_fatmass h + p * (1 - bodyfat_max (hft h)))
  /\ get_bodyfat h
     = Ok (get_fatmass h / (get_fatmass h + p * (1 - bodyfat_max (hft h)))).
Proof.
  intros Hp.
  unfold get_bodyfat, get_bodymass, get_lean_bodymass, get_max_fatmass.
  rewrite Hp. cbn [rbind]. repeat split.
Qed.

Lemma body_fat_bounded_over_reals (h : HerbivoreBase D) (p : R) :
  get_potential_bodymass h = Ok p ->
  0 < p -> 0 <= bodyfat_max (hft h) < 1 ->
  0 <= get_fatmass h <= p * bodyfat_max (hft h) ->
  exists mass fat,
    get_bodymass h = Ok mass
    /\ get_bodyfat h = Ok fat
    /\ p * (1 - bodyfat_max (hft h)) <= mass <= p
    /\ 0 <= fat <= bodyfat_max (hft h)
    /\ (get_fatmass h = p * bodyfat_max (hft h) ->
        mass = p /\ fat = bodyfat_max (hft h)).
Proof.
  intros Hp Hpos Hmax Hfat.
  destruct (body_mass_of_potential h p Hp) as (_ & _ & Hmass & Hbf).
  set (f := get_fatmass h) in *. set (bm := bodyfat_max (hft h)) in *.
  assert (Hlean : 0 < p * (1 - bm)) by nra.
  assert (Hm : 0 < f + p * (1 - bm)) by lra.
  do 2 eexists. split; [exact Hmass|]. split; [exact Hbf|].
  split; [nra|]. split.
  - split.
    + apply Rmult_le_pos; [lra|]. left. apply Rinv_0_lt_compat. exact Hm.
    + apply (Rmult_le_reg_r (f + p * (1 - bm))); [exact Hm|].
      unfold Rdiv. rewrite Rmult_assoc, Rinv_l by lra. nra.
  - intros Hfull. split; [lra|]. rewrite Hfull. field. nra.
Qed.

(** X11: over the real numbers, that is with the products, the sum and
    the division of the getters read as exact: for a herbivore of
    positive potential body mass whose fat mass lies between 0 and its
    maximum (with [bodyfat_max] below 1), the body mass lies between the
    lean mass and the potential body mass and the body fat fraction
    between 0 and [bodyfat_max]; with the fat mass at its maximum the
    herbivore weighs its potential body mass and its body fat fraction
    is [bodyfat_max].  On binary64 numbers the bound can be missed: with
    a potential body mass of 3 and [bodyfat_max] 0.1 the body fat
    fraction at the maximum fat mass is above 0.1. *)
Theorem body_fat_within_maximum (h : HerbivoreBase D) (p : R) :
  (get_potential_bodymass h = Ok p ->
   0 < p -> 0 <= bodyfat_max (hft h) < 1 ->
   0 <= get_fatmass h <= p * bodyfat_max (hft h) ->
   exists mass fat,
     get_bodymass h = Ok mass
     /\ get_bodyfat h = Ok fat
     /\ p * (1 - bodyfat_max (hft h)) <= mass <= p
     /\ 0 <= fat <= bodyfat_max (hft h)
     /\ (get_fatmass h = p * bodyfat_max (hft h) ->
         mass = p /\ fat = bodyfat_max (hft h)))
  /\ (PrimFloat.ltb Binary64.tenth
        (Binary64.get_bodyfat
           (Binary64.get_max_fatmass Binary64.three Binary64.tenth)
           Binary64.three Binary64.tenth)
      = true).
Proof.
  split; [exact (body_fat_bounded_over_reals h p)|].
  vm_compute. reflexivity.
Qed.

Lemma newborn_mass_over_reals (h : HerbivoreBase D) :
  bodymass_assertions_hold (hft h) ->
  age_days h = 0%Z ->
  get_age_years h < (if Sex_eqb (sex h) SEX_MALE
                     then maturity_age_phys_male (hft h)
                     else maturity_age_phys_female (hft h)) ->
  get_lean_bodymass h
  = Ok (bodymass_birth (hft h) * (1 - bodyfat_birth (hft h)))
  /\ (get_fatmass h = bodyfat_birth (hft h) * bodymass_birth (hft h) ->
      get_bodymass h = Ok (bodymass_birth (hft h))
      /\ (bodymass_birth (hft h) <> 0 ->
          get_bodyfat h = Ok (bodyfat_birth (hft h)))).
Proof.
  intros (Hfat & Hmale & Hfemale) Hage Hyoung.
  assert (Hp : get_potential_bodymass h
               = Ok (bodymass_birth (hft h) * (1 - bodyfat_birth (hft h))
                     / (1 - bodyfat_max (hft h)))).
  { unfold get_potential_bodymass, get_hft, get_sex, get_age_days.
    unfold get_sex in Hyoung.
    rewrite (proj2 (Rleb_false _ _) Hyoung).
    rewrite (proj2 (Rltb_true 0 _) Hfat). cbn [negb].
    destruct (Sex_eqb (sex h) SEX_MALE).
    - rewrite (proj2 (Rltb_true 0 _) Hmale). cbn [negb].
      rewrite Hage. f_equal. unfold Rdiv at 2. rewrite Rmult_0_l. lra.
    - rewrite (proj2 (Rltb_true 0 _) Hfemale). cbn [negb].
      rewrite Hage. f_equal. unfold Rdiv at 2. rewrite Rmult_0_l. lra. }
  destruct (body_mass_of_potential h _ Hp) as (_ & Hlean & Hmass & Hbf).
  assert (Hl : bodymass_birth (hft h) * (1 - bodyfat_birth (hft h))
               / (1 - bodyfat_max (hft h)) * (1 - bodyfat_max (hft h))
               = bodymass_birth (hft h) * (1 - bodyfat_birth (hft h))).
  { field. lra. }
  rewrite Hl in Hlean, Hmass, Hbf.
  split; [exact Hlean|].
  intros Hf. rewrite Hf in Hmass, Hbf. split.
  - rewrite Hmass. f_equal. ring.
  - intros Hne. rewrite Hbf. f_equal. field. lra.
Qed.

(** X12: over the real numbers, that is with the operations of the
    getters read as exact: at the age of 0 days, and below the age of
    physical maturity, the lean body mass is the birth mass without the
    birth fat; with the fat mass of the birth constructor,
    [bodyfat_birth * bodymass_birth], the body mass is [bodymass_birth]
    and the body fat fraction is [bodyfat_birth].  On binary64 numbers
    the body mass can differ: with a birth mass of 7, [bodyfat_birth] 0.2
    and [bodyfat_max] 0.3 (an adult mass of 50 and maturity at 2 years)
    the newborn weighs more than 7. *)
Theorem newborn_body_mass (h : HerbivoreBase D) :
  (bodymass_assertions_hold (hft h) ->
   age_days h = 0%Z ->
   get_age_years h < (if Sex_eqb (sex h) SEX_MALE
                      then maturity_age_phys_male (hft h)
                      else maturity_age_phys_female (hft h)) ->
   get_lean_bodymass h
   = Ok (bodymass_birth (hft h) * (1 - bodyfat_birth (hft h)))
   /\ (get_fatmass h = bodyfat_birth (hft h) * bodymass_birth (hft h) ->
       get_bodymass h = Ok (bodymass_birth (hft h))
       /\ (bodymass_birth (hft h) <> 0 ->
           get_bodyfat h = Ok (bodyfat_birth (hft h)))))
  /\ (PrimFloat.ltb Binary64.seven
        (Binary64.get_bodymass
           (PrimFloat.mul Binary64.fifth Binary64.seven)
           (Binary64.get_potential_bodymass PrimFloat.zero Binary64.seven
              Binary64.fifth Binary64.three_tenths Binary64.fifty
              PrimFloat.two)
           Binary64.three_tenths)
      = true).
Proof.
  split; [exact (newborn_mass_over_reals h)|].
  vm_compute. reflexivity.
Qed.

End BodyMass.

Section Eat.

Context {collab : Collaborators} {D : Type} {virt : HerbivoreVirtual D}.

Lemma net_energy_content_cases (h : HerbivoreBase D) (dig : ForageValues) :
  (0 <= dig Grass <= 1 /\ 0 <= dig Inedible <= 1
   /\ exists ne,
        get_net_energy_content h dig = Ok ne
        /\ ne Inedible = 0
        /\ NetEnergy.get_per_forage_type (digestion_type (hft h)) Grass (dig Grass)
           = Ok (ne Grass))
  \/ ((dig Grass < 0 \/ 1 < dig Grass \/ dig Inedible < 0 \/ 1 < dig Inedible)
      /\ get_net_energy_content h dig = Throw invalid_argument).
Proof.
  unfold get_net_energy_content, get_hft,
    NetEnergy.get_net_energy_content_default.
  destruct (net_energy_model (hft h)).
  pose proof (NetEnergyFacts.grass_formula_nonneg (dig Grass)
                (NetEnergy.digestion_efficiency (digestion_type (hft h)))) as Hnn.
  pose proof (NetEnergyFacts.digestion_efficiency_nonneg (digestion_type (hft h)))
    as He.
  unfold NetEnergy.get_per_forage_type.
  destruct (Rle_dec 0 (dig Grass)) as [Hg0|Hg0].
  2:{ right. split; [left; lra|].
      rewrite (proj2 (Rleb_false 0 (dig Grass))) by lra. reflexivity. }
  destruct (Rle_dec (dig Grass) 1) as [Hg1|Hg1].
  2:{ right. split; [right; left; lra|].
      rewrite (proj2 (Rleb_false (dig Grass) 1)) by lra.
      rewrite andb_false_r. reflexivity. }
  rewrite (proj2 (Rleb_true 0 (dig Grass)) Hg0),
    (proj2 (Rleb_true (dig Grass) 1) Hg1).
  cbn [andb negb]. unfold NetEnergy.ME_COEFFICIENT_GRASS.
  rewrite (proj2 (Rleb_true 0 _) (Hnn Hg0 He)). cbn [rbind].
  destruct (Rle_dec 0 (dig Inedible)) as [Hi0|Hi0].
  2:{ right. split; [right; right; left; lra|].
      rewrite (proj2 (Rleb_false 0 (dig Inedible))) by lra. reflexivity. }
  destruct (Rle_dec (dig Inedible) 1) as [Hi1|Hi1].
  2:{ right. split; [right; right; right; lra|].
      rewrite (proj2 (Rleb_false (dig Inedible) 1)) by lra.
      rewrite andb_false_r. reflexivity. }
  rewrite (proj2 (Rleb_true 0 (dig Inedible)) Hi0),
    (proj2 (Rleb_true (dig Inedible) 1) Hi1).
  cbn [andb negb rbind].
  left. repeat split; try lra.
  eexists. split; [reflexivity|]. split; reflexivity.
Qed.

End Eat.

Section CohortEat.

Context {collab : Collaborators}.

Lemma get_bodymass_ok {D : Type} (h : HerbivoreBase D) :
  bodymass_assertions_hold (hft h) -> exists m, get_bodymass h = Ok m.
Proof.
  intros H. destruct (get_potential_bodymass_ok h H) as [p Hp].
  unfold get_bodymass, get_lean_bodymass. rewrite Hp. eexists; reflexivity.
Qed.


End CohortEat.

Section Demands.

Context {collab : Collaborators} {D : Type} {virt : HerbivoreVirtual D}.

(** X15: for a herbivore that is not dead, [get_forage_demands] throws a
    logic error and changes nothing while the day is not set (before the
    first [simulate_day]); once the helper is initialised for today it
    returns the demand per individual for [energy_needs +
    max_anabolism_per_day] times the individual density, changing only
    the helper; and if the helper still has to be initialised and a
    digestibility of the available forage is outside [0,1], it throws
    invalid_argument and changes nothing. *)
Theorem live_herbivore_forage_demands (available_forage : HabitatForage)
    (h : HerbivoreBase D) :
  is_dead h = false ->
  (today h = (-1)%Z ->
   get_forage_demands available_forage h = (h, Throw logic_error))
  /\ ((0 <= today h < 365)%Z ->
      is_day_initialized (today h) (get_forage_demands_per_ind h) = true ->
      forall demand_ind demands,
        demand_per_ind
          (FatmassEnergyBudget.energy_needs (energy_budget h)
           + FatmassEnergyBudget.max_anabolism_per_day (energy_budget h))
          (get_forage_demands_per_ind h) = Ok (demand_ind, demands) ->
        get_forage_demands available_forage h
        = (set_forage_demands demands h,
           Ok (fv_mul_scalar demand_ind
                 (get_ind_per_km2 (set_forage_demands demands h)))))
  /\ ((0 <= today h < 365)%Z ->
      is_day_initialized (today h) (get_forage_demands_per_ind h) = false ->
      (get_digestibility available_forage Grass < 0
       \/ 1 < get_digestibility available_forage Grass
       \/ get_digestibility available_forage Inedible < 0
       \/ 1 < get_digestibility available_forage Inedible) ->
      get_forage_demands available_forage h = (h, Throw invalid_argument)).
Proof.
  intros Hlive. unfold get_forage_demands. rewrite Hlive.
  split; [|split].
  - intros Htoday. unfold get_today. rewrite Htoday. reflexivity.
  - intros Hday Hinit demand_ind demands Hdemand.
    unfold get_today.
    destruct (Z.eqb_spec (today h) (-1)); [lia|].
    destruct (Z.leb_spec 0 (today h)); [|lia].
    destruct (Z.ltb_spec (today h) 365); [|lia].
    cbn [andb negb]. rewrite Hinit. cbn [negb].
    unfold FatmassEnergyBudget.get_energy_needs,
      FatmassEnergyBudget.get_max_anabolism_per_day, get_energy_budget.
    rewrite Hdemand. reflexivity.
  - intros Hday Hinit Hbad.
    unfold get_today.
    destruct (Z.eqb_spec (today h) (-1)); [lia|].
    destruct (Z.leb_spec 0 (today h)); [|lia].
    destruct (Z.ltb_spec (today h) 365); [|lia].
    cbn [andb negb]. rewrite Hinit. cbn [negb].
    destruct (net_energy_content_cases h (get_digestibility available_forage))
      as [(Hg & Hi & _) | (_ & ->)]; [lra | reflexivity].
Qed.

(** X16: for a mature female whose breeding season can be built, an
    empty record of body conditions makes
    [get_todays_offspring_proportion] throw a logic error whatever the
    reproduction model, the model None included; with a record that holds
    a value, the model None yields 0. *)
Theorem offspring_needs_gestation_record (h : HerbivoreBase D)
    (season : BreedingSeason) :
  get_sex h = SEX_FEMALE ->
  maturity_age_sex (get_hft h) <= get_age_years h ->
  BreedingSeason_new (breeding_season_start (get_hft h))
    (breeding_season_length (get_hft h)) = Ok season ->
  (0 <= PeriodAverage.count (body_condition_gestation h))%Z ->
  (PeriodAverage.values (body_condition_gestation h) = [] ->
   get_todays_offspring_proportion h = Throw logic_error)
  /\ (PeriodAverage.values (body_condition_gestation h) <> [] ->
      (Z.of_nat (length (PeriodAverage.values (body_condition_gestation h)))
       <= PeriodAverage.count (body_condition_gestation h))%Z ->
      reproduction_model (get_hft h) = RM_NONE ->
      get_todays_offspring_proportion h = Ok 0).
Proof.
  intros Hsex Hage Hseason Hcount.
  unfold get_todays_offspring_proportion.
  rewrite Hsex, (proj2 (Rltb_false _ _) Hage), Hseason. cbn [Sex_eqb orb rbind].
  unfold PeriodAverage.get_average. split.
  - intros Hempty. rewrite Hempty. cbn [length].
    destruct (Z.leb_spec (Z.of_nat 0) (PeriodAverage.count (body_condition_gestation h)));
      [reflexivity | lia].
  - intros Hne Hlen Hmodel.
    destruct (Z.leb_spec
                (Z.of_nat (length (PeriodAverage.values (body_condition_gestation h))))
                (PeriodAverage.count (body_condition_gestation h))); [|lia].
    cbn [negb].
    destruct (PeriodAverage.values (body_condition_gestation h)); [contradiction|].
    cbn [rbind]. rewrite Hmodel. reflexivity.
Qed.

End Demands.

Section Derived.
Context {collab : Collaborators} {D : Type}.


End Derived.

Section CohortDay.
Context {collab : Collaborators}.

End CohortDay.

(** *** Concrete runs *)

Lemma example_assertions_hold (factors : list MortalityFactor)
    (model : ReproductionModel) :
  bodymass_assertions_hold (Examples.hft factors model).
Proof. unfold bodymass_assertions_hold. cbn. lra. Qed.

Lemma example_adult_potential_bodymass (factors : list MortalityFactor)
    (model : ReproductionModel) (density : R) :
  get_potential_bodymass
    (Examples.cohort (Examples.hft factors model) SEX_FEMALE 1000 density)
  = Ok 50.
Proof.
  unfold get_potential_bodymass.
  change (Rleb _ _) with (Rleb 2 (IZR 1000 / 365)).
  rewrite (proj2 (Rleb_true _ _)) by lra. reflexivity.
Qed.

Lemma body_fat_within_maximum_witness :
  exists mass fat,
    get_bodymass (Examples.cohort (Examples.hft [] RM_NONE) SEX_FEMALE 1000 8)
    = Ok mass
    /\ get_bodyfat (Examples.cohort (Examples.hft [] RM_NONE) SEX_FEMALE 1000 8)
       = Ok fat
    /\ 0 <= fat <= 3 / 10.
Proof.
  destruct (proj1 (body_fat_within_maximum
                     (Examples.cohort (Examples.hft [] RM_NONE) SEX_FEMALE
                        1000 8) 50))
    as (mass & fat & Hmass & Hfat & _ & Hbounds & _).
  - apply example_adult_potential_bodymass.
  - lra.
  - cbn. lra.
  - cbn. lra.
  - exists mass, fat. exact (conj Hmass (conj Hfat Hbounds)).
Defined.

Lemma newborn_body_mass_witness :
  get_lean_bodymass (Examples.cohort (Examples.hft [] RM_NONE) SEX_FEMALE 0 8)
  = Ok (5 * (1 - 1 / 5)).
Proof.
  apply (proj1 (newborn_body_mass
                  (Examples.cohort (Examples.hft [] RM_NONE) SEX_FEMALE 0 8))).
  - apply example_assertions_hold.
  - reflexivity.
  - change (IZR 0 / 365 < 2). lra.
Defined.


Lemma live_herbivore_forage_demands_witness :
  get_forage_demands (virt := HerbivoreCohort.virt)
    (Examples.grass_only 1000 : @HabitatForage Examples.collab)
    (Examples.cohort (Examples.hft [] RM_NONE) SEX_FEMALE 400 8)
  = (Examples.cohort (Examples.hft [] RM_NONE) SEX_FEMALE 400 8,
     Ok (fv_mul_scalar (fv_const 0) 8)).
Proof.
  apply (proj1 (proj2 (live_herbivore_forage_demands
                         (collab := Examples.collab)
                         (virt := HerbivoreCohort.virt)
                         (Examples.grass_only 1000 : @HabitatForage Examples.collab)
                         (Examples.cohort (Examples.hft [] RM_NONE)
                            SEX_FEMALE 400 8)
                         ltac:(change (Rltb 8 (1 / 1000) = false);
                               apply Rltb_false; lra)))).
  - cbn. lia.
  - reflexivity.
  - reflexivity.
Defined.

Lemma offspring_needs_gestation_record_witness :
  get_todays_offspring_proportion
    (Examples.cohort (Examples.hft [] RM_NONE) SEX_FEMALE 1000 8) = Ok 0.
Proof.
  apply (proj2 (offspring_needs_gestation_record (collab := Examples.collab)
                  (Examples.cohort (Examples.hft [] RM_NONE) SEX_FEMALE 1000 8)
                  (120, 30)%Z eq_refl
                  ltac:(change (2 <= IZR 1000 / 365); lra)
                  eq_refl ltac:(cbn; lia))).
  - discriminate.
  - cbn. lia.
  - reflexivity.
Defined.


(** ** The individual class *)

Module HerbivoreIndividualFacts.
Import HerbivoreIndividual.

Section Facts.

Context {collab : Collaborators}.

(** X18: [apply_mortality] of an individual throws invalid_argument and
    changes nothing for a mortality outside [0,1]; otherwise it returns
    normally and touches nothing but the flag [dead], which it never
    clears: the individual is dead afterwards exactly if it was dead
    before, or the mortality is 1, or the mortality is above 0 and the
    random fraction drawn is below it. *)
Theorem individual_apply_mortality (random_fraction mortality : R) (i : t) :
  (mortality < 0 \/ 1 < mortality ->
   apply_mortality random_fraction mortality i = (i, Throw invalid_argument))
  /\ (0 <= mortality <= 1 ->
      exists i',
        apply_mortality random_fraction mortality i = (i', Ok tt)
        /\ i' = set_dead (dead (derived i')) i
        /\ (dead (derived i') = true
            <-> dead (derived i) = true
                \/ mortality = 1
                \/ (0 < mortality /\ random_fraction < mortality))
        /\ (mortality = 0 -> i' = i)).
Proof.
  unfold apply_mortality. split.
  - intros [H | H].
    + rewrite (proj2 (Rltb_true _ _) H). reflexivity.
    + rewrite (proj2 (Rltb_true _ _) H), orb_true_r. reflexivity.
  - intros [H0 H1].
    rewrite (proj2 (Rltb_false mortality 0) H0),
      (proj2 (Rltb_false 1 mortality) H1).
    cbn [orb].
    assert (Hid : i = set_dead (dead (derived i)) i).
    { destruct i as [? ? ? ? ? ? ? ? ? [a d]]. reflexivity. }
    destruct (Req_dec_T mortality 0) as [E0|E0].
    { rewrite (proj2 (Reqb_true _ _) E0). exists i.
      split; [reflexivity|]. split; [exact Hid|]. split; [|reflexivity].
      split; [auto|]. intros [H | [H | [H _]]]; [exact H | lra | lra]. }
    rewrite (proj2 (Reqb_false _ _) E0).
    destruct (Req_dec_T mortality 1) as [E1|E1].
    { rewrite (proj2 (Reqb_true _ _) E1). eexists.
      split; [reflexivity|]. split; [reflexivity|]. split; [|lra].
      split; [auto|reflexivity]. }
    rewrite (proj2 (Reqb_false _ _) E1).
    destruct (Rlt_dec random_fraction mortality) as [Hr|Hr].
    { rewrite (proj2 (Rltb_true _ _) Hr). eexists.
      split; [reflexivity|]. split; [reflexivity|]. split; [|lra].
      split; [intros _; right; right; split; lra | reflexivity]. }
    rewrite (proj2 (Rltb_false random_fraction mortality)) by lra.
    exists i. split; [reflexivity|]. split; [exact Hid|]. split; [|lra].
    split; [auto|]. intros [H | [H | [_ H]]]; [exact H | lra | lra].
Qed.

End Facts.

Lemma individual_apply_mortality_witness :
  apply_mortality (collab := Examples.collab) (1 / 2) 2
    (@mkHerbivoreBase Examples.collab members (Examples.hft [] RM_NONE)
       SEX_MALE 400 0 (PeriodAverage.mk 270 [] 0) tt
       (FatmassEnergyBudget.mk 4 15 0 0) Examples.no_output tt
       (mk_members 1 false))
  = (@mkHerbivoreBase Examples.collab members (Examples.hft [] RM_NONE)
       SEX_MALE 400 0 (PeriodAverage.mk 270 [] 0) tt
       (FatmassEnergyBudget.mk 4 15 0 0) Examples.no_output tt
       (mk_members 1 false),
     Throw invalid_argument)
  /\ exists i',
       apply_mortality (collab := Examples.collab) (1 / 2) (3 / 4)
         (@mkHerbivoreBase Examples.collab members (Examples.hft [] RM_NONE)
            SEX_MALE 400 0 (PeriodAverage.mk 270 [] 0) tt
            (FatmassEnergyBudget.mk 4 15 0 0) Examples.no_output tt
            (mk_members 1 false))
       = (i', Ok tt)
       /\ dead (derived i') = true.
Proof.
  split.
  - apply (proj1 (individual_apply_mortality (collab := Examples.collab)
                    (1 / 2) 2 _)).
    right. lra.
  - destruct (proj2 (individual_apply_mortality (collab := Examples.collab)
                       (1 / 2) (3 / 4)
                       (@mkHerbivoreBase Examples.collab members
                          (Examples.hft [] RM_NONE)
                          SEX_MALE 400 0 (PeriodAverage.mk 270 [] 0) tt
                          (FatmassEnergyBudget.mk 4 15 0 0) Examples.no_output tt
                          (mk_members 1 false)))
                ltac:(lra))
      as (i' & Hrun & _ & Hdead & _).
    exists i'. split; [exact Hrun|].
    apply Hdead. right. right. lra.
Defined.

End HerbivoreIndividualFacts.

(** ** More on the net energy content *)

Module NetEnergyMoreFacts.
Import NetEnergy.

Lemma grass_value (dt : DigestionType) (d : R) :
  0 <= d <= 1 ->
  get_per_forage_type dt Grass d
  = Ok (d * 15 * (19 / 1000 * (d * 15) + 503 / 1000) * digestion_efficiency dt).
Proof.
  intros [H0 H1]. unfold get_per_forage_type.
  rewrite (proj2 (Rleb_true 0 d) H0), (proj2 (Rleb_true d 1) H1). cbn.
  unfold ME_COEFFICIENT_GRASS.
  rewrite (proj2 (Rleb_true 0 _)); [reflexivity|].
  apply NetEnergyFacts.grass_formula_nonneg;
    [exact H0 | apply NetEnergyFacts.digestion_efficiency_nonneg].
Qed.

(** X19: over digestibilities in [0,1] the net energy content of grass
    grows with the digestibility, is 0 exactly at digestibility 0, never
    exceeds 11.82 MJ/kgDM (the value of a ruminant at digestibility 1),
    and for a hindgut fermenter it is 0.93 times that of a ruminant. *)
Theorem grass_net_energy_monotone_bounded (dt : DigestionType) (d1 d2 : R) :
  0 <= d1 -> d1 <= d2 -> d2 <= 1 ->
  exists ne1 ne2 ruminant2,
    get_per_forage_type dt Grass d1 = Ok ne1
    /\ get_per_forage_type dt Grass d2 = Ok ne2
    /\ get_per_forage_type DT_RUMINANT Grass d2 = Ok ruminant2
    /\ 0 <= ne1 <= ne2
    /\ ne2 <= 1182 / 100
    /\ (ne1 = 0 <-> d1 = 0)
    /\ get_per_forage_type DT_HINDGUT Grass d2 = Ok (93 / 100 * ruminant2).
Proof.
  intros H0 H12 H1.
  rewrite (grass_value dt d1), (grass_value dt d2),
    (grass_value DT_RUMINANT d2), (grass_value DT_HINDGUT d2) by lra.
  do 3 eexists. split; [reflexivity|]. split; [reflexivity|].
  split; [reflexivity|].
  assert (He : 0 < digestion_efficiency dt <= 1).
  { destruct dt; unfold digestion_efficiency, DIGESTION_EFFICIENCY_HINDGUTS; lra. }
  set (e := digestion_efficiency dt) in *.
  assert (Hf : forall d, 0 <= d <= 1 ->
            0 <= d * 15 * (19 / 1000 * (d * 15) + 503 / 1000) <= 1182 / 100).
  { intros d Hd. split; nra. }
  assert (Hmono : d1 * 15 * (19 / 1000 * (d1 * 15) + 503 / 1000)
                  <= d2 * 15 * (19 / 1000 * (d2 * 15) + 503 / 1000)) by nra.
  pose proof (Hf d1 ltac:(lra)) as Hf1. pose proof (Hf d2 ltac:(lra)) as Hf2.
  split; [split; nra|]. split; [nra|]. split.
  - split.
    + intros Hz.
      assert (Hz' : d1 * 15 * (19 / 1000 * (d1 * 15) + 503 / 1000) = 0) by nra.
      nra.
    + intros ->. ring.
  - unfold digestion_efficiency, DIGESTION_EFFICIENCY_HINDGUTS. f_equal. ring.
Qed.

Lemma grass_net_energy_monotone_bounded_witness :
  exists ne1 ne2 ruminant2,
    get_per_forage_type DT_HINDGUT Grass (1 / 4) = Ok ne1
    /\ get_per_forage_type DT_HINDGUT Grass (3 / 4) = Ok ne2
    /\ get_per_forage_type DT_RUMINANT Grass (3 / 4) = Ok ruminant2
    /\ 0 <= ne1 <= ne2.
Proof.
  destruct (grass_net_energy_monotone_bounded DT_HINDGUT (1 / 4) (3 / 4))
    as (ne1 & ne2 & r2 & H1 & H2 & H3 & Hle & _); [lra | lra | lra |].
  exists ne1, ne2, r2. exact (conj H1 (conj H2 (conj H3 Hle))).
Defined.


End NetEnergyMoreFacts.

(** ** Output dates *)

Module OutputModuleFacts.
Import OutputModule.

Lemma month_starts_nonneg (months : list Z) :
  Forall (fun l => (0 <= l)%Z) months ->
  Forall (fun s => (0 <= s)%Z) (month_starts months).
Proof.
  induction 1 as [|l rest Hl _ IH]; cbn [month_starts].
  - repeat constructor. lia.
  - constructor; [lia|]. apply Forall_map.
    eapply Forall_impl; [exact IH|]. cbn. intros; lia.
Qed.

Lemma subtract_months_spec (months : list Z) :
  Forall (fun l => (0 <= l)%Z) months ->
  forall day,
    (subtract_months months day = Ok true <-> day ∈ month_starts months)
    /\ (subtract_months months day = Throw assertion_failed
        <-> (fold_right Z.add 0 months < day)%Z /\ (0 < day)%Z)
    /\ (subtract_months months day = Ok true
        \/ subtract_months months day = Ok false
        \/ subtract_months months day = Throw assertion_failed).
Proof.
  induction 1 as [|l rest Hl Hrest IH]; intros day.
  - cbn [subtract_months month_starts fold_right].
    destruct (Z.ltb_spec 0 day) as [Hpos|Hnp].
    + split; [|split].
      * split; [discriminate|].
        intros Hin. apply list_elem_of_singleton in Hin. lia.
      * split; [intros _; lia | reflexivity].
      * right. right. reflexivity.
    + split; [|split].
      * split.
        -- intros [= E]. apply Z.eqb_eq in E. subst. apply list_elem_of_singleton.
           reflexivity.
        -- intros Hin. apply list_elem_of_singleton in Hin. subst. reflexivity.
      * split; [discriminate | intros; lia].
      * destruct (day =? 0)%Z; [left | right; left]; reflexivity.
  - cbn [subtract_months month_starts fold_right].
    destruct (Z.ltb_spec 0 day) as [Hpos|Hnp].
    + destruct (IH (day - l)%Z) as (Htrue & Hfail & Hcases).
      split; [|split].
      * rewrite Htrue. split.
        -- intros Hin. apply elem_of_cons. right.
           apply list_elem_of_fmap. exists (day - l)%Z. split; [lia | exact Hin].
        -- intros Hin. apply elem_of_cons in Hin as [E | Hin]; [lia|].
           apply list_elem_of_fmap in Hin as (s & -> & Hs).
           replace (l + s - l)%Z with s by lia. exact Hs.
      * rewrite Hfail. split; [intros [H1 H2]; lia|].
        intros [H1 H2]. split; [lia|].
        pose proof (month_starts_nonneg rest Hrest) as Hnn.
        assert (0 <= fold_right Z.add 0 rest)%Z.
        { clear -Hrest. induction Hrest; cbn; lia. }
        lia.
      * exact Hcases.
    + split; [|split].
      * split.
        -- intros [= E]. apply Z.eqb_eq in E. subst. apply elem_of_cons. left.
           reflexivity.
        -- intros Hin. apply elem_of_cons in Hin as [-> | Hin]; [reflexivity|].
           apply list_elem_of_fmap in Hin as (s & -> & Hs).
           pose proof (month_starts_nonneg rest Hrest) as Hnn.
           rewrite Forall_forall in Hnn. specialize (Hnn s Hs).
           assert (l + s = 0)%Z by lia.
           replace (l + s)%Z with 0%Z by lia. reflexivity.
      * split; [discriminate | intros; lia].
      * destruct (day =? 0)%Z; [left | right; left]; reflexivity.
Qed.

(** X21: [is_first_day_of_month] throws invalid_argument for a day
    outside 0..364.  For a table of month lengths none of which is
    negative it returns true exactly for the days that are the sum of the
    first [k] month lengths, for some [k]; and when the table adds up to
    364 days or more the call returns, so that its assertion on the month
    index cannot fail. *)
Theorem first_days_of_months (ndaymonth : list Z) (day : Z) :
  ((day < 0 \/ 364 < day)%Z ->
   is_first_day_of_month ndaymonth day = Throw invalid_argument)
  /\ (Forall (fun l => (0 <= l)%Z) ndaymonth ->
      (0 <= day <= 364)%Z ->
      (is_first_day_of_month ndaymonth day = Ok true
       <-> day ∈ month_starts ndaymonth)
      /\ ((364 <= fold_right Z.add 0 ndaymonth)%Z ->
          exists b, is_first_day_of_month ndaymonth day = Ok b)).
Proof.
  unfold is_first_day_of_month. split.
  - intros [H | H].
    + destruct (Z.ltb_spec day 0); [reflexivity | lia].
    + destruct (Z.ltb_spec 364 day); [|lia].
      rewrite orb_true_r. reflexivity.
  - intros Hnn Hday.
    destruct (Z.ltb_spec day 0); [lia|].
    destruct (Z.ltb_spec 364 day); [lia|].
    cbn [orb].
    destruct (subtract_months_spec ndaymonth Hnn day) as (Htrue & Hfail & Hcases).
    split; [exact Htrue|].
    intros Hsum.
    destruct Hcases as [-> | [-> | Hthrow]]; [eexists; reflexivity.. |].
    apply Hfail in Hthrow. lia.
Qed.

(** In a year of 365 days the first days of the months are the days 0,
    31, 59, 90, 120, 151, 181, 212, 243, 273, 304 and 334. *)
Lemma first_days_of_months_witness :
  is_first_day_of_month ndaymonth_365 365 = Throw invalid_argument
  /\ (is_first_day_of_month ndaymonth_365 59 = Ok true
      <-> 59%Z ∈ [0; 31; 59; 90; 120; 151; 181; 212; 243; 273; 304; 334; 365]%Z)
  /\ exists b, is_first_day_of_month ndaymonth_365 60 = Ok b.
Proof.
  split; [|split].
  - apply (proj1 (first_days_of_months ndaymonth_365 365)). right. lia.
  - apply (proj2 (first_days_of_months ndaymonth_365 59)).
    + repeat constructor; lia.
    + lia.
  - apply (proj2 (first_days_of_months ndaymonth_365 60)).
    + repeat constructor; lia.
    + lia.
    + cbn. lia.
Defined.

(** X22: [set_date_to_period_center] moves a date back by half the
    output period (0, 15, 182 or 1825 days), counted in years of 365
    days.  For a day of the year in 0..364 the new day lies in 0..365; it
    is 365, which is not a day of the year, exactly when the date has
    moved into an earlier year by a whole number of years, as for the
    decadal output written on day 0. *)
Theorem period_center (interval : Interval) (day year : Z) :
  (0 <= day <= 364)%Z ->
  let '(day', year') := set_date_to_period_center interval day year in
  (year' * 365 + day' = year * 365 + day - half_period interval)%Z
  /\ (0 <= day' <= 365)%Z
  /\ (day' = 365%Z
      <-> (day < half_period interval)%Z
          /\ Z.rem (day - half_period interval) 365 = 0%Z)
  /\ (interval = DECADAL -> day = 0%Z ->
      day' = 365%Z /\ year' = (year - 6)%Z).
Proof.
  intros Hday. unfold set_date_to_period_center.
  assert (Hshift :
    match interval with
    | DAILY => day
    | MONTHLY => (day - Z.quot 30 2)%Z
    | ANNUAL => (day - Z.quot 365 2)%Z
    | DECADAL => (day - Z.quot (10 * 365) 2)%Z
    end = (day - half_period interval)%Z).
  { destruct interval; unfold half_period; [lia | reflexivity..]. }
  rewrite Hshift. clear Hshift.
  set (d := (day - half_period interval)%Z).
  assert (Hd : (d <= 364)%Z) by (subst d; destruct interval; unfold half_period; lia).
  destruct (Z.ltb_spec d 0) as [Hneg|Hnn].
  - pose proof (Z.quot_rem' d 365) as Hqr.
    pose proof (Z.rem_nonpos d 365 ltac:(lia) ltac:(lia)) as Hr.
    pose proof (Z.rem_bound_abs d 365 ltac:(lia)) as Habs.
    assert (Hrange : (-365 < Z.rem d 365 <= 0)%Z) by lia.
    split; [lia|]. split; [lia|]. split.
    + split; [intros H; subst d; lia | intros [_ H]; lia].
    + intros -> ->. subst d. cbn. split; reflexivity.
  - split; [subst d; lia|]. split; [lia|]. split.
    + split; [lia | intros [H _]; subst d; lia].
    + intros -> ->. subst d. cbn in Hnn. lia.
Qed.

Lemma period_center_witness :
  let '(day', year') := set_date_to_period_center DECADAL 0 10 in
  (year' * 365 + day' = 10 * 365 + 0 - 1825)%Z
  /\ day' = 365%Z /\ year' = 4%Z.
Proof.
  pose proof (period_center DECADAL 0 10 ltac:(lia)) as H.
  cbn in H |- *. destruct H as (H1 & _ & _ & H4).
  destruct (H4 eq_refl eq_refl) as [H5 H6].
  exact (conj H1 (conj H5 H6)).
Defined.

End OutputModuleFacts.

(** ** Plant parameters *)

Module PftParamsFacts.
Import PftParams.

#[local] Open Scope string_scope.

(** X23: [is_valid] accepts the parameters exactly when it writes no
    message.  It accepts them exactly when a plant of forage type grass
    has the life form grass and, under the fixed-digestibility model, an
    edible plant has a digestibility above 0 and at most 1; a plant that
    is inedible is always accepted. *)
Theorem pft_is_valid (fixed : bool) (p : t) :
  (fst (is_valid fixed p) = true <-> snd (is_valid fixed p) = EmptyString)
  /\ (fst (is_valid fixed p) = true
      <-> (forage_type p = Grass -> pft_lifeform_is_grass p = true)
          /\ (fixed = true -> forage_type p = Grass ->
              0 < digestibility p <= 1))
  /\ (forage_type p = Inedible -> is_valid fixed p = (true, EmptyString)).
Proof.
  unfold is_valid.
  destruct (forage_type p) eqn:Hft; cbn [andb negb].
  - destruct (pft_lifeform_is_grass p) eqn:Hlife; cbn [negb];
      destruct fixed; cbn [andb].
    + destruct (Rle_dec (digestibility p) 0) as [Hlow|Hlow];
        destruct (Rlt_dec 1 (digestibility p)) as [Hhigh|Hhigh];
        try (exfalso; lra).
      * rewrite (proj2 (Rleb_true _ _) Hlow), (proj2 (Rltb_false _ _)) by lra.
        cbn. repeat split; try discriminate.
        intros [_ H]. specialize (H eq_refl eq_refl). lra.
      * rewrite (proj2 (Rleb_false _ _)), (proj2 (Rltb_true _ _) Hhigh) by lra.
        cbn. repeat split; try discriminate.
        intros [_ H]. specialize (H eq_refl eq_refl). lra.
      * rewrite (proj2 (Rleb_false _ _)), (proj2 (Rltb_false _ _)) by lra.
        cbn. repeat split; try reflexivity; try discriminate; intros; lra.
    + cbn. repeat split; try reflexivity; try discriminate.
    + destruct (Rleb (digestibility p) 0), (Rltb 1 (digestibility p)); cbn;
        (split; [|split]; [split; discriminate | | discriminate]);
        (split; [discriminate | intros [H _]; specialize (H eq_refl); discriminate]).
    + cbn. split; [|split]; [split; discriminate | | discriminate].
      split; [discriminate | intros [H _]; specialize (H eq_refl); discriminate].
  - rewrite andb_false_r. cbn.
    repeat split; try reflexivity; try discriminate.
Qed.

Lemma pft_is_valid_witness :
  is_valid true (mk (1 / 2) (6 / 10) (4 / 10) 0 Inedible false) = (true, EmptyString).
Proof.
  apply (proj2 (proj2 (pft_is_valid true
                         (mk (1 / 2) (6 / 10) (4 / 10) 0 Inedible false)))).
  reflexivity.
Defined.

End PftParamsFacts.

(** ** Reading the instruction file *)

Module InsfileReaderFacts.
Import InsfileReader ReadSimulation.

Lemma tolower_idempotent (c : Ascii.ascii) : tolower (tolower c) = tolower c.
Proof.
  destruct c as [[] [] [] [] [] [] [] []]; vm_compute; reflexivity.
Qed.

Lemma lowercase_idempotent (s : string) : lowercase (lowercase s) = lowercase s.
Proof.
  induction s as [|c rest IH]; cbn; [reflexivity|].
  rewrite tolower_idempotent, IH. reflexivity.
Qed.

Section Tables.
Context {T : Type}.

Lemma search_groups_spec (tables : list (table T)) (g : string) :
  match search_groups tables g with
  | inr (Some gt) =>
      exists before after,
        tables = before ++ gt :: after
        /\ table_name gt = Some g
        /\ Forall (fun b => exists n, table_name b = Some n /\ n <> g) before
  | inr None =>
      Forall (fun b => exists n, table_name b = Some n /\ n <> g) tables
  | inl e =>
      e = missing_parameter "group.name"
      /\ exists before nameless after,
           tables = before ++ nameless :: after
           /\ table_name nameless = None
           /\ Forall (fun b => exists n, table_name b = Some n /\ n <> g) before
  end.
Proof.
  induction tables as [|t rest IH]; cbn [search_groups].
  - constructor.
  - destruct (table_name t) as [n|] eqn:Hn.
    + destruct (String.eqb_spec n g) as [->|Hne].
      * exists [], rest. repeat split; [exact Hn | constructor].
      * destruct (search_groups rest g) as [e|[gt|]].
        -- destruct IH as (-> & before & nameless & after & -> & Hnone & Hall).
           split; [reflexivity|].
           exists (t :: before), nameless, after. repeat split; [exact Hnone|].
           constructor; [exists n; auto | exact Hall].
        -- destruct IH as (before & after & -> & Hname & Hall).
           exists (t :: before), after. repeat split; [exact Hname|].
           constructor; [exists n; auto | exact Hall].
        -- constructor; [exists n; auto | exact IH].
    + split; [reflexivity|]. exists [], t, rest. repeat split; [exact Hn | constructor].
Qed.


Lemma search_hft_groups_sound (gts : option (list (table T))) (n : string)
    (groups : list string) (key : string) (v : T) :
  search_hft_groups gts n groups key = inr (Some v) ->
  exists g gt,
    g ∈ groups
    /\ get_group_table gts g = inr (Some gt)
    /\ table_values gt key = Some v.
Proof.
  induction groups as [|g rest IH]; cbn [search_hft_groups]; [discriminate|].
  destruct (get_group_table gts g) as [e|[gt|]] eqn:Hg; try discriminate.
  destruct (table_values gt key) as [w|] eqn:Hw.
  - intros [= ->]. exists g, gt. repeat split; [left | exact Hg | exact Hw].
  - intros H. destruct (IH H) as (g' & gt' & Hin & Hg' & Hv).
    exists g', gt'. repeat split; [right; exact Hin | exact Hg' | exact Hv].
Qed.

Lemma search_hft_groups_first (gts : option (list (table T))) (n : string)
    (before : list string) (g : string) (after : list string) (key : string)
    (gt : table T) (v : T) :
  Forall (fun b => exists bt, get_group_table gts b = inr (Some bt)
                              /\ table_values bt key = None) before ->
  get_group_table gts g = inr (Some gt) ->
  table_values gt key = Some v ->
  search_hft_groups gts n (before ++ g :: after) key = inr (Some v).
Proof.
  intros Hbefore Hg Hv.
  induction Hbefore as [|b rest (bt & Hb & Hnone) _ IH]; cbn [app search_hft_groups].
  - rewrite Hg, Hv. reflexivity.
  - rewrite Hb, Hnone. exact IH.
Qed.

(** X24: a key that the table of an HFT defines itself is returned
    without looking at any group.  Whatever [find_hft_parameter] returns
    is the entry under the key in the table of the HFT or in the table of
    one of the groups the HFT lists; and a mandatory lookup that returns
    does not return empty, so that the assertions behind the mandatory
    lookups of [read_hft] cannot fail. *)
Theorem find_hft_parameter_found (gts : option (list (table T)))
    (hft_table : table T) (key : string) (mandatory : bool) :
  (forall n v,
     table_name hft_table = Some n -> table_values hft_table key = Some v ->
     find_hft_parameter gts hft_table key mandatory = inr (Some v))
  /\ (forall o,
        find_hft_parameter gts hft_table key mandatory = inr o ->
        (mandatory = true -> o <> None)
        /\ (forall v, o = Some v ->
              table_values hft_table key = Some v
              \/ exists groups g gt,
                   table_groups hft_table = Some groups
                   /\ g ∈ groups
                   /\ get_group_table gts g = inr (Some gt)
                   /\ table_values gt key = Some v)).
Proof.
  unfold find_hft_parameter. split.
  - intros n v -> ->. reflexivity.
  - intros o. destruct (table_name hft_table) as [n|]; [|discriminate].
    destruct (table_values hft_table key) as [w|] eqn:Hown.
    { intros [= <-]. split; [discriminate|]. intros v [= <-]. left. reflexivity. }
    destruct (table_groups hft_table) as [groups|] eqn:Hgroups.
    + destruct (search_hft_groups gts n groups key) as [e|[w|]] eqn:Hsearch;
        [discriminate | |].
      * intros [= <-]. split; [discriminate|]. intros v [= <-]. right.
        destruct (search_hft_groups_sound _ _ _ _ _ Hsearch) as (g & gt & H1 & H2 & H3).
        exists groups, g, gt. auto.
      * destruct mandatory; [discriminate|].
        intros [= <-]. split; [discriminate | discriminate].
    + destruct mandatory; [discriminate|].
      intros [= <-]. split; [discriminate | discriminate].
Qed.

(** X25: a key that the HFT does not define is inherited from the first
    group, in the order of the array "groups", whose table defines it:
    the groups listed before it must exist and lack the key, and the
    groups listed after it are not looked at. *)
Theorem find_hft_parameter_inherits (gts : option (list (table T)))
    (hft_table : table T) (key : string) (mandatory : bool)
    (n : string) (before : list string) (g : string) (after : list string)
    (gt : table T) (v : T) :
  table_name hft_table = Some n ->
  table_values hft_table key = None ->
  table_groups hft_table = Some (before ++ g :: after) ->
  Forall (fun b => exists bt, get_group_table gts b = inr (Some bt)
                              /\ table_values bt key = None) before ->
  get_group_table gts g = inr (Some gt) ->
  table_values gt key = Some v ->
  find_hft_parameter gts hft_table key mandatory = inr (Some v).
Proof.
  intros Hn Hown Hgroups Hbefore Hg Hv. unfold find_hft_parameter.
  rewrite Hn, Hown, Hgroups.
  rewrite (search_hft_groups_first gts n before g after key gt v Hbefore Hg Hv).
  reflexivity.
Qed.

Lemma get_group_table_error (gts : option (list (table T))) (g : string)
    (e : error) :
  get_group_table gts g = inl e -> e = missing_parameter "group.name".
Proof.
  destruct gts as [tables|]; cbn [get_group_table]; [|discriminate].
  intros H. pose proof (search_groups_spec tables g) as Hspec.
  rewrite H in Hspec. exact (proj1 Hspec).
Qed.

Lemma search_hft_groups_error (gts : option (list (table T))) (n : string)
    (groups : list string) (key : string) (e : error) :
  search_hft_groups gts n groups key = inl e ->
  e = missing_parameter "group.name"
  \/ exists g, g ∈ groups /\ e = missing_group n g
                /\ get_group_table gts g = inr None.
Proof.
  induction groups as [|g rest IH]; cbn [search_hft_groups]; [discriminate|].
  destruct (get_group_table gts g) as [e'|[gt|]] eqn:Hg.
  - intros [= <-]. left. exact (get_group_table_error _ _ _ Hg).
  - destruct (table_values gt key); [discriminate|].
    intros H. destruct (IH H) as [-> | (g' & Hin & -> & Hnone)]; [left; reflexivity|].
    right. exists g'. repeat split; [right; exact Hin | exact Hnone].
  - intros [= <-]. right. exists g. repeat split; [left | exact Hg].
Qed.

(** X26: [find_hft_parameter] fails in four ways only: the assertion on
    the name of the HFT table; "group.name" missing in a group table that
    is passed while searching; a listed group without a table
    ([missing_group]); and, for a mandatory key only, the key missing in
    the HFT table and everywhere it was looked for
    ([missing_hft_parameter]). *)
Theorem find_hft_parameter_errors (gts : option (list (table T)))
    (hft_table : table T) (key : string) (mandatory : bool) (e : error) :
  find_hft_parameter gts hft_table key mandatory = inl e ->
  (e = failed_assertion /\ table_name hft_table = None)
  \/ e = missing_parameter "group.name"
  \/ (exists n g groups,
        e = missing_group n g
        /\ table_name hft_table = Some n
        /\ table_groups hft_table = Some groups
        /\ g ∈ groups
        /\ get_group_table gts g = inr None)
  \/ (exists n,
        e = missing_hft_parameter n key
        /\ table_name hft_table = Some n
        /\ mandatory = true
        /\ table_values hft_table key = None).
Proof.
  unfold find_hft_parameter.
  destruct (table_name hft_table) as [n|];
    [|intros [= <-]; left; split; reflexivity].
  destruct (table_values hft_table key) as [w|] eqn:Hown; [discriminate|].
  destruct (table_groups hft_table) as [groups|] eqn:Hgroups.
  - destruct (search_hft_groups gts n groups key) as [e'|[w|]] eqn:Hsearch.
    + intros [= <-].
      destruct (search_hft_groups_error _ _ _ _ _ Hsearch)
        as [-> | (g & Hin & -> & Hnone)].
      * right. left. reflexivity.
      * right. right. left. exists n, g, groups. auto.
    + discriminate.
    + destruct mandatory; [|discriminate].
      intros [= <-]. right. right. right. exists n. auto.
  - destruct mandatory; [|discriminate].
    intros [= <-]. right. right. right. exists n. auto.
Qed.

End Tables.


Lemma lowercase_Equally : lowercase "Equally" = "equally"%string.
Proof. reflexivity. Qed.

Lemma read_table_simulation_inv (ins : ins_simulation) (params p : Parameters) :
  read_table_simulation ins params = inr p ->
  (forall s, simulation_forage_distribution ins = Some s ->
     lowercase s = "equally"%string)
  /\ exists s,
       simulation_herbivore_type ins = Some s
       /\ (lowercase s = "cohort"%string \/ lowercase s = "individual"%string)
       /\ p = mk_parameters
                (match simulation_forage_distribution ins with
                 | Some _ => Equally
                 | None => forage_distribution params
                 end)
                (default (habitat_area_km2 params)
                   (simulation_habitat_area_km2 ins))
                (default (herbivore_establish_interval params)
                   (simulation_establishment_interval ins))
                (if String.eqb (lowercase s) "cohort" then Cohort else Individual)
                (default (one_hft_per_habitat params)
                   (simulation_one_hft_per_habitat ins)).
Proof.
  unfold read_table_simulation.
  change (lowercase "Equally") with "equally"%string.
  change (lowercase "Cohort") with "cohort"%string.
  change (lowercase "Individual") with "individual"%string.
  intros H.
  assert (Hfd : forall s, simulation_forage_distribution ins = Some s ->
                  lowercase s = "equally"%string).
  { intros s Hs. rewrite Hs in H.
    destruct (String.eqb_spec (lowercase s) "equally"); [assumption | discriminate]. }
  split; [exact Hfd|].
  destruct (simulation_herbivore_type ins) as [ht|].
  2:{ destruct (simulation_forage_distribution ins) as [fd|];
        [destruct (String.eqb (lowercase fd) "equally")|]; discriminate. }
  exists ht. split; [reflexivity|].
  assert (Hdist :
    match simulation_forage_distribution ins with
    | Some value =>
        if String.eqb (lowercase value) "equally"
        then inr Equally
        else inl (invalid_option "simulation.forage_distribution" value
                    ["Equally"%string])
    | None => inr (forage_distribution params)
    end
    = inr (match simulation_forage_distribution ins with
           | Some _ => Equally
           | None => forage_distribution params
           end)).
  { destruct (simulation_forage_distribution ins) as [fd|]; [|reflexivity].
    rewrite (Hfd fd eq_refl). reflexivity. }
  rewrite Hdist in H. clear Hdist.
  destruct (String.eqb_spec (lowercase ht) "cohort") as [Hc|Hc].
  - split; [left; exact Hc|]. injection H as <-.
    destruct (simulation_habitat_area_km2 ins),
      (simulation_establishment_interval ins),
      (simulation_one_hft_per_habitat ins); reflexivity.
  - destruct (String.eqb_spec (lowercase ht) "individual") as [Hi|Hi];
      [|discriminate].
    split; [right; exact Hi|]. injection H as <-.
    destruct (simulation_habitat_area_km2 ins),
      (simulation_establishment_interval ins),
      (simulation_one_hft_per_habitat ins); reflexivity.
Qed.

Lemma read_table_simulation_ok (ins : ins_simulation) (params : Parameters)
    (s : string) :
  (forall fd, simulation_forage_distribution ins = Some fd ->
     lowercase fd = "equally"%string) ->
  simulation_herbivore_type ins = Some s ->
  lowercase s = "cohort"%string \/ lowercase s = "individual"%string ->
  exists p, read_table_simulation ins params = inr p.
Proof.
  intros Hfd Hs Hht. unfold read_table_simulation.
  change (lowercase "Equally") with "equally"%string.
  change (lowercase "Cohort") with "cohort"%string.
  change (lowercase "Individual") with "individual"%string.
  rewrite Hs.
  assert (Hparse :
    exists type,
      (if String.eqb (lowercase s) "cohort" then inr Cohort
       else if String.eqb (lowercase s) "individual" then inr Individual
       else inl (invalid_option "simulation.herbivore_type" s
                   ["Cohort"%string; "Individual"%string]))
      = inr type).
  { destruct Hht as [-> | ->]; eexists; reflexivity. }
  destruct Hparse as [type ->].
  destruct (simulation_forage_distribution ins) as [fd|].
  - rewrite (Hfd fd eq_refl). eexists; reflexivity.
  - eexists; reflexivity.
Qed.

(** X27: [get_group_table] returns the first group table that carries
    the name asked for; every table before it has another name.  It
    returns nothing if all tables have other names, or if the file has no
    group tables; and it throws "group.name" missing if it meets a table
    without a name before finding one. *)
Theorem get_group_table_first {T : Type} (gts : option (list (table T)))
    (g : string) :
  match get_group_table gts g with
  | inr (Some gt) =>
      exists tables before after,
        gts = Some tables
        /\ tables = before ++ gt :: after
        /\ table_name gt = Some g
        /\ Forall (fun b => exists n, table_name b = Some n /\ n <> g) before
  | inr None =>
      gts = None
      \/ exists tables,
           gts = Some tables
           /\ Forall (fun b => exists n, table_name b = Some n /\ n <> g) tables
  | inl e =>
      e = missing_parameter "group.name"
      /\ exists tables before nameless after,
           gts = Some tables
           /\ tables = before ++ nameless :: after
           /\ table_name nameless = None
           /\ Forall (fun b => exists n, table_name b = Some n /\ n <> g) before
  end.
Proof.
  destruct gts as [tables|]; cbn [get_group_table]; [|left; reflexivity].
  pose proof (search_groups_spec tables g) as Hspec.
  destruct (search_groups tables g) as [e|[gt|]].
  - destruct Hspec as (-> & before & nameless & after & H1 & H2 & H3).
    split; [reflexivity|]. exists tables, before, nameless, after. auto.
  - destruct Hspec as (before & after & H1 & H2 & H3).
    exists tables, before, after. auto.
  - right. exists tables. auto.
Qed.

(** X28: [read_table_simulation] succeeds exactly when the herbivore
    type is given and reads, in any mix of upper and lower case, "cohort"
    or "individual", and the forage distribution, if given, reads
    "equally".  It then takes the establishment interval, the habitat
    area and the switch "one HFT per habitat" from the file where the
    file has them, and leaves them as they were where it has not.
    Without a herbivore type it throws [missing_parameter]. *)
Theorem read_table_simulation_spec (ins : ins_simulation) (params : Parameters) :
  ((exists p, read_table_simulation ins params = inr p)
   <-> (forall s, simulation_forage_distribution ins = Some s ->
          lowercase s = "equally"%string)
       /\ exists s, simulation_herbivore_type ins = Some s
                    /\ (lowercase s = "cohort"%string
                        \/ lowercase s = "individual"%string))
  /\ (forall p,
        read_table_simulation ins params = inr p ->
        herbivore_establish_interval p
        = default (herbivore_establish_interval params)
            (simulation_establishment_interval ins)
        /\ habitat_area_km2 p
           = default (habitat_area_km2 params) (simulation_habitat_area_km2 ins)
        /\ one_hft_per_habitat p
           = default (one_hft_per_habitat params)
               (simulation_one_hft_per_habitat ins)
        /\ exists s, simulation_herbivore_type ins = Some s
                     /\ (herbivore_type p = Cohort
                         <-> lowercase s = "cohort"%string))
  /\ (simulation_herbivore_type ins = None ->
      (forall s, simulation_forage_distribution ins = Some s ->
         lowercase s = "equally"%string) ->
      read_table_simulation ins params
      = inl (missing_parameter "simulation.herbivore_type")).
Proof.
  split; [|split].
  - split.
    + intros [p Hp].
      destruct (read_table_simulation_inv ins params p Hp)
        as (Hfd & s & Hs & Hcase & _).
      split; [exact Hfd|]. exists s. auto.
    + intros (Hfd & s & Hs & Hcase).
      exact (read_table_simulation_ok ins params s Hfd Hs Hcase).
  - intros p Hp.
    destruct (read_table_simulation_inv ins params p Hp)
      as (_ & s & Hs & Hcase & ->).
    cbn. repeat split. exists s. split; [exact Hs|].
    destruct (String.eqb_spec (lowercase s) "cohort") as [Hc|Hc].
    + split; auto.
    + split; [discriminate | intros; contradiction].
  - intros Hnone Hfd. unfold read_table_simulation.
    change (lowercase "Equally") with "equally"%string.
    rewrite Hnone.
    destruct (simulation_forage_distribution ins) as [fd|]; [|reflexivity].
    rewrite (Hfd fd eq_refl). reflexivity.
Qed.

Lemma find_hft_parameter_found_witness :
  find_hft_parameter
    (Some [mk_table (Some "ruminants"%string) None
             (fun key => if String.eqb key "digestion.type"
                         then Some "Ruminant"%string else None)])
    (mk_table (Some "bison"%string) (Some ["ruminants"%string])
       (fun key => if String.eqb key "digestion.type"
                   then Some "Hindgut"%string else None))
    "digestion.type" true
  = inr (Some "Hindgut"%string).
Proof.
  apply (proj1 (find_hft_parameter_found _ _ "digestion.type" true)
           "bison"%string "Hindgut"%string); reflexivity.
Defined.

Lemma find_hft_parameter_inherits_witness :
  find_hft_parameter
    (Some [mk_table (Some "large"%string) None (fun _ => None);
           mk_table (Some "ruminants"%string) None
             (fun key => if String.eqb key "digestion.type"
                         then Some "Ruminant"%string else None)])
    (mk_table (Some "bison"%string) (Some ["large"; "ruminants"]%string)
       (fun _ => None))
    "digestion.type" true
  = inr (Some "Ruminant"%string).
Proof.
  apply (find_hft_parameter_inherits _ _ "digestion.type" true
           "bison" ["large"%string] "ruminants" []
           (mk_table (Some "ruminants"%string) None
              (fun key => if String.eqb key "digestion.type"
                          then Some "Ruminant"%string else None))
           "Ruminant"%string).
  - reflexivity.
  - reflexivity.
  - reflexivity.
  - constructor; [|constructor].
    exists (mk_table (Some "large"%string) None (fun _ => None)).
    split; reflexivity.
  - reflexivity.
  - reflexivity.
Defined.

Lemma find_hft_parameter_errors_witness :
  (exists n g groups,
     missing_group "bison" "large" = missing_group n g
     /\ table_name
          (mk_table (T := string) (Some "bison"%string)
             (Some ["large"%string]) (fun _ => None)) = Some n
     /\ Some ["large"%string] = Some groups
     /\ g ∈ groups).
Proof.
  destruct (find_hft_parameter_errors (T := string) None
              (mk_table (Some "bison"%string) (Some ["large"%string])
                 (fun _ => None))
              "digestion.type" true (missing_group "bison" "large") eq_refl)
    as [[H _] | [H | [(n & g & groups & H1 & H2 & H3 & H4 & _) | (n & H & _)]]];
    try discriminate.
  exists n, g, groups. auto.
Defined.

Lemma read_table_simulation_spec_witness :
  exists p,
    read_table_simulation
      (mk_ins None None (Some 10%Z) (Some "COHORT"%string) None)
      (mk_parameters Equally 1 0 Individual false)
    = inr p.
Proof.
  apply (proj2 (proj1 (read_table_simulation_spec
                         (mk_ins None None (Some 10%Z) (Some "COHORT"%string) None)
                         (mk_parameters Equally 1 0 Individual false)))).
  split; [discriminate|]. exists "COHORT"%string.
  split; [reflexivity | left; reflexivity].
Defined.

End InsfileReaderFacts.

(** ** The demo simulator: instruction file and run *)

Module DemoSimulatorFacts.
Import DemoSimulator.

Lemma check_not_negative_ok key l :
  check_not_negative key l = inr tt <-> Forall (fun i => 0 <= i) l.
Proof.
  induction l as [|i l IH]; cbn.
  - split; [constructor | reflexivity].
  - destruct (Rltb i 0) eqn:E.
    + apply Rltb_true in E. split; [discriminate|].
      intros H. inversion H; subst. lra.
    + apply Rltb_false in E. rewrite IH. split.
      * intros H. constructor; [lra | exact H].
      * intros H. inversion H; subst. assumption.
Qed.

Lemma check_fraction_ok key too_large l :
  check_fraction key too_large l = inr tt <-> Forall (fun i => 0 <= i <= 1) l.
Proof.
  induction l as [|i l IH]; cbn.
  - split; [constructor | reflexivity].
  - destruct (Rltb i 0) eqn:E.
    + apply Rltb_true in E. split; [discriminate|].
      intros H. inversion H; subst. lra.
    + apply Rltb_false in E. destruct (Rltb 1 i) eqn:E1.
      * apply Rltb_true in E1. split; [discriminate|].
        intros H. inversion H; subst. lra.
      * apply Rltb_false in E1. rewrite IH. split.
        -- intros H. constructor; [lra | exact H].
        -- intros H. inversion H; subst. assumption.
Qed.

Lemma read_count_inv key value v :
  read_count key value = inr v <-> value = Some v /\ (1 <= v)%Z.
Proof.
  unfold read_count. destruct value as [u|].
  - destruct (Z.ltb_spec u 1).
    + split; [discriminate|]. intros [[= ->] ?]. lia.
    + split.
      * intros [= ->]. split; [reflexivity | lia].
      * intros [[= ->] _]. reflexivity.
  - split; [discriminate | intros [[=] _]].
Qed.

Lemma bind_inr {A B} (r : error + A) (k : A -> error + B) b :
  bind r k = inr b -> exists a, r = inr a /\ k a = inr b.
Proof. destruct r as [e|a]; cbn; [discriminate | eauto]. Qed.

Lemma checked_array_inv (check : list R -> error + unit) key value v :
  match value with
  | Some v => bind (check v) (fun _ => inr v)
  | None => inl (missing_parameter key)
  end = inr v ->
  value = Some v /\ check v = inr tt.
Proof.
  destruct value as [u|]; [|discriminate].
  intros H. apply bind_inr in H as ([] & Hc & [= ->]). auto.
Qed.

(** X29: when [read_instruction_file] returns, the file had every one
    of the eleven entries within its bounds, and the parameters it
    leaves behind are validated: at least one year, group and habitat
    per group, no negative snow depth, decay, growth and digestibility
    within [0, 1], the grass cover in (0, 1], and
    0 < initial mass <= saturation mass with the reserve below the
    saturation mass. *)
Theorem read_instruction_file_validates ins p :
  read_instruction_file ins = inr p -> acceptable ins /\ validated p.
Proof.
  unfold read_instruction_file. intros H.
  apply bind_inr in H as (ny & Hny & H). apply read_count_inv in Hny.
  apply bind_inr in H as (ng & Hng & H). apply read_count_inv in Hng.
  apply bind_inr in H as (nh & Hnh & H). apply read_count_inv in Hnh.
  apply bind_inr in H as (snow & Hsnow & H).
  apply checked_array_inv in Hsnow as [Hsnow Hsnow'].
  apply check_not_negative_ok in Hsnow'.
  apply bind_inr in H as (decay & Hdecay & H).
  apply checked_array_inv in Hdecay as [Hdecay Hdecay'].
  apply check_fraction_ok in Hdecay'.
  apply bind_inr in H as (growth & Hgrowth & H).
  apply checked_array_inv in Hgrowth as [Hgrowth Hgrowth'].
  apply check_fraction_ok in Hgrowth'.
  apply bind_inr in H as (dig & Hdig & H).
  apply checked_array_inv in Hdig as [Hdig Hdig'].
  apply check_fraction_ok in Hdig'.
  apply bind_inr in H as (f & Hf & H).
  destruct (grass_fpc ins) as [f'|] eqn:Ef; [|discriminate].
  destruct (Rleb f' 0) eqn:Ef0; [discriminate|].
  destruct (Rltb 1 f') eqn:Ef1; [discriminate|].
  cbn in Hf. injection Hf as ->.
  apply Rleb_false in Ef0. apply Rltb_false in Ef1.
  apply bind_inr in H as (init & Hinit & H).
  destruct (grass_initial_mass ins) as [i|] eqn:Ei; [|discriminate].
  cbv zeta in Hinit.
  destruct (Rleb (g_m2_to_kg_km2 (IZR i)) 0) eqn:Ei0; [discriminate|].
  injection Hinit as <-. apply Rleb_false in Ei0.
  apply bind_inr in H as (sat & Hsat & H).
  destruct (grass_saturation_mass ins) as [s|] eqn:Es; [|discriminate].
  cbv zeta in Hsat.
  destruct (Rltb (g_m2_to_kg_km2 (IZR s)) (g_m2_to_kg_km2 (IZR i))) eqn:Es0;
    [discriminate|].
  injection Hsat as <-. apply Rltb_false in Es0.
  apply bind_inr in H as (res & Hres & H).
  destruct (grass_ungrazeable_reserve ins) as [r|] eqn:Er; [|discriminate].
  cbv zeta in Hres.
  destruct (Rleb (g_m2_to_kg_km2 (IZR s)) (g_m2_to_kg_km2 (IZR r))) eqn:Er0;
    [discriminate|].
  injection Hres as <-. apply Rleb_false in Er0.
  injection H as <-.
  unfold g_m2_to_kg_km2 in *.
  assert (0 < i)%Z as Hi by (apply lt_IZR; lra).
  assert (i <= s)%Z as His by (apply le_IZR; lra).
  assert (r < s)%Z as Hrs by (apply lt_IZR; lra).
  split.
  - unfold acceptable.
    split; [exists ny; tauto|]. split; [exists ng; tauto|].
    split; [exists nh; tauto|]. split; [exists snow; tauto|].
    split; [exists decay; tauto|]. split; [exists growth; tauto|].
    split; [exists dig; tauto|].
    split; [exists f; split; [assumption | lra]|].
    exists i, s, r. tauto.
  - unfold validated. cbn.
    split; [tauto|]. split; [tauto|]. split; [tauto|].
    split; [assumption|]. split; [assumption|]. split; [assumption|].
    split; [assumption|]. split; [lra|]. split; lra.
Qed.

Lemma read_instruction_file_accepts ins :
  acceptable ins ->
  exists p, read_instruction_file ins = inr p
            /\ general_years ins = Some (nyears p)
            /\ general_habitat_groups ins = Some (ngroups p)
            /\ general_habitats_per_group ins = Some (nhabitats_per_group p).
Proof.
  intros ((ny & Hny & ?) & (ng & Hng & ?) & (nh & Hnh & ?)
          & (snow & Hsnow & Hsnow') & (decay & Hdecay & Hdecay')
          & (growth & Hgrowth & Hgrowth') & (dig & Hdig & Hdig')
          & (f & Hf & ?) & (i & s & r & Hi & Hs & Hr & ? & ? & ?)).
  assert (IZR 0 < IZR i) by (apply IZR_lt; assumption).
  assert (IZR i <= IZR s) by (apply IZR_le; assumption).
  assert (IZR r < IZR s) by (apply IZR_lt; assumption).
  unfold read_instruction_file.
  rewrite Hny, Hng, Hnh, Hsnow, Hdecay, Hgrowth, Hdig, Hf, Hi, Hs, Hr.
  unfold read_count.
  destruct (Z.ltb_spec ny 1); [lia|].
  destruct (Z.ltb_spec ng 1); [lia|].
  destruct (Z.ltb_spec nh 1); [lia|].
  cbn [bind].
  apply (check_not_negative_ok "environment.snow_depth") in Hsnow'.
  apply (check_fraction_ok "grass.daily_decay_rate"
           " must be smaller than 1.") in Hdecay'.
  apply (check_fraction_ok "grass.daily_growth_rate"
           " must smaller than 1.") in Hgrowth'.
  apply (check_fraction_ok "grass.digestibility"
           " must smaller than 1.") in Hdig'.
  rewrite Hsnow', Hdecay', Hgrowth', Hdig'. cbn [bind].
  replace (Rleb f 0) with false
    by (symmetry; apply Rleb_false; lra).
  replace (Rltb 1 f) with false
    by (symmetry; apply Rltb_false; lra).
  cbn [orb bind]. cbv zeta. unfold g_m2_to_kg_km2.
  replace (Rleb (IZR i * 1000) 0) with false
    by (symmetry; apply Rleb_false; lra).
  cbn [bind].
  replace (Rltb (IZR s * 1000) (IZR i * 1000)) with false
    by (symmetry; apply Rltb_false; lra).
  cbn [bind].
  replace (Rleb (IZR s * 1000) (IZR r * 1000)) with false
    by (symmetry; apply Rleb_false; lra).
  cbn [bind].
  eexists. split; [reflexivity|]. cbn. auto.
Qed.

Section RunFacts.

Context {World Date : Type}.
Variable new_world : string -> thrown + World.
Variable parse_file : string -> thrown + instruction_file.
Variable create_simulation_unit :
  World -> HabitatParameters -> Z -> thrown + World.
Variable new_date : Z -> Z -> thrown + Date.
Variable simulate_day : World -> Date -> thrown + World.

Hypothesis create_succeeds :
  forall w h g, exists w', create_simulation_unit w h g = inr w'.
Hypothesis date_succeeds : forall d y, exists date, new_date d y = inr date.
Hypothesis simulate_succeeds :
  forall w date, exists w', simulate_day w date = inr w'.

Lemma create_habitats_succeeds n p g w :
  exists w', create_habitats create_simulation_unit n p g w = inr w'.
Proof using create_succeeds.
  revert w. induction n as [|n IH]; intros w; cbn; [eauto|].
  destruct (create_succeeds w (habitat p) g) as [w' ->]. apply IH.
Qed.

Lemma create_groups_succeeds n p g w :
  exists w', create_groups create_simulation_unit n p g w = inr w'.
Proof using create_succeeds.
  revert g w. induction n as [|n IH]; intros g w; cbn; [eauto|].
  destruct (create_habitats_succeeds (Z.to_nat (nhabitats_per_group p)) p g w)
    as [w' ->].
  apply IH.
Qed.

Lemma simulate_days_succeeds n day year w :
  exists w', simulate_days new_date simulate_day n day year w = inr w'.
Proof using date_succeeds simulate_succeeds.
  revert day w. induction n as [|n IH]; intros day w; cbn; [eauto|].
  destruct (date_succeeds day year) as [date ->].
  destruct (simulate_succeeds w date) as [w' ->]. apply IH.
Qed.

Lemma print_progress_few p year :
  (nyears p < 10)%Z -> (1 <= nyears p)%Z ->
  print_progress p year = inl division_by_zero.
Proof.
  intros H1 H2. unfold print_progress.
  rewrite (Z.quot_small (nyears p) 10) by lia. reflexivity.
Qed.

Lemma print_progress_many p year :
  (10 <= nyears p)%Z -> (0 <= year < nyears p)%Z ->
  print_progress p year =
    if prints (nyears p) year
    then if (INT_MAX <? 100 * year)%Z then inl signed_overflow
         else inr (Some (percent (nyears p) year))
    else inr None.
Proof.
  intros H1 H2. unfold print_progress, prints, percent.
  assert (1 <= Z.quot (nyears p) 10)%Z as Hq
    by (apply Z.quot_le_lower_bound; lia).
  destruct (Z.eqb_spec (Z.quot (nyears p) 10) 0); [lia|].
  destruct (Z.eqb_spec (nyears p - 1) 0); [lia|]. reflexivity.
Qed.

Lemma simulate_years_few n p year w printed :
  (nyears p < 10)%Z -> (1 <= nyears p)%Z ->
  simulate_years new_date simulate_day (S n) p year w printed
  = (Undefined division_by_zero, printed).
Proof using date_succeeds simulate_succeeds.
  intros H1 H2. cbn [simulate_years].
  destruct (simulate_days_succeeds 365 0 year w) as [w' ->].
  rewrite print_progress_few by assumption. reflexivity.
Qed.

Lemma simulate_years_many n p year w printed :
  (10 <= nyears p)%Z -> (100 * (nyears p - 1) <= INT_MAX)%Z ->
  (0 <= year)%Z -> (year + Z.of_nat n = nyears p)%Z ->
  simulate_years new_date simulate_day n p year w printed
  = (Returned true,
     printed ++ map (percent (nyears p))
                  (List.filter (prints (nyears p))
                     (map Z.of_nat (seq (Z.to_nat year) n)))).
Proof using date_succeeds simulate_succeeds.
  intros H1 H2. revert year w printed.
  induction n as [|n IH]; intros year w printed Hy Hn.
  - cbn. rewrite app_nil_r. reflexivity.
  - cbn [simulate_years].
    destruct (simulate_days_succeeds 365 0 year w) as [w' ->].
    rewrite print_progress_many by lia.
    cbn [seq map List.filter]. rewrite Z2Nat.id by lia.
    replace (S (Z.to_nat year)) with (Z.to_nat (year + 1)) by lia.
    destruct (prints (nyears p) year).
    + destruct (Z.ltb_spec INT_MAX (100 * year)); [lia|].
      rewrite IH by lia. cbn [map]. rewrite <- app_assoc. reflexivity.
    + apply IH; lia.
Qed.

Lemma simulate_years_overflow n p year w printed :
  (10 <= nyears p)%Z -> (INT_MAX < 100 * (nyears p - 1))%Z ->
  (0 <= year)%Z -> (year + Z.of_nat (S n) = nyears p)%Z ->
  fst (simulate_years new_date simulate_day (S n) p year w printed)
  = Undefined signed_overflow.
Proof using date_succeeds simulate_succeeds.
  intros H1 H2. revert year w printed.
  induction n as [|n IH]; intros year w printed Hy Hn.
  - cbn [simulate_years].
    destruct (simulate_days_succeeds 365 0 year w) as [w' ->].
    rewrite print_progress_many by lia. unfold prints.
    replace (year =? nyears p - 1)%Z with true
      by (symmetry; apply Z.eqb_eq; lia).
    rewrite orb_true_r.
    destruct (Z.ltb_spec INT_MAX (100 * year)); [reflexivity | lia].
  - remember (S n) as m. cbn [simulate_years].
    destruct (simulate_days_succeeds 365 0 year w) as [w' ->].
    rewrite print_progress_many by lia.
    destruct (prints (nyears p) year).
    + destruct (Z.ltb_spec INT_MAX (100 * year)); [reflexivity|].
      subst m. apply IH; lia.
    + subst m. apply IH; lia.
Qed.

(** X30: a run whose collaborators never throw and whose instruction
    file is accepted, with [n] years.  Below ten years the progress
    interval [n / 10] is zero and the run divides by zero at the end of
    its first year, before it has printed anything; from ten years on,
    as long as 100 * (n - 1) fits an int, it returns true, having
    printed the percentage [100 * year / (n - 1)] for the years that are
    multiples of the interval and for the last year; with more years
    than that the product [100 * year] overflows. *)
Theorem run_outcome insfile_fauna insfile_demo w ins n :
  new_world insfile_fauna = inr w ->
  parse_file insfile_demo = inr ins ->
  acceptable ins ->
  general_years ins = Some n ->
  let result := run new_world parse_file create_simulation_unit new_date
                  simulate_day insfile_fauna insfile_demo in
  fst result
  = (if (n <? 10)%Z then Undefined division_by_zero
     else if (100 * (n - 1) <=? INT_MAX)%Z then Returned true
     else Undefined signed_overflow)
  /\ ((n < 10)%Z -> snd result = [])
  /\ ((10 <= n)%Z -> (100 * (n - 1) <= INT_MAX)%Z ->
      snd result = map (percent n) (progress_years n)).
Proof using create_succeeds date_succeeds simulate_succeeds.
  intros Hw Hf Hacc Hn result. subst result. unfold run.
  rewrite Hw, Hf.
  destruct (read_instruction_file_accepts ins Hacc)
    as (p & -> & Hny & _ & _).
  assert (nyears p = n) as Hp by congruence.
  assert (1 <= n)%Z as H1.
  { destruct Hacc as ((v & Hv & ?) & _). congruence. }
  destruct (create_groups_succeeds (Z.to_nat (ngroups p)) p 0 w) as [w' ->].
  rewrite Hp.
  destruct (Z.ltb_spec n 10) as [Hlt|Hge].
  - destruct (Z.to_nat n) as [|m] eqn:Em; [lia|].
    rewrite simulate_years_few by lia. cbn. split; [reflexivity|].
    split; [reflexivity | lia].
  - destruct (Z.leb_spec (100 * (n - 1)) INT_MAX) as [Hle|Hgt].
    + rewrite simulate_years_many by lia. cbn [fst snd app].
      split; [reflexivity|]. split; [lia|]. intros _ _.
      rewrite Hp. reflexivity.
    + destruct (Z.to_nat n) as [|m] eqn:Em; [lia|].
      rewrite simulate_years_overflow by lia.
      split; [reflexivity|]. split; intros; lia.
Qed.

End RunFacts.


Lemma example_file_acceptable : acceptable example_file.
Proof.
  unfold acceptable, example_file; cbn.
  split; [exists 3%Z; split; [reflexivity | lia]|].
  split; [exists 2%Z; split; [reflexivity | lia]|].
  split; [exists 1%Z; split; [reflexivity | lia]|].
  split; [eexists; split; [reflexivity|]; repeat constructor; lra|].
  split; [eexists; split; [reflexivity|]; repeat constructor; lra|].
  split; [eexists; split; [reflexivity|]; repeat constructor; lra|].
  split; [eexists; split; [reflexivity|]; repeat constructor; lra|].
  split; [eexists; split; [reflexivity | lra]|].
  exists 20%Z, 200%Z, 20%Z. repeat split; try reflexivity; lia.
Qed.

Lemma example_file_read :
  read_instruction_file example_file = inr example_parameters.
Proof.
  unfold read_instruction_file, example_file, read_count; cbn.
  repeat (match goal with
  | |- context [Rltb ?a ?b] =>
      first [ rewrite (proj2 (Rltb_false a b)) by (unfold g_m2_to_kg_km2; lra)
            | rewrite (proj2 (Rltb_true a b)) by (unfold g_m2_to_kg_km2; lra) ]
  | |- context [Rleb ?a ?b] =>
      first [ rewrite (proj2 (Rleb_false a b)) by (unfold g_m2_to_kg_km2; lra)
            | rewrite (proj2 (Rleb_true a b)) by (unfold g_m2_to_kg_km2; lra) ]
  end; cbn).
  reflexivity.
Qed.

Lemma read_instruction_file_validates_witness :
  acceptable example_file /\ validated example_parameters.
Proof.
  exact (read_instruction_file_validates example_file example_parameters
           example_file_read).
Defined.

Lemma run_outcome_witness :
  let result :=
    run (World := unit) (Date := unit)
      (fun _ => inr tt) (fun _ => inr example_file)
      (fun _ _ _ => inr tt) (fun _ _ => inr tt) (fun _ _ => inr tt)
      "fauna.toml" "demo.toml" in
  fst result = Undefined division_by_zero
  /\ ((3 < 10)%Z -> snd result = [])
  /\ ((10 <= 3)%Z -> (100 * (3 - 1) <= INT_MAX)%Z ->
      snd result = map (percent 3) (progress_years 3)).
Proof.
  apply (run_outcome (World := unit) (Date := unit)
           (fun _ => inr tt) (fun _ => inr example_file)
           (fun _ _ _ => inr tt) (fun _ _ => inr tt) (fun _ _ => inr tt)
           (fun _ _ _ => ex_intro _ tt eq_refl)
           (fun _ _ => ex_intro _ tt eq_refl)
           (fun _ _ => ex_intro _ tt eq_refl)
           "fauna.toml" "demo.toml" tt example_file 3%Z
           eq_refl eq_refl example_file_acceptable eq_refl).
Defined.

End DemoSimulatorFacts.
